(** * pyflink/fn_execution/operations.py: the stream group-aggregate operations

    A shallow embedding of the dispatch layer of the Python aggregate
    operations: [AbstractStreamGroupAggregateOperation],
    [StreamGroupWindowAggregateOperation] and the timer service of
    [ProcessFunctionOperation].

    Conventions.
    - Python [int] is [Z]; [bytes] is [list byte]; [str] is [string].
    - A Python exception is a value of [PyException]; a Python function that
      may raise returns a [PyResult].
    - The aggregate functions the operations drive ([GroupAggFunction],
      [GroupWindowAggFunction]) live in other modules.  A method of an
      operation is therefore a program [Prog E A] over the calls [E] it makes
      on its collaborator; [exec] runs such a program against any
      implementation of the collaborator and records the calls it made. *)

From Stdlib Require Import ZArith String Ascii Strings.Byte List DecimalString.
From stdpp Require Import base option list gmap strings.

Local Open Scope string_scope.
Local Open Scope list_scope.
Local Open Scope Z_scope.

(** ** Python values and exceptions *)

Inductive PyException : Type :=
| Exception (msg : string)
| AttributeError (msg : string)
| IndexError (msg : string)
| SyntaxError (msg : string).

Definition PyResult (A : Type) : Type := PyException + A.

Definition ok {A} (a : A) : PyResult A := inr a.
Definition raise {A} (e : PyException) : PyResult A := inl e.

Definition result_bind {A B} (r : PyResult A) (f : A -> PyResult B) : PyResult B :=
  match r with
  | inl e => inl e
  | inr a => f a
  end.

(** Evaluating the elements of a list display left to right: the first
    exception wins. *)
Fixpoint result_map {A B} (f : A -> PyResult B) (l : list A) : PyResult (list B) :=
  match l with
  | [] => ok []
  | x :: l' =>
      result_bind (f x) (fun y =>
      result_bind (result_map f l') (fun ys => ok (y :: ys)))
  end.

(** The value of a field of a row: opaque to the operations. *)
Inductive Value : Type :=
| VNone
| VInt (z : Z)
| VStr (s : string).

(** [pyflink.common.RowKind], with [RowKind_value] its [.value]. *)
Inductive RowKind : Type := INSERT | UPDATE_BEFORE | UPDATE_AFTER | DELETE.

Definition RowKind_value (k : RowKind) : Z :=
  match k with
  | INSERT => 0
  | UPDATE_BEFORE => 1
  | UPDATE_AFTER => 2
  | DELETE => 3
  end.

(** [pyflink.table.Row]: the field values and the row kind. *)
Record Row : Type := mkRow {
  _values : list Value;
  get_row_kind : RowKind
}.

(** [coder_impl_fast.InternalRow(values, row_kind)]. *)
Record InternalRow : Type := mkInternalRow {
  ir_values : list Value;
  ir_row_kind : Z
}.

(** The row handed to [GroupWindowAggFunction.process_element]: the input
    row itself, or its [InternalRow] when the cython modules are loaded. *)
Inductive InputRow : Type :=
| PlainRow (r : Row)
| FastRow (r : InternalRow).

(** ** Module constants (operations.py, lines 289-292) *)

Definition NORMAL_RECORD : Z := 0.
Definition TRIGGER_TIMER : Z := 1.
Definition REGISTER_EVENT_TIMER : Z := 0.
Definition REGISTER_PROCESSING_TIMER : Z := 1.

(** ** Programs over the calls of a collaborator *)

Inductive Prog (E : Type -> Type) (A : Type) : Type :=
| Ret (a : A)
| Raise (e : PyException)
| Vis (X : Type) (c : E X) (k : X -> Prog E A).

Arguments Ret {E A} a.
Arguments Raise {E A} e.
Arguments Vis {E A X} c k.

Fixpoint prog_bind {E A B} (p : Prog E A) (f : A -> Prog E B) : Prog E B :=
  match p with
  | Ret a => f a
  | Raise e => Raise e
  | Vis c k => Vis c (fun x => prog_bind (k x) f)
  end.

Definition call {E X} (c : E X) : Prog E X := Vis c Ret.

#[export] Instance prog_ret {E} : MRet (Prog E) := fun _ a => Ret a.
#[export] Instance prog_mbind {E} : MBind (Prog E) :=
  fun _ _ f p => prog_bind p f.

(** One recorded call: the method and its arguments. *)
Definition Event (E : Type -> Type) : Type := { X : Type & E X }.
Definition event {E X} (c : E X) : Event E := existT X c.

(** An implementation of the collaborator over a state [S]: each call
    returns or raises, and leaves a new state. *)
Definition Handler (E : Type -> Type) (S : Type) : Type :=
  forall X, E X -> S -> PyResult X * S.

(** Running a program: its outcome, the final state of the collaborator and
    the calls made, oldest first.  An exception raised by a call propagates
    and ends the run. *)
Fixpoint exec {E S A} (h : Handler E S) (p : Prog E A) (s : S)
  : PyResult A * S * list (Event E) :=
  match p with
  | Ret a => (inr a, s, [])
  | Raise e => (inl e, s, [])
  | Vis c k =>
      match h _ c s with
      | (inl e, s') => (inl e, s', [event c])
      | (inr x, s') =>
          let '(r, s'', tr) := exec h (k x) s' in
          (r, s'', event c :: tr)
      end
  end.

Definition outcome {E S A} (r : PyResult A * S * list (Event E)) : PyResult A :=
  r.1.1.
Definition final_state {E S A} (r : PyResult A * S * list (Event E)) : S :=
  r.1.2.
Definition calls {E S A} (r : PyResult A * S * list (Event E)) : list (Event E) :=
  r.2.

(** A collaborator none of whose methods raises. *)
Definition never_raises {E S} (h : Handler E S) : Prop :=
  forall X (c : E X) s, exists x s', h X c s = (inr x, s').

(** Python's [l[i]]: a negative index counts from the end, and an index
    outside the list raises [IndexError]. *)
Definition py_index {A} (l : list A) (i : Z) : PyResult A :=
  let n := Z.of_nat (length l) in
  let j := if i <? 0 then i + n else i in
  if (0 <=? j) && (j <? n) then
    match l !! Z.to_nat j with
    | Some x => ok x
    | None => raise (IndexError "list index out of range")
    end
  else raise (IndexError "list index out of range").

(** ** The non-windowed aggregate functions, as seen by the operation *)

Module GroupAggFunction.

(** The methods of [GroupAggFunction] and [GroupTableAggFunction] that
    [AbstractStreamGroupAggregateOperation] calls. *)
Inductive Call : Type -> Type :=
| process_element (element : Row) : Call unit
| on_timer (key : Row) : Call unit
| finish_bundle : Call (list Row).

End GroupAggFunction.

(** ** class AbstractStreamGroupAggregateOperation *)

Module AbstractStreamGroupAggregateOperation.
Import GroupAggFunction.

(** One input of a batch:
    [[element_type, element(for process_element), timestamp(for timer),
      key(for timer)]].  Every field but [element_type] is nullable; the
    branch taken for a tag reads only the field that the tag sets, so the
    record carries a value in each. *)
Record InputData : Type := mkInputData {
  element_type : Z;
  element : Row;
  timestamp : Z;
  key : Row
}.

(** The body of the [for input_data in input_datas] loop. *)
Definition dispatch (input_data : InputData) : Prog Call unit :=
  if element_type input_data =? NORMAL_RECORD then
    call (process_element (element input_data))
  else
    call (on_timer (key input_data)).

Fixpoint for_each_input (input_datas : list InputData) : Prog Call unit :=
  match input_datas with
  | [] => mret tt
  | input_data :: rest => _ ← dispatch input_data; for_each_input rest
  end.

Definition process_element_or_timer (input_datas : list InputData)
  : Prog Call (list Row) :=
  _ ← for_each_input input_datas;
  call finish_bundle.

(** *** generate_func: the shared distinct views *)

Section generate_func.
(** The objects [generate_func] only passes on. *)
Context {Udf UserDefinedAgg InputExtractor DistinctKey DataViewSpec
         ProcessFunction : Type}.

(** [distinct_info_dict]: in insertion order, for each distinct view
    the indexes of the functions that share it and their filter args. *)
Definition DistinctInfoDict : Type :=
  list (DistinctKey * (list Z * list Z)).

Definition dict_values (d : DistinctInfoDict) : list (list Z * list Z) :=
  map snd d.

(** [operation_utils.extract_user_defined_aggregate_function], declared
    in another module: it returns
    [(user_defined_agg, input_extractor, filter_arg, distinct_index)] and
    updates [distinct_info_dict] in place. *)
Variable extract_user_defined_aggregate_function :
  Z -> Udf -> DistinctInfoDict ->
  PyResult (UserDefinedAgg * InputExtractor * Z * Z) * DistinctInfoDict.

Record DistinctViewDescriptor : Type := mkDistinctViewDescriptor {
  input_extractor : InputExtractor;
  filter_args : list Z
}.

Record RowKeySelector : Type := mkRowKeySelector { grouping : list Z }.

Inductive StateValueCoder : Type :=
| DataViewFilterCoder (data_view_specs : list DataViewSpec)
| PickleCoder.

(** The abstract method [create_process_function]. *)
Variable create_process_function :
  list UserDefinedAgg -> list InputExtractor -> list Z -> list Z ->
  gmap Z DistinctViewDescriptor -> RowKeySelector -> StateValueCoder ->
  PyResult ProcessFunction.

(** The lists the first loop appends to. *)
Record Extracted : Type := mkExtracted {
  user_defined_aggs : list UserDefinedAgg;
  input_extractors : list InputExtractor;
  ex_filter_args : list Z;
  distinct_indexes : list Z;
  distinct_info_dict : DistinctInfoDict
}.

(** [for i in range(len(serialized_fn.udfs))], from index [i] on. *)
Fixpoint extract_loop (i : Z) (udfs : list Udf) (acc : Extracted)
  : PyResult Extracted :=
  match udfs with
  | [] => ok acc
  | udf :: rest =>
      match extract_user_defined_aggregate_function
              i udf (distinct_info_dict acc) with
      | (inl e, _) => raise e
      | (inr (user_defined_agg, input_extractor, filter_arg, distinct_index), d) =>
          extract_loop (i + 1) rest
            {| user_defined_aggs := user_defined_aggs acc ++ [user_defined_agg];
               input_extractors := input_extractors acc ++ [input_extractor];
               ex_filter_args := ex_filter_args acc ++ [filter_arg];
               distinct_indexes := distinct_indexes acc ++ [distinct_index];
               distinct_info_dict := d |}
      end
  end.

(** [for agg_index_list, filter_arg_list in distinct_info_dict.values()]. *)
Fixpoint descriptor_loop (extractors : list InputExtractor)
    (values : list (list Z * list Z))
    (distinct_view_descriptors : gmap Z DistinctViewDescriptor)
  : PyResult (gmap Z DistinctViewDescriptor) :=
  match values with
  | [] => ok distinct_view_descriptors
  | (agg_index_list, filter_arg_list) :: rest =>
      let filter_arg_list :=
        if bool_decide ((-1) ∈ filter_arg_list) then [] else filter_arg_list in
      result_bind (py_index agg_index_list 0) (fun first =>
      result_bind (py_index extractors first) (fun extractor =>
      descriptor_loop extractors rest
        (<[first := mkDistinctViewDescriptor extractor filter_arg_list]>
           distinct_view_descriptors)))
  end.

Definition generate_func (self_grouping : list Z)
    (self_data_view_specs : list DataViewSpec) (udfs : list Udf)
  : PyResult ProcessFunction :=
  result_bind (extract_loop 0 udfs (mkExtracted [] [] [] [] [])) (fun x =>
  result_bind
    (descriptor_loop (input_extractors x) (dict_values (distinct_info_dict x)) ∅)
    (fun distinct_view_descriptors =>
  let key_selector := mkRowKeySelector self_grouping in
  let state_value_coder :=
    if 0 <? Z.of_nat (length self_data_view_specs)
    then DataViewFilterCoder self_data_view_specs
    else PickleCoder in
  create_process_function
    (user_defined_aggs x) (input_extractors x) (ex_filter_args x)
    (distinct_indexes x) distinct_view_descriptors key_selector
    state_value_coder)).

End generate_func.

End AbstractStreamGroupAggregateOperation.

(** ** Windows and timers *)

(** Modelled from the spec: the window classes ([pyflink.fn_execution.window])
    are declared outside this file.  A time window is identified by its
    [(start, end)] timestamps, a count window by an element count boundary;
    only a time window has the attributes [start] and [end]. *)
Inductive Window : Type :=
| TimeWindow (start end_ : Z)
| CountWindow (id : Z).

Definition Window_start (value : Window) : PyResult Z :=
  match value with
  | TimeWindow start _ => ok start
  | CountWindow _ =>
      raise (AttributeError "'CountWindow' object has no attribute 'start'")
  end.

Definition Window_end (value : Window) : PyResult Z :=
  match value with
  | TimeWindow _ end_ => ok end_
  | CountWindow _ =>
      raise (AttributeError "'CountWindow' object has no attribute 'end'")
  end.

Module TimerOperandType.

(** Modelled from the spec: [pyflink.datastream.timerservice.TimerOperandType]
    is declared outside this file.  The four operand kinds are
    register-event, register-processing, delete-event and
    delete-processing; the first two carry the values of the constants
    [REGISTER_EVENT_TIMER] and [REGISTER_PROCESSING_TIMER] above. *)
Inductive t : Type :=
| REGISTER_EVENT_TIMER
| REGISTER_PROC_TIMER
| DELETE_EVENT_TIMER
| DELETE_PROC_TIMER.

Definition value (o : t) : Z :=
  match o with
  | REGISTER_EVENT_TIMER => 0
  | REGISTER_PROC_TIMER => 1
  | DELETE_EVENT_TIMER => 2
  | DELETE_PROC_TIMER => 3
  end.

End TimerOperandType.

(** [InternalTimerImpl(timestamp, key, namespace)] with its three getters. *)
Record InternalTimer : Type := InternalTimerImpl {
  get_timestamp : Z;
  get_key : list Value;
  get_namespace : Window
}.

(** The namespace coder of the keyed state backend. *)
Record NamespaceCoder : Type := mkNamespaceCoder {
  encode_nested : Window -> list byte;
  decode_nested : list byte -> Window
}.

(** The entries an operation hands back to its caller: Python lists of
    ints, rows, keys, bytes and [None]. *)
#[warnings="-register-all"]
Inductive PyVal : Type :=
| PyNone
| PyInt (z : Z)
| PyRow (r : Row)
| PyKey (k : list Value)
| PyBytes (b : list byte)
| PyList (l : list PyVal).

(** ** The windowed aggregate function, as seen by the operation *)

Module GroupWindowAggFunction.

Inductive Call : Type -> Type :=
| process_watermark (watermark : Z) : Call unit
| process_element (input_row : InputRow) : Call (list Row)
| get_timers : Call (list (TimerOperandType.t * InternalTimer))
| on_event_time (timer : InternalTimer) : Call (list Row)
| on_processing_time (timer : InternalTimer) : Call (list Row).

End GroupWindowAggFunction.

(** ** The [GroupWindow] message of flink_fn_execution_pb2 *)

Module GroupWindow.

Inductive WindowType : Type :=
| TUMBLING_GROUP_WINDOW
| SLIDING_GROUP_WINDOW
| SESSION_GROUP_WINDOW.

(** A repeated enum field keeps a number it does not know. *)
Inductive WindowProperty : Type :=
| WINDOW_START
| WINDOW_END
| ROW_TIME_ATTRIBUTE
| PROC_TIME_ATTRIBUTE
| UNRECOGNIZED (number : Z).

Record t : Type := mk {
  window_type : WindowType;
  is_time_window : bool;
  window_size : Z;
  is_row_time : bool;
  allowedLateness : Z;
  time_field_index : Z;
  namedProperties : list WindowProperty
}.

End GroupWindow.

(** ** class StreamGroupWindowAggregateOperation *)

Module StreamGroupWindowAggregateOperation.
Import GroupWindowAggFunction.

(** *** _create_named_property_function *)

(** [str(n)] for a Python int. *)
Definition str_of_int (n : Z) : string :=
  NilZero.string_of_int (Z.to_int n).

(** The source text appended for one named property, or the exception
    of the final [else]. *)
Definition named_property_source (named_property : GroupWindow.WindowProperty)
  : PyResult string :=
  match named_property with
  | GroupWindow.WINDOW_START => ok "value.start"
  | GroupWindow.WINDOW_END => ok "value.end"
  | GroupWindow.ROW_TIME_ATTRIBUTE => ok "value.end - 1"
  | GroupWindow.PROC_TIME_ATTRIBUTE => ok "-1"
  | GroupWindow.UNRECOGNIZED n =>
      raise (Exception (String.append "Unexpected property " (str_of_int n)))
  end.

(** [for named_property in self._window.namedProperties]. *)
Fixpoint named_property_loop (namedProperties : list GroupWindow.WindowProperty)
    (named_property_extractor_array : list string) : PyResult (list string) :=
  match namedProperties with
  | [] => ok named_property_extractor_array
  | named_property :: rest =>
      result_bind (named_property_source named_property) (fun src =>
      named_property_loop rest (named_property_extractor_array ++ [src]))
  end.

(** [','.join(array)]. *)
Definition join_commas (array : list string) : string :=
  String.concat "," array.

(** The elements of a list display, split at the commas. *)
Fixpoint split_commas (current : string) (s : string) : list string :=
  match s with
  | EmptyString => [current]
  | String c s' =>
      if Ascii.eqb c ","
      then current :: split_commas EmptyString s'
      else split_commas (String.append current (String c EmptyString)) s'
  end.

(** Python's value of one of the expressions the loop can append, with
    [value] bound to a window. *)
Definition eval_expression (source : string) (value : Window) : PyResult Z :=
  if String.eqb source "value.start" then Window_start value
  else if String.eqb source "value.end" then Window_end value
  else if String.eqb source "value.end - 1" then
    result_bind (Window_end value) (fun end_ => ok (end_ - 1))
  else if String.eqb source "-1" then ok (-1)
  else raise (SyntaxError source).

(** [eval('lambda value: [%s]' % named_property_extractor_str)]. *)
Definition eval_lambda_list (named_property_extractor_str : string)
  : Window -> PyResult (list Z) :=
  fun value =>
    result_map (fun source => eval_expression source value)
               (split_commas EmptyString named_property_extractor_str).

(** A Python [str] is true when it is not empty. *)
Definition str_truthy (s : string) : bool :=
  match s with
  | EmptyString => false
  | String _ _ => true
  end.

Definition _create_named_property_function
    (namedProperties : list GroupWindow.WindowProperty)
  : PyResult (option (Window -> PyResult (list Z))) :=
  result_bind (named_property_loop namedProperties []) (fun array =>
  let named_property_extractor_str := join_commas array in
  if str_truthy named_property_extractor_str then
    ok (Some (eval_lambda_list named_property_extractor_str))
  else
    ok None).

(** *** create_process_function *)

Inductive WindowAssigner : Type :=
| TumblingWindowAssigner (size offset : Z) (is_event_time : bool)
| CountTumblingWindowAssigner (size : Z).

Inductive Trigger : Type :=
| EventTimeTrigger
| ProcessingTimeTrigger
| CountTrigger (count_elements : Z).

Record RemoteKeyedStateBackend : Type := mkBackend {
  _namespace_coder_impl : NamespaceCoder
}.

Section create_process_function.
(** The objects [create_process_function] only passes on. *)
Context {UserDefinedAgg InputExtractor DistinctViewDescriptors KeySelector
         StateValueCoder DataViewSpec : Type}.

(** The attributes of [self] that the method reads. *)
Record Self : Type := mkSelf {
  _window : GroupWindow.t;
  _named_property_extractor : option (Window -> PyResult (list Z));
  keyed_state_backend : RemoteKeyedStateBackend;
  index_of_count_star : Z;
  count_star_inserted : bool;
  data_view_specs : list DataViewSpec
}.

(** The arguments of the [SimpleNamespaceAggsHandleFunction] built. *)
Record SimpleNamespaceAggsHandleFunction : Type := mkAggsHandle {
  ah_user_defined_aggs : list UserDefinedAgg;
  ah_input_extractors : list InputExtractor;
  ah_index_of_count_star : Z;
  ah_count_star_inserted : bool;
  ah_named_property_extractor : option (Window -> PyResult (list Z));
  ah_data_view_specs : list DataViewSpec;
  ah_filter_args : list Z;
  ah_distinct_indexes : list Z;
  ah_distinct_view_descriptors : DistinctViewDescriptors
}.

(** The arguments of the [GroupWindowAggFunction] returned. *)
Record GroupWindowAggFunction : Type := mkGroupWindowAggFunction {
  gw_allowed_lateness : Z;
  gw_key_selector : KeySelector;
  gw_state_backend : RemoteKeyedStateBackend;
  gw_state_value_coder : StateValueCoder;
  gw_window_assigner : WindowAssigner;
  gw_window_aggregator : SimpleNamespaceAggsHandleFunction;
  gw_trigger : Trigger;
  gw_rowtime_index : Z
}.

(** The choice of the window assigner (lines 438-449). *)
Definition create_window_assigner (window : GroupWindow.t)
    (_is_time_window : bool) : PyResult WindowAssigner :=
  match GroupWindow.window_type window with
  | GroupWindow.TUMBLING_GROUP_WINDOW =>
      if _is_time_window then
        ok (TumblingWindowAssigner
              (GroupWindow.window_size window) 0 (GroupWindow.is_row_time window))
      else
        ok (CountTumblingWindowAssigner (GroupWindow.window_size window))
  | GroupWindow.SLIDING_GROUP_WINDOW =>
      raise (Exception
        "General Python UDAF in Sliding window will be implemented in FLINK-21629")
  | _ =>
      raise (Exception
        "General Python UDAF in Sessiong window will be implemented in FLINK-21630")
  end.

(** The choice of the trigger (lines 450-456). *)
Definition create_trigger (window : GroupWindow.t) (_is_time_window : bool)
  : Trigger :=
  if _is_time_window then
    if GroupWindow.is_row_time window then EventTimeTrigger
    else ProcessingTimeTrigger
  else CountTrigger (GroupWindow.window_size window).

(** The method also stores [_is_time_window] and [_namespace_coder] on
    [self]; they are the two local values here. *)
Definition create_process_function (self : Self)
    (user_defined_aggs : list UserDefinedAgg)
    (input_extractors : list InputExtractor)
    (filter_args distinct_indexes : list Z)
    (distinct_view_descriptors : DistinctViewDescriptors)
    (key_selector : KeySelector) (state_value_coder : StateValueCoder)
  : PyResult GroupWindowAggFunction :=
  let _is_time_window := GroupWindow.is_time_window (_window self) in
  result_bind (create_window_assigner (_window self) _is_time_window)
    (fun window_assigner =>
  let trigger := create_trigger (_window self) _is_time_window in
  let window_aggregator :=
    mkAggsHandle user_defined_aggs input_extractors
      (index_of_count_star self) (count_star_inserted self)
      (_named_property_extractor self) (data_view_specs self)
      filter_args distinct_indexes distinct_view_descriptors in
  ok (mkGroupWindowAggFunction
        (GroupWindow.allowedLateness (_window self))
        key_selector (keyed_state_backend self) state_value_coder
        window_assigner window_aggregator trigger
        (GroupWindow.time_field_index (_window self)))).

End create_process_function.

(** *** process_element_or_timer *)

(** The timer payload of a TRIGGER_TIMER input:
    [[timer_type, key, encoded_namespace]]. *)
Record TimerData : Type := mkTimerData {
  timer_type : Z;
  timer_key : Row;
  encoded_namespace : list byte
}.

(** One input:
    [[element_type, element, timestamp, watermark, timer_data]].  As above,
    a branch reads only the fields of its tag: fields 1 and 3 for a
    NORMAL_RECORD, fields 2 and 4 otherwise. *)
Record InputData : Type := mkInputData {
  element_type : Z;
  element : Row;
  timestamp : Z;
  watermark : Z;
  timer_data : TimerData
}.

(** [[NORMAL_RECORD, result_data, None]]. *)
Definition normal_entry (result_data : Row) : PyVal :=
  PyList [PyInt NORMAL_RECORD; PyRow result_data; PyNone].

(** The body of the [for timer in timers] loop. *)
Definition timer_entry (_namespace_coder : NamespaceCoder)
    (timer : TimerOperandType.t * InternalTimer) : PyVal :=
  let timer_operand_type := timer.1 in
  let internal_timer := timer.2 in
  let window := get_namespace internal_timer in
  let key := get_key internal_timer in
  let timestamp := get_timestamp internal_timer in
  let encoded_window := encode_nested _namespace_coder window in
  PyList [PyInt TRIGGER_TIMER; PyNone;
          PyList [PyInt (TimerOperandType.value timer_operand_type);
                  PyKey key; PyInt timestamp; PyBytes encoded_window]].

(** The row given to [process_element] (lines 482-485). *)
Definition make_input_row (has_cython : bool) (element : Row) : InputRow :=
  if has_cython then
    FastRow (mkInternalRow (_values element)
               (RowKind_value (get_row_kind element)))
  else PlainRow element.

Definition process_element_or_timer (has_cython : bool)
    (_namespace_coder : NamespaceCoder) (input_data : InputData)
  : Prog Call (list PyVal) :=
  let results := [] in
  if element_type input_data =? NORMAL_RECORD then
    _ ← call (process_watermark (watermark input_data));
    let input_row := make_input_row has_cython (element input_data) in
    result_datas ← call (process_element input_row);
    let results := results ++ map normal_entry result_datas in
    timers ← call get_timers;
    let results := results ++ map (timer_entry _namespace_coder) timers in
    mret results
  else
    let timestamp := timestamp input_data in
    let timer_data := timer_data input_data in
    let key := _values (timer_key timer_data) in
    let timer_type := timer_type timer_data in
    let namespace :=
      decode_nested _namespace_coder (encoded_namespace timer_data) in
    let timer := InternalTimerImpl timestamp key namespace in
    result_datas ←
      (if timer_type =? REGISTER_EVENT_TIMER
       then call (on_event_time timer)
       else call (on_processing_time timer));
    let results := results ++ map normal_entry result_datas in
    mret results.

End StreamGroupWindowAggregateOperation.

(** ** class ProcessFunctionOperation.InternalTimerService *)

Module ProcessFunctionOperation.
Module InternalTimerService.

(** The only attribute of the service; it keeps no timers. *)
Record t : Type := mk { _current_watermark : option Z }.

(** [__init__]. *)
Definition init : t := mk None.

Definition current_watermark (self : t) : option Z * t :=
  (_current_watermark self, self).

Definition set_current_watermark (wm : option Z) (self : t) : unit * t :=
  (tt, mk wm).

Definition register_processing_time_timer (t0 : Z) (self : t)
  : PyResult unit * t :=
  (raise (Exception "Register timers is only supported on a keyed stream."),
   self).

Definition register_event_time_timer (t0 : Z) (self : t)
  : PyResult unit * t :=
  (raise (Exception "Register timers is only supported on a keyed stream."),
   self).

End InternalTimerService.
End ProcessFunctionOperation.

(** ** The function operations built from source text *)

(** The outcome of a [generate_func] that can fail in [reduce]: an
    exception of the classes above, or the [TypeError] of
    [functools.reduce] on an empty sequence (its message depends on the
    interpreter). *)
Inductive GenerateError : Type :=
| Raised (e : PyException)
| TypeError.

(** [functools.reduce(function, sequence)], without an initial value. *)
Definition reduce {A} (function : A -> A -> A) (sequence : list A)
  : GenerateError + A :=
  match sequence with
  | [] => inl TypeError
  | x :: rest => inr (fold_left function rest x)
  end.

(** What [eval(source, globals)] is given: a source text and the dict that
    binds its free names.  [eval] itself is a parameter of the operations
    below: it returns the function that the text evaluates to, or raises
    (a [SyntaxError] when the text is not an expression). *)
Record Lambda (Var : Type) : Type := mkLambda {
  lambda_source : string;
  lambda_globals : gmap string Var
}.
Arguments mkLambda {Var} _ _.
Arguments lambda_source {Var} _.
Arguments lambda_globals {Var} _.

Module ScalarFunctionOperation.
Section generate_func.
Context {Udf Var UserDefinedFunc Func : Type}.

(** [operation_utils.extract_user_defined_function(udf)], declared in
    another module: the source text of the call, the variables the text
    refers to and the user-defined functions. *)
Variable extract_user_defined_function :
  Udf -> PyResult (string * gmap string Var * list UserDefinedFunc).

(** The built-in [eval]. *)
Variable eval : Lambda Var -> PyResult Func.

(** The [lambda x, y: ...] given to [reduce]. *)
Definition combine (x y : string * gmap string Var * list UserDefinedFunc)
  : string * gmap string Var * list UserDefinedFunc :=
  (String.concat "," [x.1.1; y.1.1],
   y.1.2 ∪ x.1.2,
   x.2 ++ y.2).

Definition generate_func (udfs : list Udf)
  : GenerateError + (Func * list UserDefinedFunc) :=
  match result_map extract_user_defined_function udfs with
  | inl e => inl (Raised e)
  | inr extracted =>
      match reduce combine extracted with
      | inl e => inl e
      | inr (scalar_functions, variable_dict, user_defined_funcs) =>
          match eval (mkLambda
                        (String.append "lambda value: ["
                           (String.append scalar_functions "]"))
                        variable_dict) with
          | inl e => inl (Raised e)
          | inr generate_func => inr (generate_func, user_defined_funcs)
          end
      end
  end.

End generate_func.
End ScalarFunctionOperation.

Module TableFunctionOperation.
Section generate_func.
Context {Udf Var UserDefinedFunc Func : Type}.

Variable extract_user_defined_function :
  Udf -> PyResult (string * gmap string Var * list UserDefinedFunc).

Variable eval : Lambda Var -> PyResult Func.

Definition generate_func (udfs : list Udf)
  : PyResult (Func * list UserDefinedFunc) :=
  result_bind (py_index udfs 0) (fun udf =>
  result_bind (extract_user_defined_function udf) (fun extracted =>
  let '(table_function, variable_dict, user_defined_funcs) := extracted in
  result_bind
    (eval (mkLambda (String.append "lambda value: " table_function)
             variable_dict)) (fun generate_func =>
  ok (generate_func, user_defined_funcs)))).

End generate_func.
End TableFunctionOperation.

Module PandasAggregateFunctionOperation.
Section generate_func.
Context {Udf Var UserDefinedFunc Func : Type}.

(** [operation_utils.extract_user_defined_function(udf, True)]. *)
Variable extract_user_defined_function :
  Udf -> PyResult (string * gmap string Var * list UserDefinedFunc).

(** [operation_utils.wrap_pandas_result]. *)
Variable wrap_pandas_result : Var.

(** The built-in [eval]. *)
Variable eval : Lambda Var -> PyResult Func.

Definition generate_func (udfs : list Udf)
  : GenerateError + (Func * list UserDefinedFunc) :=
  match result_map extract_user_defined_function udfs with
  | inl e => inl (Raised e)
  | inr extracted =>
      match reduce ScalarFunctionOperation.combine extracted with
      | inl e => inl e
      | inr (pandas_functions, variable_dict, user_defined_funcs) =>
          let variable_dict :=
            <["wrap_pandas_result" := wrap_pandas_result]> variable_dict in
          match eval (mkLambda
                        (String.append "lambda value: wrap_pandas_result(["
                           (String.append pandas_functions "])"))
                        variable_dict) with
          | inl e => inl (Raised e)
          | inr generate_func => inr (generate_func, user_defined_funcs)
          end
      end
  end.

End generate_func.
End PandasAggregateFunctionOperation.


(** ** class StreamingRuntimeContext *)

Module KeyedStateBackend.

(** The methods of [RemoteKeyedStateBackend] that a runtime context calls,
    each with the name of the state and [PickleCoder()] for its values;
    the reducing and aggregating states also take the function of the
    descriptor. *)
Inductive Call {State Function : Type} : Type -> Type :=
| get_value_state (name : string) : Call State
| get_list_state (name : string) : Call State
| get_map_state (name : string) : Call State
| get_reducing_state (name : string) (reduce_function : Function) : Call State
| get_aggregating_state (name : string) (agg_function : Function) : Call State.
Arguments Call : clear implicits.

End KeyedStateBackend.

Module StreamingRuntimeContext.
Section runtime_context.
Context {State Function : Type}.

Record t : Type := mk {
  _task_name : string;
  _task_name_with_subtasks : string;
  _number_of_parallel_subtasks : Z;
  _max_number_of_parallel_subtasks : Z;
  _index_of_this_subtask : Z;
  _attempt_number : Z;
  _job_parameters : gmap string string;
  (** [None], or whether a backend is attached: the backend itself is the
      collaborator the calls below go to. *)
  _keyed_state_backend : bool
}.

Definition get_task_name (self : t) : string := _task_name self.
Definition get_number_of_parallel_subtasks (self : t) : Z :=
  _number_of_parallel_subtasks self.
Definition get_max_number_of_parallel_subtasks (self : t) : Z :=
  _max_number_of_parallel_subtasks self.
Definition get_index_of_this_subtask (self : t) : Z :=
  _index_of_this_subtask self.
Definition get_attempt_number (self : t) : Z := _attempt_number self.
Definition get_task_name_with_subtasks (self : t) : string :=
  _task_name_with_subtasks self.

Definition get_job_parameter (self : t) (key default_value : string) : string :=
  match _job_parameters self !! key with
  | Some value => value
  | None => default_value
  end.

(** A state descriptor: its name and, for a reducing or an aggregating
    state, its function. *)
Record StateDescriptor : Type := mkDescriptor {
  name : string;
  get_function : Function
}.

Definition only_on_keyed_stream {A} : Prog (KeyedStateBackend.Call State Function) A :=
  Raise (Exception
    "This state is only accessible by functions executed on a KeyedStream.").

Definition get_state (self : t) (state_descriptor : StateDescriptor)
  : Prog (KeyedStateBackend.Call State Function) State :=
  if _keyed_state_backend self then
    call (KeyedStateBackend.get_value_state (name state_descriptor))
  else only_on_keyed_stream.

Definition get_list_state (self : t) (state_descriptor : StateDescriptor)
  : Prog (KeyedStateBackend.Call State Function) State :=
  if _keyed_state_backend self then
    call (KeyedStateBackend.get_list_state (name state_descriptor))
  else only_on_keyed_stream.

Definition get_map_state (self : t) (state_descriptor : StateDescriptor)
  : Prog (KeyedStateBackend.Call State Function) State :=
  if _keyed_state_backend self then
    call (KeyedStateBackend.get_map_state (name state_descriptor))
  else only_on_keyed_stream.

Definition get_reducing_state (self : t) (state_descriptor : StateDescriptor)
  : Prog (KeyedStateBackend.Call State Function) State :=
  if _keyed_state_backend self then
    call (KeyedStateBackend.get_reducing_state
            (name state_descriptor) (get_function state_descriptor))
  else only_on_keyed_stream.

Definition get_aggregating_state (self : t) (state_descriptor : StateDescriptor)
  : Prog (KeyedStateBackend.Call State Function) State :=
  if _keyed_state_backend self then
    call (KeyedStateBackend.get_aggregating_state
            (name state_descriptor) (get_function state_descriptor))
  else only_on_keyed_stream.

End runtime_context.
Arguments t : clear implicits.
Arguments StateDescriptor : clear implicits.
End StreamingRuntimeContext.

(** ** The [open] methods of the datastream operations *)

(** The [runtime_context] message of a serialized function. *)
Module RuntimeContextProto.

Record JobParameter : Type := mkJobParameter {
  key : string;
  value : string
}.

Record t : Type := mk {
  task_name : string;
  task_name_with_subtasks : string;
  number_of_parallel_subtasks : Z;
  max_number_of_parallel_subtasks : Z;
  index_of_this_subtask : Z;
  attempt_number : Z;
  job_parameters : list JobParameter
}.

End RuntimeContextProto.

(** [{p.key: p.value for p in job_parameters}]: a later parameter replaces
    an earlier one with the same key. *)
Definition job_parameter_dict (job_parameters : list RuntimeContextProto.JobParameter)
  : gmap string string :=
  fold_left (fun d p => <[RuntimeContextProto.key p := RuntimeContextProto.value p]> d)
            job_parameters ∅.

(** The runtime context that [open] builds for a user-defined function
    (lines 646-656 and 740-749). *)
Definition make_runtime_context (runtime_context : RuntimeContextProto.t)
    (keyed_state_backend : bool) : StreamingRuntimeContext.t :=
  StreamingRuntimeContext.mk
    (RuntimeContextProto.task_name runtime_context)
    (RuntimeContextProto.task_name_with_subtasks runtime_context)
    (RuntimeContextProto.number_of_parallel_subtasks runtime_context)
    (RuntimeContextProto.max_number_of_parallel_subtasks runtime_context)
    (RuntimeContextProto.index_of_this_subtask runtime_context)
    (RuntimeContextProto.attempt_number runtime_context)
    (job_parameter_dict (RuntimeContextProto.job_parameters runtime_context))
    keyed_state_backend.

Module DataStreamStatelessFunctionOperation.

(** [open]: the contexts handed to the user-defined functions that have an
    [open] method, in order; [has_open] tells which do. *)
Definition open (runtime_context : RuntimeContextProto.t)
    (has_open : list bool) : list StreamingRuntimeContext.t :=
  map (fun _ => make_runtime_context runtime_context false)
      (List.filter (fun b => b) has_open).

End DataStreamStatelessFunctionOperation.


(** ** class KeyedProcessFunctionOperation *)

Module KeyedProcessFunctionOperation.

(** An element of [InternalCollector.buf]: the tuple
    [(header, a, key, None)] of a timer request, or the tuple [(None, a)]
    of a normal datum. *)
Inductive BufEntry (A : Type) : Type :=
| TimerRequest (header : Z) (a : Z) (key : Row)
| Datum (a : A).
Arguments TimerRequest {A} header a key.
Arguments Datum {A} a.

Module InternalCollector.
Section collector.
Context {A : Type}.

(** The only attribute is [buf]. *)
Definition t : Type := list (BufEntry A).

Definition init : t := [].

Definition collect_reg_proc_timer (a : Z) (key : Row) (buf : t) : t :=
  buf ++ [TimerRequest
            (TimerOperandType.value TimerOperandType.REGISTER_PROC_TIMER) a key].

Definition collect_reg_event_timer (a : Z) (key : Row) (buf : t) : t :=
  buf ++ [TimerRequest
            (TimerOperandType.value TimerOperandType.REGISTER_EVENT_TIMER) a key].

Definition collect_del_proc_timer (a : Z) (key : Row) (buf : t) : t :=
  buf ++ [TimerRequest
            (TimerOperandType.value TimerOperandType.DELETE_PROC_TIMER) a key].

Definition collect_del_event_timer (a : Z) (key : Row) (buf : t) : t :=
  buf ++ [TimerRequest
            (TimerOperandType.value TimerOperandType.DELETE_EVENT_TIMER) a key].

Definition collect (a : A) (buf : t) : t := buf ++ [Datum a].

Definition clear (buf : t) : t := [].

End collector.
Arguments t : clear implicits.
End InternalCollector.

Module InternalTimerService.
Section timer_service.
Context {A : Type}.

(** The service with the two objects it shares with the operation: the
    collector, and the keyed state backend, of which it reads the current
    key. *)
Record t : Type := mk {
  _collector : InternalCollector.t A;
  get_current_key : Row;
  _current_watermark : option Z
}.

Definition current_watermark (self : t) : option Z := _current_watermark self.

Definition set_current_watermark (wm : option Z) (self : t) : t :=
  mk (_collector self) (get_current_key self) wm.

Definition register_processing_time_timer (t0 : Z) (self : t) : t :=
  let current_key := get_current_key self in
  mk (InternalCollector.collect_reg_proc_timer t0 current_key (_collector self))
     (get_current_key self) (_current_watermark self).

Definition register_event_time_timer (t0 : Z) (self : t) : t :=
  let current_key := get_current_key self in
  mk (InternalCollector.collect_reg_event_timer t0 current_key (_collector self))
     (get_current_key self) (_current_watermark self).

Definition delete_processing_time_timer (t0 : Z) (self : t) : t :=
  let current_key := get_current_key self in
  mk (InternalCollector.collect_del_proc_timer t0 current_key (_collector self))
     (get_current_key self) (_current_watermark self).

Definition delete_event_time_timer (t0 : Z) (self : t) : t :=
  let current_key := get_current_key self in
  mk (InternalCollector.collect_del_event_timer t0 current_key (_collector self))
     (get_current_key self) (_current_watermark self).

(** The backend's [set_current_key], as the service sees it. *)
Definition set_current_key (key : Row) (self : t) : t :=
  mk (_collector self) key (_current_watermark self).

End timer_service.
Arguments t : clear implicits.
End InternalTimerService.

(** [open]: as for the stateless operations, with the keyed state backend
    of the operation. *)
Definition open (runtime_context : RuntimeContextProto.t)
    (keyed_state_backend : bool) (has_open : list bool)
  : list StreamingRuntimeContext.t :=
  map (fun _ => make_runtime_context runtime_context keyed_state_backend)
      (List.filter (fun b => b) has_open).

End KeyedProcessFunctionOperation.


(** ** class PandasBatchOverWindowAggregateFunctionOperation *)

(** Python's [l[i]] when only success matters. *)
Definition item {A} (l : list A) (i : Z) : option A :=
  match py_index l i with
  | inr x => Some x
  | inl _ => None
  end.

(** The positional slice [s.iloc[start:stop]] of a series, which follows
    Python's slicing: an absent bound is the end of the series, a negative
    bound counts from the end, and bounds outside the series are clamped. *)
Definition iloc_slice {A} (s : list A) (start stop : option Z) : list A :=
  let n := Z.of_nat (length s) in
  let clamp (i : Z) := if i <? 0 then Z.max (i + n) 0 else Z.min i n in
  let a := match start with Some i => clamp i | None => 0 end in
  let b := match stop with Some i => clamp i | None => n end in
  take (Z.to_nat (b - a)) (drop (Z.to_nat a) s).

Module PandasBatchOverWindowAggregateFunctionOperation.

(** [flink_fn_execution_pb2.OverWindow.WindowType]. *)
Inductive WindowType : Type :=
| RANGE_UNBOUNDED
| RANGE_UNBOUNDED_PRECEDING
| RANGE_UNBOUNDED_FOLLOWING
| RANGE_SLIDING
| ROW_UNBOUNDED
| ROW_UNBOUNDED_PRECEDING
| ROW_UNBOUNDED_FOLLOWING
| ROW_SLIDING.

Record OverWindow : Type := mkOverWindow {
  window_type : WindowType;
  lower_boundary : Z;
  upper_boundary : Z
}.

(** *** __init__ *)

(** The test of lines 185-187. *)
Definition bounded_range (window : OverWindow) : bool :=
  match window_type window with
  | RANGE_UNBOUNDED_PRECEDING | RANGE_UNBOUNDED_FOLLOWING | RANGE_SLIDING => true
  | _ => false
  end.

(** The three values the loop of [__init__] updates. *)
Record Indexing : Type := mkIndexing {
  bounded_range_window_nums : Z;
  bounded_range_window_index : list Z;
  is_bounded_range_window : list bool
}.

(** [for i, window in enumerate(self.windows)], from position [i] on. *)
Fixpoint index_loop (i : nat) (windows : list OverWindow) (st : Indexing)
  : Indexing :=
  match windows with
  | [] => st
  | window :: rest =>
      if bounded_range window then
        index_loop (S i) rest
          (mkIndexing
             (bounded_range_window_nums st + 1)
             (<[i := bounded_range_window_nums st]>
                (bounded_range_window_index st))
             (is_bounded_range_window st ++ [true]))
      else
        index_loop (S i) rest
          (mkIndexing
             (bounded_range_window_nums st)
             (bounded_range_window_index st)
             (is_bounded_range_window st ++ [false]))
  end.

Definition index_windows (windows : list OverWindow) : Indexing :=
  index_loop 0 windows
    (mkIndexing 0 (replicate (length windows) (-1)) []).

(** *** wrapped_over_window_function *)

Section wrapped_over_window_function.
(** The values of a series, and the result of an aggregate function. *)
Context {V R : Type}.

(** An element of [boundaries_series]: the boundaries of a bounded range
    window, or (last) the list of the input series. *)
Inductive SeriesItem : Type :=
| Boundaries (window_boundaries : list Z)
| Inputs (input_series : list (list V)).

Record Self : Type := mkSelf {
  windows : list OverWindow;
  indexing : Indexing;
  window_indexes : list Z;
  (** A mapper fails when the user-defined function raises. *)
  mapper : list (list (list V) -> option R)
}.

(** The slices given to the aggregate function for row [j]. *)
Definition range_unbounded_preceding_slices (window_boundaries : list Z)
    (input_series : list (list V)) (j : nat) : option (list (list V)) :=
  end_ ← window_boundaries !! j;
  Some (map (fun s => iloc_slice s None (Some end_)) input_series).

Definition range_unbounded_following_slices (window_boundaries : list Z)
    (input_series : list (list V)) (j : nat) : option (list (list V)) :=
  start ← window_boundaries !! j;
  Some (map (fun s => iloc_slice s (Some start) None) input_series).

Definition range_sliding_slices (window_boundaries : list Z)
    (input_series : list (list V)) (j : nat) : option (list (list V)) :=
  start ← window_boundaries !! (j * 2)%nat;
  end_ ← window_boundaries !! (j * 2 + 1)%nat;
  Some (map (fun s => iloc_slice s (Some start) (Some end_)) input_series).

Definition row_unbounded_preceding_slices (window : OverWindow)
    (input_cnt : nat) (input_series : list (list V)) (j : nat)
  : list (list V) :=
  let window_end := upper_boundary window in
  let end_ := Z.min (Z.of_nat j + window_end + 1) (Z.of_nat input_cnt) in
  map (fun s => iloc_slice s None (Some end_)) input_series.

Definition row_unbounded_following_slices (window : OverWindow)
    (input_cnt : nat) (input_series : list (list V)) (j : nat)
  : list (list V) :=
  let window_start := lower_boundary window in
  let start := Z.max (Z.of_nat j + window_start) 0 in
  map (fun s => iloc_slice s (Some start) (Some (Z.of_nat input_cnt)))
      input_series.

Definition row_sliding_slices (window : OverWindow)
    (input_cnt : nat) (input_series : list (list V)) (j : nat)
  : list (list V) :=
  let window_start := lower_boundary window in
  let window_end := upper_boundary window in
  let start := Z.max (Z.of_nat j + window_start) 0 in
  let end_ := Z.min (Z.of_nat j + window_end + 1) (Z.of_nat input_cnt) in
  map (fun s => iloc_slice s (Some start) (Some end_)) input_series.

(** [for j in range(input_cnt): ... result.append(func(series_slices))]. *)
Definition for_each_row (input_cnt : nat)
    (slices : nat -> option (list (list V)))
    (func : list (list V) -> option R) : option (list R) :=
  mapM (fun j => series_slices ← slices j; func series_slices)
       (seq 0 input_cnt).

(** The body of the loop over the aggregate functions (lines 215-273). *)
Definition function_result (self : Self) (boundaries_series : list SeriesItem)
    (input_series : list (list V)) (input_cnt : nat) (i : nat)
  : option (list R) :=
  window_index ← window_indexes self !! i;
  window ← item (windows self) window_index;
  func ← mapper self !! i;
  bounded ← item (is_bounded_range_window (indexing self)) window_index;
  if bounded : bool then
    index ← item (bounded_range_window_index (indexing self)) window_index;
    boundaries ← item boundaries_series index;
    match boundaries with
    | Boundaries window_boundaries =>
        match window_type window with
        | RANGE_UNBOUNDED_PRECEDING =>
            for_each_row input_cnt
              (range_unbounded_preceding_slices window_boundaries input_series)
              func
        | RANGE_UNBOUNDED_FOLLOWING =>
            for_each_row input_cnt
              (range_unbounded_following_slices window_boundaries input_series)
              func
        | _ =>
            for_each_row input_cnt
              (range_sliding_slices window_boundaries input_series) func
        end
    | Inputs _ =>
        (* the list of input series cannot be read as boundaries *)
        match input_cnt with
        | O => Some []
        | _ => None
        end
    end
  else
    match window_type window with
    | RANGE_UNBOUNDED | ROW_UNBOUNDED =>
        let series_slices := map (fun s => iloc_slice s None None) input_series in
        func_result ← func series_slices;
        Some (replicate input_cnt func_result)
    | ROW_UNBOUNDED_PRECEDING =>
        for_each_row input_cnt
          (fun j => Some (row_unbounded_preceding_slices
                            window input_cnt input_series j)) func
    | ROW_UNBOUNDED_FOLLOWING =>
        for_each_row input_cnt
          (fun j => Some (row_unbounded_following_slices
                            window input_cnt input_series j)) func
    | _ =>
        for_each_row input_cnt
          (fun j => Some (row_sliding_slices
                            window input_cnt input_series j)) func
    end.

Definition wrapped_over_window_function (self : Self)
    (boundaries_series : list SeriesItem) : option (list (list R)) :=
  last_item ← item boundaries_series (-1);
  match last_item with
  | Inputs input_series =>
      first_series ← input_series !! 0%nat;
      let input_cnt := length first_series in
      mapM (function_result self boundaries_series input_series input_cnt)
           (seq 0 (length (window_indexes self)))
  | Boundaries _ => None
  end.

(** *** generate_func *)

Context {Udf Var UserDefinedFunc : Type}.

(** [operation_utils.extract_over_window_user_defined_function], declared
    in another module. *)
Variable extract_over_window_user_defined_function :
  Udf -> PyResult (string * gmap string Var * list UserDefinedFunc * Z).

(** [eval]: the function a source text and its globals stand for. *)
Variable eval : Lambda Var -> list (list V) -> option R.

(** The lists that [generate_func] extends. *)
Record Generated : Type := mkGenerated {
  user_defined_funcs : list UserDefinedFunc;
  gen_window_indexes : list Z;
  gen_mapper : list (list (list V) -> option R)
}.

Fixpoint generate_loop (udfs : list Udf) (acc : Generated)
  : PyResult Generated :=
  match udfs with
  | [] => ok acc
  | udf :: rest =>
      result_bind (extract_over_window_user_defined_function udf)
        (fun extracted =>
      let '(pandas_agg_function, variable_dict, user_defined_func, window_index) :=
        extracted in
      generate_loop rest
        (mkGenerated
           (user_defined_funcs acc ++ user_defined_func)
           (gen_window_indexes acc ++ [window_index])
           (gen_mapper acc
            ++ [eval (mkLambda
                        (String.append "lambda value: " pandas_agg_function)
                        variable_dict)])))
  end.

Definition generate_func (udfs : list Udf) : PyResult Generated :=
  generate_loop udfs (mkGenerated [] [] []).

(** [__init__]: [generate_func] runs first (in [Operation.__init__]), then
    the windows are indexed. *)
Definition init (windows : list OverWindow) (udfs : list Udf)
  : PyResult (Self * list UserDefinedFunc) :=
  result_bind (generate_func udfs) (fun generated =>
  ok (mkSelf windows (index_windows windows)
        (gen_window_indexes generated) (gen_mapper generated),
      user_defined_funcs generated)).

End wrapped_over_window_function.
End PandasBatchOverWindowAggregateFunctionOperation.


(** ** The constructor of StreamGroupWindowAggregateOperation *)

(** The fields of [spec.serialized_fn] that the aggregate operations read. *)
Record SerializedFn (Udf : Type) : Type := mkSerializedFn {
  udfs : list Udf;
  grouping : list Z;
  group_window : GroupWindow.t;
  generate_update_before : bool;
  index_of_count_star : Z;
  count_star_inserted : bool;
  state_cache_size : Z;
  state_cleaning_enabled : bool
}.
Arguments mkSerializedFn {Udf} _ _ _ _ _ _ _ _.
Arguments udfs {Udf} _.
Arguments grouping {Udf} _.
Arguments group_window {Udf} _.
Arguments index_of_count_star {Udf} _.
Arguments count_star_inserted {Udf} _.

Section window_operation_init.
Context {Udf UserDefinedAgg InputExtractor DistinctKey DataViewSpec : Type}.

(** [state_data_view.extract_data_view_specs] and
    [operation_utils.extract_user_defined_aggregate_function], declared in
    other modules. *)
Variable extract_data_view_specs : list Udf -> PyResult (list DataViewSpec).
Variable extract_user_defined_aggregate_function :
  Z -> Udf -> @AbstractStreamGroupAggregateOperation.DistinctInfoDict DistinctKey ->
  PyResult (UserDefinedAgg * InputExtractor * Z * Z)
  * @AbstractStreamGroupAggregateOperation.DistinctInfoDict DistinctKey.

(** [StreamGroupWindowAggregateOperation.__init__], up to the process
    function that [generate_func] stores in [group_agg_function]: the
    named property extractor is built first, then the data view specs are
    extracted (in [AbstractStreamGroupAggregateOperation.__init__]), then
    [Operation.__init__] calls [generate_func]. *)
Definition StreamGroupWindowAggregateOperation__init__
    (serialized_fn : SerializedFn Udf)
    (keyed_state_backend : StreamGroupWindowAggregateOperation.RemoteKeyedStateBackend)
  : PyResult (@StreamGroupWindowAggregateOperation.GroupWindowAggFunction
                UserDefinedAgg InputExtractor
                (gmap Z (@AbstractStreamGroupAggregateOperation.DistinctViewDescriptor
                           InputExtractor))
                AbstractStreamGroupAggregateOperation.RowKeySelector
                (@AbstractStreamGroupAggregateOperation.StateValueCoder DataViewSpec)
                DataViewSpec) :=
  let _window := group_window serialized_fn in
  result_bind
    (StreamGroupWindowAggregateOperation._create_named_property_function
       (GroupWindow.namedProperties _window))
    (fun _named_property_extractor =>
  result_bind (extract_data_view_specs (udfs serialized_fn))
    (fun data_view_specs =>
  let self :=
    StreamGroupWindowAggregateOperation.mkSelf
      _window _named_property_extractor keyed_state_backend
      (index_of_count_star serialized_fn) (count_star_inserted serialized_fn)
      data_view_specs in
  AbstractStreamGroupAggregateOperation.generate_func
    extract_user_defined_aggregate_function
    (StreamGroupWindowAggregateOperation.create_process_function self)
    (grouping serialized_fn) data_view_specs (udfs serialized_fn))).

End window_operation_init.


(** ** class Operation: the gauges *)

Module Operation.

(** A [GenericMetricGroup] as [_update_gauge] reads it: the names of the
    flink gauges, each with the outcome of calling the gauge (the value it
    returns, or [None] when the call raises), the beam gauges with the
    value they show, and the sub-groups. *)
#[warnings="-register-all"]
Inductive MetricGroup : Type :=
| GenericMetricGroup
    (_flink_gauge : list (string * option Z))
    (_beam_gauge : gmap string Z)
    (_sub_groups : list MetricGroup).

Section update_gauge.

(** [beam_gauge.set(value)], declared in apache_beam, for the beam gauge
    of a name: whether the call returns; it raises otherwise. *)
Variable set_returns : string -> Z -> bool.

(** [for name in base_metric_group._flink_gauge]: a name without a beam
    gauge is a [KeyError]; then the flink gauge is called, and the beam
    gauge is set to the value returned.  An exception of either call ends
    the loop. *)
Fixpoint set_gauges (_flink_gauge : list (string * option Z))
    (_beam_gauge : gmap string Z) : option (gmap string Z) :=
  match _flink_gauge with
  | [] => Some _beam_gauge
  | (name, flink_gauge) :: rest =>
      match _beam_gauge !! name with
      | Some beam_gauge =>
          match flink_gauge with
          | Some value =>
              if set_returns name value
              then set_gauges rest (<[name := value]> _beam_gauge)
              else None
          | None => None
          end
      | None => None
      end
  end.

(** [_update_gauge] on a group that is not [None]. *)
Fixpoint update_group (base_metric_group : MetricGroup) : option MetricGroup :=
  match base_metric_group with
  | GenericMetricGroup _flink_gauge _beam_gauge _sub_groups =>
      beam ← set_gauges _flink_gauge _beam_gauge;
      sub_groups ← mapM update_group _sub_groups;
      Some (GenericMetricGroup _flink_gauge beam sub_groups)
  end.

Definition _update_gauge (base_metric_group : option MetricGroup)
  : option (option MetricGroup) :=
  match base_metric_group with
  | None => Some None
  | Some group => Some <$> update_group group
  end.

(** [finish]. *)
Definition finish (base_metric_group : option MetricGroup)
  : option (option MetricGroup) :=
  _update_gauge base_metric_group.

End update_gauge.
End Operation.

Module StatefulFunctionOperation.

(** [finish]: the gauges are updated, then the keyed state backend, when
    there is one, is asked to commit.  The result tells the metric group
    left and whether [commit] was called. *)
Definition finish (set_returns : string -> Z -> bool)
    (base_metric_group : option Operation.MetricGroup)
    (keyed_state_backend : bool)
  : option (option Operation.MetricGroup * bool) :=
  group ← Operation.finish set_returns base_metric_group;
  Some (group, if keyed_state_backend then true else false).

End StatefulFunctionOperation.


(** * The vocabulary of the properties *)

(** A program that raises nothing of its own. *)
Fixpoint raises_nothing {E A} (p : Prog E A) : Prop :=
  match p with
  | Ret _ => True
  | Raise _ => False
  | Vis c k => forall x, raises_nothing (k x)
  end.

Section batch_vocabulary.
Import GroupAggFunction AbstractStreamGroupAggregateOperation.

(** The call the claim expects for one input of the batch. *)
Definition expected_call (input_data : InputData) : Event Call :=
  if decide (element_type input_data = NORMAL_RECORD)
  then event (process_element (element input_data))
  else event (on_timer (key input_data)).

Definition is_finish_bundle (e : Event Call) : bool :=
  match projT2 e with
  | finish_bundle => true
  | _ => false
  end.

End batch_vocabulary.

Section window_vocabulary.
Import GroupWindowAggFunction StreamGroupWindowAggregateOperation.

(** The timer a TRIGGER_TIMER input stands for. *)
Definition fired_timer (coder : NamespaceCoder) (input_data : InputData)
  : InternalTimer :=
  InternalTimerImpl
    (timestamp input_data)
    (_values (timer_key (timer_data input_data)))
    (decode_nested coder (encoded_namespace (timer_data input_data))).

(** The handler a timer input goes to: the event-time one for the timer
    kind 0, the processing-time one for every other kind. *)
Definition timer_handler (coder : NamespaceCoder) (input_data : InputData)
  : Call (list Row) :=
  if decide (timer_type (timer_data input_data) = REGISTER_EVENT_TIMER)
  then on_event_time (fired_timer coder input_data)
  else on_processing_time (fired_timer coder input_data).

(** The entry that wraps a change record, and the entry that wraps a timer
    request, written out field by field. *)
Definition wrapped_change_record (change_record : Row) : PyVal :=
  PyList [PyInt NORMAL_RECORD; PyRow change_record; PyNone].

Definition wrapped_timer_request (coder : NamespaceCoder)
    (request : TimerOperandType.t * InternalTimer) : PyVal :=
  PyList [PyInt TRIGGER_TIMER; PyNone;
          PyList [PyInt (TimerOperandType.value request.1);
                  PyKey (get_key request.2);
                  PyInt (get_timestamp request.2);
                  PyBytes (encode_nested coder (get_namespace request.2))]].

(** The two shapes of an output entry. *)
Definition change_record_entry (entry : PyVal) : Prop :=
  exists change_record,
    entry = PyList [PyInt NORMAL_RECORD; PyRow change_record; PyNone].

Definition timer_request_entry (coder : NamespaceCoder) (entry : PyVal) : Prop :=
  exists timer_kind timer,
    entry = PyList [PyInt TRIGGER_TIMER; PyNone;
                    PyList [PyInt (TimerOperandType.value timer_kind);
                            PyKey (get_key timer);
                            PyInt (get_timestamp timer);
                            PyBytes (encode_nested coder (get_namespace timer))]].

(** The value the claim gives a named property on the window
    [[start, end_)]. *)
Definition property_value (start end_ : Z) (p : GroupWindow.WindowProperty) : Z :=
  match p with
  | GroupWindow.WINDOW_START => start
  | GroupWindow.WINDOW_END => end_
  | GroupWindow.ROW_TIME_ATTRIBUTE => end_ - 1
  | GroupWindow.PROC_TIME_ATTRIBUTE => -1
  | GroupWindow.UNRECOGNIZED _ => 0
  end.

Definition known_property (p : GroupWindow.WindowProperty) : bool :=
  match p with
  | GroupWindow.UNRECOGNIZED _ => false
  | _ => true
  end.

(** The number of the first property of an unknown kind. *)
Fixpoint first_unrecognized (props : list GroupWindow.WindowProperty)
  : option Z :=
  match props with
  | [] => None
  | GroupWindow.UNRECOGNIZED n :: _ => Some n
  | _ :: rest => first_unrecognized rest
  end.

(** The source text of a known property. *)
Definition property_source (p : GroupWindow.WindowProperty) : string :=
  match p with
  | GroupWindow.WINDOW_START => "value.start"
  | GroupWindow.WINDOW_END => "value.end"
  | GroupWindow.ROW_TIME_ATTRIBUTE => "value.end - 1"
  | GroupWindow.PROC_TIME_ATTRIBUTE => "-1"
  | GroupWindow.UNRECOGNIZED _ => EmptyString
  end.

Fixpoint no_comma (s : string) : bool :=
  match s with
  | EmptyString => true
  | String c s' => negb (Ascii.eqb c ",") && no_comma s'
  end.

End window_vocabulary.

Section distinct_view_vocabulary.
Import AbstractStreamGroupAggregateOperation.

(** The aggregate index of the first function of a group. *)
Definition group_first (group : list Z * list Z) : option Z := head group.1.

Definition group_firsts (values : list (list Z * list Z)) : list Z :=
  omap group_first values.

(** What [extract_user_defined_aggregate_function] leaves in
    [distinct_info_dict] for [n] aggregate functions: every group has a
    first function, whose index is one of the [n], and no two groups start
    with the same function. *)
Definition groups_well_formed (n : nat) (values : list (list Z * list Z))
  : bool :=
  forallb (fun group =>
             match group_first group with
             | Some first => (0 <=? first) && (first <? Z.of_nat n)
             | None => false
             end) values
  && bool_decide (NoDup (group_firsts values)).

(** The descriptor the loop stores for a group. *)
Definition group_descriptor {InputExtractor : Type} (extractor : InputExtractor)
    (filter_arg_list : list Z) : @DistinctViewDescriptor InputExtractor :=
  mkDistinctViewDescriptor extractor
    (if bool_decide ((-1) ∈ filter_arg_list) then [] else filter_arg_list).

End distinct_view_vocabulary.

(** * Implementations of the collaborators used in the examples *)

Module Examples.

(** Modelled from the spec: [GroupWindowAggFunction] is declared outside
    this file.  This implementation keeps only the set of timer requests:
    [process_element] emits the row and asks for an event-time timer on
    the window [0, 10) of the row's key, a firing emits one row and asks
    to delete the fired timer, and [get_timers] drains the requests
    accumulated so far. *)
Definition window_function
  : Handler GroupWindowAggFunction.Call
            (list (TimerOperandType.t * InternalTimer)) :=
  fun X c =>
    match c in GroupWindowAggFunction.Call X
          return list (TimerOperandType.t * InternalTimer) ->
                 PyResult X * list (TimerOperandType.t * InternalTimer) with
    | GroupWindowAggFunction.process_watermark _ => fun s => (ok tt, s)
    | GroupWindowAggFunction.process_element input_row => fun s =>
        let values :=
          match input_row with
          | PlainRow r => _values r
          | FastRow r => ir_values r
          end in
        (ok [mkRow values INSERT],
         s ++ [(TimerOperandType.REGISTER_EVENT_TIMER,
                InternalTimerImpl 9 values (TimeWindow 0 10))])
    | GroupWindowAggFunction.get_timers => fun s => (ok s, [])
    | GroupWindowAggFunction.on_event_time timer => fun s =>
        (ok [mkRow (get_key timer) INSERT],
         s ++ [(TimerOperandType.DELETE_EVENT_TIMER, timer)])
    | GroupWindowAggFunction.on_processing_time timer => fun s =>
        (ok [mkRow (get_key timer) INSERT],
         s ++ [(TimerOperandType.DELETE_PROC_TIMER, timer)])
    end.

(** A namespace coder for time windows: one byte per bound. *)
Definition window_coder : NamespaceCoder :=
  mkNamespaceCoder
    (fun w =>
       match w with
       | TimeWindow a b =>
           [Byte.x00; default Byte.x00 (Byte.of_N (Z.to_N a));
            default Byte.x00 (Byte.of_N (Z.to_N b))]
       | CountWindow n => [Byte.x01; default Byte.x00 (Byte.of_N (Z.to_N n))]
       end)
    (fun b =>
       match b with
       | [x; lo; hi] => TimeWindow (Z.of_N (Byte.to_N lo)) (Z.of_N (Byte.to_N hi))
       | [x; n] => CountWindow (Z.of_N (Byte.to_N n))
       | _ => CountWindow 0
       end).

(** Modelled from the spec: [GroupAggFunction] is declared outside this
    file.  This implementation buffers one output row per element and
    [finish_bundle] returns and clears the buffer. *)
Definition group_function : Handler GroupAggFunction.Call (list Row) :=
  fun X c =>
    match c in GroupAggFunction.Call X
          return list Row -> PyResult X * list Row with
    | GroupAggFunction.process_element element => fun s => (ok tt, s ++ [element])
    | GroupAggFunction.on_timer _ => fun s => (ok tt, s)
    | GroupAggFunction.finish_bundle => fun s => (ok s, [])
    end.

Definition row_a : Row := mkRow [VStr "A"; VInt 5] INSERT.
Definition row_b : Row := mkRow [VStr "A"; VInt 3] INSERT.
Definition key_a : Row := mkRow [VStr "A"] INSERT.

(** A batch for the non-windowed operation: A=5, a timer for A, A=3. *)
Definition batch : list AbstractStreamGroupAggregateOperation.InputData :=
  [AbstractStreamGroupAggregateOperation.mkInputData NORMAL_RECORD row_a 0 key_a;
   AbstractStreamGroupAggregateOperation.mkInputData TRIGGER_TIMER row_a 7 key_a;
   AbstractStreamGroupAggregateOperation.mkInputData NORMAL_RECORD row_b 0 key_a].

(** Inputs for the windowed operation: an element with watermark 4, the
    firing of an event-time timer (kind 0) for key A and the window
    [0, 10) at time 9, and the same firing with the timer kind 2. *)
Definition window_bytes : list byte := [Byte.x00; Byte.x00; Byte.x0a].

Definition fired : InternalTimer :=
  InternalTimerImpl 9 [VStr "A"] (TimeWindow 0 10).

Definition element_input : StreamGroupWindowAggregateOperation.InputData :=
  StreamGroupWindowAggregateOperation.mkInputData NORMAL_RECORD row_a 0 4
    (StreamGroupWindowAggregateOperation.mkTimerData 0 key_a []).

Definition event_timer_input : StreamGroupWindowAggregateOperation.InputData :=
  StreamGroupWindowAggregateOperation.mkInputData TRIGGER_TIMER row_a 9 0
    (StreamGroupWindowAggregateOperation.mkTimerData
       REGISTER_EVENT_TIMER key_a window_bytes).

Definition unknown_timer_input : StreamGroupWindowAggregateOperation.InputData :=
  StreamGroupWindowAggregateOperation.mkInputData TRIGGER_TIMER row_a 9 0
    (StreamGroupWindowAggregateOperation.mkTimerData 2 key_a window_bytes).

(** Two configurations of the windowed operation, over aggregate functions
    and coders that carry nothing: a tumbling event-time window of size
    10, and the same with the sliding window type. *)
Definition tumbling_window : GroupWindow.t :=
  GroupWindow.mk GroupWindow.TUMBLING_GROUP_WINDOW true 10 true 0 1
    [GroupWindow.WINDOW_START; GroupWindow.ROW_TIME_ATTRIBUTE].

Definition sliding_window : GroupWindow.t :=
  GroupWindow.mk GroupWindow.SLIDING_GROUP_WINDOW true 10 true 0 1 [].

Definition operation (window : GroupWindow.t)
  : @StreamGroupWindowAggregateOperation.Self unit :=
  StreamGroupWindowAggregateOperation.mkSelf window None
    (StreamGroupWindowAggregateOperation.mkBackend window_coder) 0 false [].

Definition setup (window : GroupWindow.t) :=
  StreamGroupWindowAggregateOperation.create_process_function
    (operation window) ([] : list unit) ([] : list unit) [] [] tt tt tt.

(** Modelled from the spec: [extract_user_defined_aggregate_function] is
    declared in [operation_utils].  Here the description of a function is
    its input expression, whether it is distinct and its filter argument;
    the distinct functions that reference the same input expression share
    one view, and the input expression stands for the function and for its
    input extractor. *)
Definition Udf : Type := string * bool * Z.

Fixpoint add_to_view (expression : string) (i filter_arg : Z)
    (d : list (string * (list Z * list Z)))
  : list (string * (list Z * list Z)) * Z :=
  match d with
  | [] => ([(expression, ([i], [filter_arg]))], i)
  | (k, (agg_index_list, filter_arg_list)) :: rest =>
      if String.eqb k expression then
        ((k, (agg_index_list ++ [i], filter_arg_list ++ [filter_arg])) :: rest,
         List.hd i agg_index_list)
      else
        let '(rest', distinct_index) := add_to_view expression i filter_arg rest in
        ((k, (agg_index_list, filter_arg_list)) :: rest', distinct_index)
  end.

Definition extract_function (i : Z) (udf : Udf)
    (distinct_info_dict : list (string * (list Z * list Z)))
  : PyResult (string * string * Z * Z) * list (string * (list Z * list Z)) :=
  let '(expression, distinct, filter_arg) := udf in
  if distinct then
    let '(d, distinct_index) :=
      add_to_view expression i filter_arg distinct_info_dict in
    (ok (expression, expression, filter_arg, distinct_index), d)
  else
    (ok (expression, expression, filter_arg, -1), distinct_info_dict).

(** A process function that is the dict of descriptors it was given. *)
Definition descriptors_only
    (user_defined_aggs input_extractors : list string)
    (filter_args distinct_indexes : list Z)
    (distinct_view_descriptors :
       gmap Z (@AbstractStreamGroupAggregateOperation.DistinctViewDescriptor string))
    (key_selector : AbstractStreamGroupAggregateOperation.RowKeySelector)
    (state_value_coder :
       @AbstractStreamGroupAggregateOperation.StateValueCoder unit)
  : PyResult (gmap Z (@AbstractStreamGroupAggregateOperation.DistinctViewDescriptor string)) :=
  ok distinct_view_descriptors.

(** COUNT(DISTINCT a), COUNT(DISTINCT b) FILTER f4,
    SUM(DISTINCT a) FILTER f3, MAX(c). *)
Definition udfs : list Udf :=
  [("value[0]", true, -1); ("value[1]", true, 4);
   ("value[0]", true, 3); ("value[2]", false, -1)].

(** What the first loop of [generate_func] leaves for [udfs]. *)
Definition extracted
  : @AbstractStreamGroupAggregateOperation.Extracted string string string :=
  AbstractStreamGroupAggregateOperation.mkExtracted
    ["value[0]"; "value[1]"; "value[0]"; "value[2]"]
    ["value[0]"; "value[1]"; "value[0]"; "value[2]"]
    [-1; 4; 3; -1]
    [0; 1; 0; -1]
    [("value[0]", ([0; 2], [-1; 3])); ("value[1]", ([1], [4]))].

End Examples.

Section generated_function_vocabulary.
Context {Var UserDefinedFunc : Type}.

(** The value a name has when the variable dicts are merged in order: the
    one of the last dict that binds it. *)
Fixpoint last_binding (name : string) (dicts : list (gmap string Var))
  : option Var :=
  match dicts with
  | [] => None
  | d :: rest =>
      match last_binding name rest with
      | Some v => Some v
      | None => d !! name
      end
  end.

Definition extracted_source (x : string * gmap string Var * list UserDefinedFunc)
  : string := x.1.1.
Definition extracted_variables
    (x : string * gmap string Var * list UserDefinedFunc)
  : gmap string Var := x.1.2.
Definition extracted_funcs (x : string * gmap string Var * list UserDefinedFunc)
  : list UserDefinedFunc := x.2.

End generated_function_vocabulary.

Module GenerateExamples.

(** A helper for the examples: a description is already the extracted
    triple, and an empty source text stands for a description that cannot
    be loaded. *)
Definition extract (udf : string * gmap string Z * list string)
  : PyResult (string * gmap string Z * list string) :=
  if String.eqb udf.1.1 EmptyString
  then raise (Exception "cannot load the function")
  else ok udf.

Definition udf_f : string * gmap string Z * list string :=
  ("f(value[0], c0)", {[ "c0" := 1 ]}, ["f"]).
Definition udf_g : string * gmap string Z * list string :=
  ("g(value[1], c0)", {[ "c0" := 2 ]}, ["g"]).

(** A description whose call text is not an expression. *)
Definition udf_open : string * gmap string Z * list string :=
  ("f(value[0]", ∅, ["f"]).

(** Whether the brackets of a text are closed, [depth] of them being
    open at its start. *)
Fixpoint brackets_closed (depth : nat) (source : string) : bool :=
  match source with
  | EmptyString => Nat.eqb depth 0
  | String c rest =>
      if Ascii.eqb c "("%char || Ascii.eqb c "["%char
      then brackets_closed (S depth) rest
      else if Ascii.eqb c ")"%char || Ascii.eqb c "]"%char
      then match depth with
           | O => false
           | S depth' => brackets_closed depth' rest
           end
      else brackets_closed depth rest
  end.

(** An [eval] for the examples: a generated function is represented by
    the text and the globals it was evaluated from, and a text that
    leaves a bracket open is refused as the parser refuses it. *)
Definition eval (lambda : Lambda Z) : PyResult (Lambda Z) :=
  if brackets_closed 0 (lambda_source lambda)
  then ok lambda
  else raise (SyntaxError "unexpected EOF while parsing").

End GenerateExamples.


Module RuntimeExamples.

(** A runtime context message with the parameter [mode] given twice. *)
Definition proto : RuntimeContextProto.t :=
  RuntimeContextProto.mk "Map" "Map (1/2)" 2 128 0 0
    [RuntimeContextProto.mkJobParameter "mode" "batch";
     RuntimeContextProto.mkJobParameter "owner" "a";
     RuntimeContextProto.mkJobParameter "mode" "streaming"].

(** A backend that hands out the name of the state it was asked for. *)
Definition backend : Handler (KeyedStateBackend.Call string unit) unit :=
  fun X c =>
    match c in KeyedStateBackend.Call _ _ X return unit -> PyResult X * unit with
    | KeyedStateBackend.get_value_state name => fun s => (ok name, s)
    | KeyedStateBackend.get_list_state name => fun s => (ok name, s)
    | KeyedStateBackend.get_map_state name => fun s => (ok name, s)
    | KeyedStateBackend.get_reducing_state name _ => fun s => (ok name, s)
    | KeyedStateBackend.get_aggregating_state name _ => fun s => (ok name, s)
    end.

End RuntimeExamples.


Section timer_request_vocabulary.
Import KeyedProcessFunctionOperation.
Context {A : Type}.

(** One request to the keyed timer service. *)
Definition timer_request (kind : TimerOperandType.t) (t0 : Z)
    (self : InternalTimerService.t A) : InternalTimerService.t A :=
  match kind with
  | TimerOperandType.REGISTER_EVENT_TIMER =>
      InternalTimerService.register_event_time_timer t0 self
  | TimerOperandType.REGISTER_PROC_TIMER =>
      InternalTimerService.register_processing_time_timer t0 self
  | TimerOperandType.DELETE_EVENT_TIMER =>
      InternalTimerService.delete_event_time_timer t0 self
  | TimerOperandType.DELETE_PROC_TIMER =>
      InternalTimerService.delete_processing_time_timer t0 self
  end.

(** A run of requests, each made after the backend was given a current
    key. *)
Definition timer_requests (script : list (Row * TimerOperandType.t * Z))
    (self : InternalTimerService.t A) : InternalTimerService.t A :=
  fold_left
    (fun self step =>
       timer_request step.1.2 step.2
         (InternalTimerService.set_current_key step.1.1 self))
    script self.

End timer_request_vocabulary.


Section over_window_vocabulary.
Import PandasBatchOverWindowAggregateFunctionOperation.

(** The number of bounded range windows among the given ones. *)
Definition count_bounded (windows : list OverWindow) : Z :=
  Z.of_nat (length (List.filter bounded_range windows)).

(** The number of bounded range windows before position [i]. *)
Definition bounded_before (windows : list OverWindow) (i : nat) : Z :=
  count_bounded (take i windows).

(** How many of the first rows of a series of [n] rows a slice up to
    [end_] keeps: [end_] of them (all when there are fewer), and for a
    negative [end_] all but the last [- end_] (none when there are fewer). *)
Definition kept_rows (end_ : Z) (n : nat) : nat :=
  if decide (0 <= end_) then Z.to_nat end_ else (n - Z.to_nat (- end_))%nat.

End over_window_vocabulary.


Module OverWindowExamples.
Import PandasBatchOverWindowAggregateFunctionOperation.

(** An aggregate function: the sum of the first of the series it is
    given. *)
Definition sum_first (series_slices : list (list Z)) : option Z :=
  s ← series_slices !! 0%nat; Some (foldr Z.add 0 s).

(** ROWS BETWEEN 1 PRECEDING AND 1 FOLLOWING, and RANGE BETWEEN UNBOUNDED
    PRECEDING AND a bound that the caller resolves to row positions. *)
Definition windows : list OverWindow :=
  [mkOverWindow ROW_SLIDING (-1) 1;
   mkOverWindow RANGE_UNBOUNDED_PRECEDING 0 0].

Definition self : @Self Z Z :=
  mkSelf windows (index_windows windows) [0; 1] [sum_first; sum_first].

(** Three rows of one column; the range window of row j ends before
    position j + 1. *)
Definition boundaries_series : list (@SeriesItem Z) :=
  [Boundaries [1; 2; 3]; Inputs [[10; 20; 30]]].

(** For the construction of the operation: a udf is already its extracted
    description, and every source text stands for the sum of the first
    series (0 when there is none). *)
Definition extract (udf : string * gmap string Z * list string * Z)
  : PyResult (string * gmap string Z * list string * Z) := ok udf.

Definition eval (lambda : Lambda Z) (series_slices : list (list Z))
  : option Z :=
  Some (foldr Z.add 0 (default [] (series_slices !! 0%nat))).

Definition udfs : list (string * gmap string Z * list string * Z) :=
  [("sum(value[0])", ∅, ["sum"], 0); ("sum(value[0])", ∅, ["sum"], 1)].


(** ROWS BETWEEN UNBOUNDED PRECEDING AND 2 PRECEDING, with one aggregate
    function, over five rows of one column. *)
Definition preceding_windows : list OverWindow :=
  [mkOverWindow ROW_UNBOUNDED_PRECEDING 0 (-2)].

Definition preceding_self : @Self Z Z :=
  mkSelf preceding_windows (index_windows preceding_windows) [0] [sum_first].

Definition preceding_series : list (@SeriesItem Z) :=
  [Inputs [[1; 2; 3; 4; 5]]].

End OverWindowExamples.


Module SetupExamples.

(** A serialized function with two distinct counts over the same input,
    for the windowed operation. *)
Definition serialized_fn (window : GroupWindow.t)
  : SerializedFn Examples.Udf :=
  mkSerializedFn
    [("value[0]", true, -1); ("value[0]", true, 3)]
    [0] window false 0 false 1000 false.

Definition no_data_views (udfs : list Examples.Udf) : PyResult (list unit) :=
  ok [].

Definition backend : StreamGroupWindowAggregateOperation.RemoteKeyedStateBackend :=
  StreamGroupWindowAggregateOperation.mkBackend Examples.window_coder.

(** A session window with a named property of the unknown kind 7. *)
Definition session_with_unknown_property : GroupWindow.t :=
  GroupWindow.mk GroupWindow.SESSION_GROUP_WINDOW true 10 true 0 1
    [GroupWindow.WINDOW_END; GroupWindow.UNRECOGNIZED 7].

(** A tumbling count window of 5 elements. *)
Definition count_window : GroupWindow.t :=
  GroupWindow.mk GroupWindow.TUMBLING_GROUP_WINDOW false 5 false 0 0 [].

(** An aggregate function that fails on the second element it is given. *)
Definition failing_group_function : Handler GroupAggFunction.Call nat :=
  fun X c =>
    match c in GroupAggFunction.Call X return nat -> PyResult X * nat with
    | GroupAggFunction.process_element element => fun seen =>
        match seen with
        | S _ => (raise (Exception "accumulate failed"), seen)
        | O => (ok tt, S seen)
        end
    | GroupAggFunction.on_timer _ => fun seen => (ok tt, seen)
    | GroupAggFunction.finish_bundle => fun seen => (ok [], seen)
    end.

End SetupExamples.


Section metric_group_vocabulary.
Import Operation.

(** A property of the flink gauges and the beam gauges of a group holds
    for the group and for all groups below it. *)
Fixpoint every_group (P : list (string * option Z) -> gmap string Z -> Prop)
    (group : MetricGroup) : Prop :=
  match group with
  | GenericMetricGroup _flink_gauge _beam_gauge _sub_groups =>
      P _flink_gauge _beam_gauge
      /\ (fix all (l : list MetricGroup) : Prop :=
            match l with
            | [] => True
            | sub_group :: rest => every_group P sub_group /\ all rest
            end) _sub_groups
  end.

(** Every flink gauge of the group has a beam gauge. *)
Definition gauges_bound (_flink_gauge : list (string * option Z))
    (_beam_gauge : gmap string Z) : Prop :=
  forall name, name ∈ _flink_gauge.*1 -> is_Some (_beam_gauge !! name).

(** Every flink gauge of the group has a beam gauge, the call of the
    flink gauge returns, and setting the beam gauge to the value returned
    returns. *)
Definition gauges_settable (set_returns : string -> Z -> bool)
    (_flink_gauge : list (string * option Z))
    (_beam_gauge : gmap string Z) : Prop :=
  forall name flink_gauge, (name, flink_gauge) ∈ _flink_gauge ->
    is_Some (_beam_gauge !! name)
    /\ exists value, flink_gauge = Some value
                     /\ set_returns name value = true.

(** Every beam gauge named by a flink gauge shows the value of that
    gauge. *)
Definition gauges_shown (_flink_gauge : list (string * option Z))
    (_beam_gauge : gmap string Z) : Prop :=
  forall name value, (name, Some value) ∈ _flink_gauge ->
                     _beam_gauge !! name = Some value.

(** The names of the flink gauges of a group are distinct, as the keys of
    a dict are. *)
Definition gauge_names_distinct (_flink_gauge : list (string * option Z))
    (_beam_gauge : gmap string Z) : Prop :=
  NoDup _flink_gauge.*1.

End metric_group_vocabulary.

Module MetricExamples.
Import Operation.

(** Beam gauges that take every value, and beam gauges that refuse a
    negative one. *)
Definition set_always_returns (name : string) (value : Z) : bool := true.
Definition set_refuses_negative (name : string) (value : Z) : bool :=
  0 <=? value.

(** A group with one gauge and a sub-group with two. *)
Definition group : MetricGroup :=
  GenericMetricGroup [("rows", Some 7)] {[ "rows" := 0 ]}
    [GenericMetricGroup [("keys", Some 2); ("late", Some 1)]
       {[ "keys" := 0; "late" := 0; "other" := 5 ]} []].

(** The same with the beam gauge of [late] missing. *)
Definition broken_group : MetricGroup :=
  GenericMetricGroup [("rows", Some 7)] {[ "rows" := 0 ]}
    [GenericMetricGroup [("keys", Some 2); ("late", Some 1)]
       {[ "keys" := 0 ]} []].

(** The same with every beam gauge present, and a gauge [late] whose call
    raises. *)
Definition raising_group : MetricGroup :=
  GenericMetricGroup [("rows", Some 7)] {[ "rows" := 0 ]}
    [GenericMetricGroup [("keys", Some 2); ("late", None)]
       {[ "keys" := 0; "late" := 0 ]} []].

(** The same with a gauge [late] that returns a negative value. *)
Definition negative_group : MetricGroup :=
  GenericMetricGroup [("rows", Some 7)] {[ "rows" := 0 ]}
    [GenericMetricGroup [("keys", Some 2); ("late", Some (-1))]
       {[ "keys" := 0; "late" := 0 ]} []].

End MetricExamples.


(** * Properties *)

(** ** Running programs *)

Section exec_facts.
Context {E : Type -> Type} {S : Type}.
Variable h : Handler E S.

Lemma exec_bind {A B} (p : Prog E A) (f : A -> Prog E B) (s : S) :
  exec h (p ≫= f) s =
  match exec h p s with
  | (inr a, s1, tr1) =>
      let '(r, s2, tr2) := exec h (f a) s1 in (r, s2, tr1 ++ tr2)
  | (inl e, s1, tr1) => (inl e, s1, tr1)
  end.
Proof.
  unfold mbind, prog_mbind. revert s.
  induction p as [a|e|X c k IH]; intros s; simpl.
  - destruct (exec h (f a) s) as [[r s2] tr2]. reflexivity.
  - reflexivity.
  - destruct (h X c s) as [[e|x] s1]; [reflexivity|].
    rewrite IH.
    destruct (exec h (k x) s1) as [[[e|a] s2] tr1]; [reflexivity|].
    destruct (exec h (f a) s2) as [[r s3] tr2]. reflexivity.
Qed.

Lemma exec_call {X} (c : E X) (s : S) :
  exec h (call c) s = ((h X c s).1, (h X c s).2, [event c]).
Proof.
  unfold call. simpl. destruct (h X c s) as [[e|x] s1]; reflexivity.
Qed.

(** A program that raises nothing of its own, run against a collaborator
    that never raises, returns. *)
Lemma exec_returns {A} (p : Prog E A) (s : S) :
  never_raises h -> raises_nothing p ->
  exists a, outcome (exec h p s) = inr a.
Proof.
  intros Hh. revert s.
  induction p as [a|e|X c k IH]; intros s Hp; simpl in *.
  - eauto.
  - contradiction.
  - destruct (Hh X c s) as (x & s1 & ->).
    destruct (IH x s1 (Hp x)) as [a Ha].
    destruct (exec h (k x) s1) as [[r s2] tr]. eauto.
Qed.

End exec_facts.

Lemma raises_nothing_bind {E A B} (p : Prog E A) (f : A -> Prog E B) :
  raises_nothing p -> (forall a, raises_nothing (f a)) ->
  raises_nothing (p ≫= f).
Proof.
  unfold mbind, prog_mbind. intros Hp Hf.
  induction p as [a|e|X c k IH]; simpl in *; auto.
Qed.

Lemma raises_nothing_call {E X} (c : E X) : raises_nothing (call c).
Proof. intros x. exact I. Qed.

(** ** AbstractStreamGroupAggregateOperation.process_element_or_timer *)

Section group_aggregate_dispatch.
Import GroupAggFunction AbstractStreamGroupAggregateOperation.

Context {S : Type}.
Variable h : Handler Call S.

Lemma expected_call_not_finish input_datas :
  List.filter is_finish_bundle (map expected_call input_datas) = [].
Proof.
  induction input_datas as [|d l IH]; [reflexivity|].
  simpl. unfold expected_call at 1.
  destruct (decide _); simpl; exact IH.
Qed.

Lemma exec_dispatch input_data s :
  exists r s1,
    exec h (dispatch input_data) s = (r, s1, [expected_call input_data]).
Proof.
  unfold dispatch, expected_call.
  destruct (Z.eqb_spec (element_type input_data) NORMAL_RECORD) as [Heq|Hne].
  - rewrite decide_True by exact Heq. rewrite exec_call. eauto.
  - rewrite decide_False by exact Hne. rewrite exec_call. eauto.
Qed.

(** A loop that ran to its end made the expected calls, in order. *)
Lemma exec_for_each_input input_datas s u s1 tr :
  exec h (for_each_input input_datas) s = (inr u, s1, tr) ->
  tr = map expected_call input_datas.
Proof.
  revert s tr.
  induction input_datas as [|d l IH]; intros s tr; simpl.
  - intros [= _ _ <-]. reflexivity.
  - rewrite exec_bind.
    destruct (exec_dispatch d s) as (r & s' & ->).
    destruct r as [e|[]]; [discriminate|].
    destruct (exec h (for_each_input l) s') as [[r' s''] tr'] eqn:Hl.
    intros [= -> -> <-]. simpl. f_equal. eapply IH, Hl.
Qed.

(** The operation raises nothing of its own: against an aggregate function
    that never raises, every batch is processed to its end. *)
Lemma group_aggregate_batch_returns input_datas s :
  never_raises h ->
  exists out,
    outcome (exec h (process_element_or_timer input_datas) s) = inr out.
Proof.
  intros Hh. apply exec_returns; [exact Hh|].
  unfold process_element_or_timer.
  apply raises_nothing_bind; [|intros; apply raises_nothing_call].
  induction input_datas as [|d l IH]; simpl; [exact I|].
  apply raises_nothing_bind; [|intros; exact IH].
  unfold dispatch. destruct (_ =? _); apply raises_nothing_call.
Qed.

(** C3.  A batch that the non-windowed operation processes to its end made
    one call per input, in arrival order: [process_element] with the element
    field for an input tagged NORMAL_RECORD, [on_timer] with the key field
    for any other tag; then [finish_bundle] exactly once, in the state all
    the inputs left, and what it returned is the output of the batch. *)
Theorem group_aggregate_batch_dispatch input_datas s out :
  outcome (exec h (process_element_or_timer input_datas) s) = inr out ->
  exists s1 s2,
    exec h (for_each_input input_datas) s
      = (inr tt, s1, map expected_call input_datas)
    /\ h _ finish_bundle s1 = (inr out, s2)
    /\ exec h (process_element_or_timer input_datas) s
      = (inr out, s2, map expected_call input_datas ++ [event finish_bundle])
    /\ List.filter is_finish_bundle
         (calls (exec h (process_element_or_timer input_datas) s))
      = [event finish_bundle].
Proof.
  unfold process_element_or_timer, outcome, calls. rewrite exec_bind.
  destruct (exec h (for_each_input input_datas) s) as [[[e|[]] s1] tr] eqn:Hloop;
    [discriminate|].
  rewrite exec_call.
  destruct (h _ finish_bundle s1) as [r s2] eqn:Hfin. simpl.
  intros ->.
  pose proof (exec_for_each_input _ _ _ _ _ Hloop) as ->.
  exists s1, s2. repeat split; [exact Hfin|].
  rewrite List.filter_app, expected_call_not_finish. reflexivity.
Qed.

End group_aggregate_dispatch.

(** The batch A=5, timer for A, A=3 against the buffering function. *)
Lemma group_aggregate_batch_dispatch_witness :
  exists s1 s2,
    exec Examples.group_function
      (AbstractStreamGroupAggregateOperation.for_each_input Examples.batch) []
      = (inr tt, s1, map expected_call Examples.batch)
    /\ Examples.group_function _ GroupAggFunction.finish_bundle s1
      = (inr [Examples.row_a; Examples.row_b], s2)
    /\ exec Examples.group_function
      (AbstractStreamGroupAggregateOperation.process_element_or_timer
         Examples.batch) []
      = (inr [Examples.row_a; Examples.row_b], s2,
         map expected_call Examples.batch ++ [event GroupAggFunction.finish_bundle])
    /\ List.filter is_finish_bundle
         (calls (exec Examples.group_function
           (AbstractStreamGroupAggregateOperation.process_element_or_timer
              Examples.batch) []))
      = [event GroupAggFunction.finish_bundle].
Proof.
  exact (group_aggregate_batch_dispatch Examples.group_function
           Examples.batch [] [Examples.row_a; Examples.row_b] eq_refl).
Defined.

(** ** StreamGroupWindowAggregateOperation.process_element_or_timer *)

Section window_aggregate_dispatch.
Import GroupWindowAggFunction StreamGroupWindowAggregateOperation.

Context {S : Type}.
Variable h : Handler Call S.
Variable has_cython : bool.
Variable coder : NamespaceCoder.

Abbreviation run input_data s :=
  (exec h (process_element_or_timer has_cython coder input_data) s).

(** The run on a NORMAL_RECORD input, call by call. *)
Lemma exec_normal_record input_data s :
  element_type input_data = NORMAL_RECORD ->
  let pw := process_watermark (watermark input_data) in
  let pe := process_element (make_input_row has_cython (element input_data)) in
  run input_data s =
  match h _ pw s with
  | (inl e, s1) => (inl e, s1, [event pw])
  | (inr _, s1) =>
      match h _ pe s1 with
      | (inl e, s2) => (inl e, s2, [event pw; event pe])
      | (inr result_datas, s2) =>
          match h _ get_timers s2 with
          | (inl e, s3) => (inl e, s3, [event pw; event pe; event get_timers])
          | (inr timers, s3) =>
              (inr (map normal_entry result_datas
                    ++ map (timer_entry coder) timers),
               s3, [event pw; event pe; event get_timers])
          end
      end
  end.
Proof.
  intros Htag pw pe. unfold process_element_or_timer.
  rewrite Htag, Z.eqb_refl. simpl. fold pw pe.
  destruct (h _ pw s) as [[e|[]] s1]; [reflexivity|].
  destruct (h _ pe s1) as [[e|result_datas] s2]; [reflexivity|].
  destruct (h _ get_timers s2) as [[e|timers] s3]; reflexivity.
Qed.

(** The run on any other input: one call, to the handler of the timer. *)
Lemma exec_trigger_timer input_data s :
  element_type input_data <> NORMAL_RECORD ->
  let c := timer_handler coder input_data in
  run input_data s =
  (match (h _ c s).1 with
   | inl e => inl e
   | inr result_datas => inr (map normal_entry result_datas)
   end,
   (h _ c s).2, [event c]).
Proof.
  intros Htag c. unfold process_element_or_timer.
  destruct (Z.eqb_spec (element_type input_data) NORMAL_RECORD) as [|_];
    [contradiction|].
  subst c. unfold timer_handler. fold (fired_timer coder input_data).
  destruct (Z.eqb_spec (timer_type (timer_data input_data)) REGISTER_EVENT_TIMER)
    as [Heq|Hne].
  - rewrite decide_True by exact Heq. simpl.
    destruct (h _ (on_event_time _) s) as [[e|rows] s1]; reflexivity.
  - rewrite decide_False by exact Hne. simpl.
    destruct (h _ (on_processing_time _) s) as [[e|rows] s1]; reflexivity.
Qed.

(** The operation raises nothing of its own: against an aggregate function
    that never raises, every input is processed to its end. *)
Lemma window_aggregate_returns input_data s :
  never_raises h ->
  exists results, outcome (run input_data s) = inr results.
Proof.
  intros Hh. apply exec_returns; [exact Hh|].
  unfold process_element_or_timer.
  destruct (_ =? _).
  - repeat (apply raises_nothing_bind; [apply raises_nothing_call|intros]).
    exact I.
  - apply raises_nothing_bind; [|intros; exact I].
    destruct (_ =? _); apply raises_nothing_call.
Qed.

(** C10.  On a NORMAL_RECORD input the first call of the windowed
    operation is [process_watermark] with the fourth field of the input,
    whatever the window kind; [process_element] is called only after it,
    as the next call once [process_watermark] has returned. *)
Theorem watermark_before_element input_data s :
  element_type input_data = NORMAL_RECORD ->
  let pw := process_watermark (watermark input_data) in
  let pe := process_element (make_input_row has_cython (element input_data)) in
  exists rest,
    calls (run input_data s) = event pw :: rest
    /\ (forall s1, h _ pw s = (inr tt, s1) ->
        exists rest', rest = event pe :: rest')
    /\ (rest = [] \/ rest = [event pe] \/ rest = [event pe; event get_timers]).
Proof.
  intros Htag pw pe. rewrite (exec_normal_record _ s Htag). fold pw pe.
  destruct (h _ pw s) as [[e|[]] s1]; unfold calls; simpl.
  - exists []. split; [reflexivity|]. split; [discriminate|]. auto.
  - destruct (h _ pe s1) as [[e|result_datas] s2]; simpl.
    + eexists. split; [reflexivity|]. split; eauto.
    + destruct (h _ get_timers s2) as [[e|timers] s3]; simpl;
        (eexists; split; [reflexivity|]; split; eauto).
Qed.

(** C4.  The entries the windowed operation returns are, in order, the
    change records that the aggregate function returned, each wrapped as
    [[NORMAL_RECORD, changeRecord, None]], and then the timer requests
    that [get_timers] returned (none on a timer input), each wrapped as
    [[TRIGGER_TIMER, None, [timerKind, key, timestamp, encodedNamespace]]]
    with the kind, the key and the timestamp of that request and the
    nested encoding of the namespace of its timer.  So every entry has
    one of these two shapes, with its fields in that order. *)
Theorem output_entry_shape input_data s results :
  outcome (run input_data s) = inr results ->
  exists change_records timer_requests,
    results = map wrapped_change_record change_records
              ++ map (wrapped_timer_request coder) timer_requests
    /\ (if decide (element_type input_data = NORMAL_RECORD) then
          exists s1 s2 s3,
            h _ (process_watermark (watermark input_data)) s = (inr tt, s1)
            /\ h _ (process_element
                      (make_input_row has_cython (element input_data))) s1
               = (inr change_records, s2)
            /\ h _ get_timers s2 = (inr timer_requests, s3)
        else
          timer_requests = []
          /\ exists s1,
              h _ (timer_handler coder input_data) s = (inr change_records, s1))
    /\ Forall (fun entry => change_record_entry entry
                            \/ timer_request_entry coder entry) results.
Proof.
  assert (Hrows : forall rows : list Row,
    Forall (fun entry => change_record_entry entry
                         \/ timer_request_entry coder entry)
           (map wrapped_change_record rows)).
  { intros rows. apply Forall_map, Forall_forall. intros row _.
    left. exists row. reflexivity. }
  assert (Htimers : forall timers : list (TimerOperandType.t * InternalTimer),
    Forall (fun entry => change_record_entry entry
                         \/ timer_request_entry coder entry)
           (map (wrapped_timer_request coder) timers)).
  { intros timers. apply Forall_map, Forall_forall. intros [timer_kind timer] _.
    right. exists timer_kind, timer. reflexivity. }
  destruct (decide (element_type input_data = NORMAL_RECORD)) as [Htag|Htag].
  - rewrite (exec_normal_record _ s Htag). unfold outcome.
    destruct (h _ (process_watermark _) s) as [[e|[]] s1] eqn:Hpw;
      [discriminate|].
    destruct (h _ (process_element _) s1) as [[e|result_datas] s2] eqn:Hpe;
      [discriminate|].
    destruct (h _ get_timers s2) as [[e|timers] s3] eqn:Hgt; [discriminate|].
    simpl. intros [= <-]. exists result_datas, timers.
    split; [f_equal; apply map_ext; intros []; reflexivity|].
    split; [exists s1, s2, s3; auto|].
    apply Forall_app. split; [apply Hrows|].
    replace (map (timer_entry coder) timers)
      with (map (wrapped_timer_request coder) timers)
      by (apply map_ext; intros []; reflexivity).
    apply Htimers.
  - rewrite (exec_trigger_timer _ s Htag). unfold outcome. simpl.
    destruct (h _ (timer_handler coder input_data) s)
      as [[e|result_datas] s1] eqn:Hc; [discriminate|].
    simpl. intros [= <-]. exists result_datas, [].
    split; [simpl; now rewrite app_nil_r|].
    split; [split; [reflexivity|exists s1; reflexivity]|].
    apply Hrows.
Qed.

(** C1, as amended.  A NORMAL_RECORD input that is processed to its end
    made the calls [process_watermark], [process_element], [get_timers],
    and the timer requests [get_timers] returned follow the change records
    in the output, each as a TRIGGER_TIMER entry.  On any other input the
    only call is the handler of the fired timer: [get_timers] is not
    called and the output holds the change records alone. *)
Theorem timers_drained_after_element input_data s results :
  outcome (run input_data s) = inr results ->
  if decide (element_type input_data = NORMAL_RECORD) then
    exists s1 result_datas s2 timers s3,
      h _ (process_watermark (watermark input_data)) s = (inr tt, s1)
      /\ h _ (process_element
                (make_input_row has_cython (element input_data))) s1
         = (inr result_datas, s2)
      /\ h _ get_timers s2 = (inr timers, s3)
      /\ results = map normal_entry result_datas
                   ++ map (timer_entry coder) timers
      /\ final_state (run input_data s) = s3
      /\ calls (run input_data s)
         = [event (process_watermark (watermark input_data));
            event (process_element
                     (make_input_row has_cython (element input_data)));
            event get_timers]
  else
    exists result_datas s1,
      h _ (timer_handler coder input_data) s = (inr result_datas, s1)
      /\ results = map normal_entry result_datas
      /\ final_state (run input_data s) = s1
      /\ calls (run input_data s) = [event (timer_handler coder input_data)].
Proof.
  destruct (decide (element_type input_data = NORMAL_RECORD)) as [Htag|Htag].
  - rewrite (exec_normal_record _ s Htag).
    unfold outcome, final_state, calls.
    destruct (h _ (process_watermark _) s) as [[e|[]] s1] eqn:Hpw;
      [discriminate|].
    destruct (h _ (process_element _) s1) as [[e|result_datas] s2] eqn:Hpe;
      [discriminate|].
    destruct (h _ get_timers s2) as [[e|timers] s3] eqn:Hgt; [discriminate|].
    simpl. intros [= <-].
    exists s1, result_datas, s2, timers, s3. repeat split; assumption.
  - rewrite (exec_trigger_timer _ s Htag).
    unfold outcome, final_state, calls. simpl.
    destruct (h _ (timer_handler coder input_data) s)
      as [[e|result_datas] s1] eqn:Hc; [discriminate|].
    simpl. intros [= <-]. exists result_datas, s1. repeat split.
Qed.

(** C2, as amended.  A TRIGGER_TIMER input makes exactly one call: the
    event-time handler when the timer kind is 0, the processing-time
    handler for every other kind, 1 or not.  The operation raises nothing
    of its own: the run fails only when that handler does. *)
Theorem timer_kind_dispatch input_data s :
  element_type input_data <> NORMAL_RECORD ->
  exists c,
    (if decide (timer_type (timer_data input_data) = REGISTER_EVENT_TIMER)
     then c = on_event_time (fired_timer coder input_data)
     else c = on_processing_time (fired_timer coder input_data))
    /\ calls (run input_data s) = [event c]
    /\ outcome (run input_data s)
       = match (h _ c s).1 with
         | inl e => inl e
         | inr result_datas => inr (map normal_entry result_datas)
         end.
Proof.
  intros Htag. rewrite (exec_trigger_timer _ s Htag).
  exists (timer_handler coder input_data). split; [|split; reflexivity].
  unfold timer_handler. destruct (decide _); reflexivity.
Qed.

End window_aggregate_dispatch.

(** An element with watermark 4: the watermark call comes first. *)
Lemma watermark_before_element_witness :
  exists rest,
    calls (exec Examples.window_function
             (StreamGroupWindowAggregateOperation.process_element_or_timer
                false Examples.window_coder Examples.element_input) [])
    = event (GroupWindowAggFunction.process_watermark 4) :: rest
    /\ (forall s1,
          Examples.window_function _
            (GroupWindowAggFunction.process_watermark 4) [] = (inr tt, s1) ->
          exists rest',
            rest = event (GroupWindowAggFunction.process_element
                            (PlainRow Examples.row_a)) :: rest')
    /\ (rest = []
        \/ rest = [event (GroupWindowAggFunction.process_element
                            (PlainRow Examples.row_a))]
        \/ rest = [event (GroupWindowAggFunction.process_element
                            (PlainRow Examples.row_a));
                   event GroupWindowAggFunction.get_timers]).
Proof.
  apply (watermark_before_element Examples.window_function false
           Examples.window_coder Examples.element_input []).
  reflexivity.
Defined.

(** The two entries returned for the element: its change record and the
    request for an event-time timer on the window [0, 10). *)
Lemma output_entry_shape_witness :
  exists change_records timer_requests,
    [PyList [PyInt 0; PyRow Examples.row_a; PyNone];
     PyList [PyInt 1; PyNone;
             PyList [PyInt 0; PyKey [VStr "A"; VInt 5]; PyInt 9;
                     PyBytes [Byte.x00; Byte.x00; Byte.x0a]]]]
    = map wrapped_change_record change_records
      ++ map (wrapped_timer_request Examples.window_coder) timer_requests
    /\ (exists s1 s2 s3,
          Examples.window_function _
            (GroupWindowAggFunction.process_watermark 4) [] = (inr tt, s1)
          /\ Examples.window_function _
               (GroupWindowAggFunction.process_element
                  (PlainRow Examples.row_a)) s1
             = (inr change_records, s2)
          /\ Examples.window_function _ GroupWindowAggFunction.get_timers s2
             = (inr timer_requests, s3))
    /\ Forall (fun entry => change_record_entry entry
                            \/ timer_request_entry Examples.window_coder entry)
         [PyList [PyInt 0; PyRow Examples.row_a; PyNone];
          PyList [PyInt 1; PyNone;
                  PyList [PyInt 0; PyKey [VStr "A"; VInt 5]; PyInt 9;
                          PyBytes [Byte.x00; Byte.x00; Byte.x0a]]]].
Proof.
  apply (output_entry_shape Examples.window_function false
           Examples.window_coder Examples.element_input []).
  reflexivity.
Defined.

(** C1 as stated fails on a timer firing: the handler asked to delete the
    fired timer, [get_timers] was not called, the request is still held by
    the function and the output has no TRIGGER_TIMER entry. *)
Lemma timers_not_drained_after_timer :
  exec Examples.window_function
    (StreamGroupWindowAggregateOperation.process_element_or_timer
       false Examples.window_coder Examples.event_timer_input) []
  = (inr [PyList [PyInt NORMAL_RECORD; PyRow Examples.key_a; PyNone]],
     [(TimerOperandType.DELETE_EVENT_TIMER, Examples.fired)],
     [event (GroupWindowAggFunction.on_event_time Examples.fired)]).
Proof. reflexivity. Qed.

(** The element: three calls, and the drained request in the output. *)
Lemma timers_drained_after_element_witness :
  exists s1 result_datas s2 timers s3,
    Examples.window_function _ (GroupWindowAggFunction.process_watermark 4) []
      = (inr tt, s1)
    /\ Examples.window_function _
         (GroupWindowAggFunction.process_element (PlainRow Examples.row_a)) s1
       = (inr result_datas, s2)
    /\ Examples.window_function _ GroupWindowAggFunction.get_timers s2
       = (inr timers, s3)
    /\ [PyList [PyInt 0; PyRow Examples.row_a; PyNone];
        PyList [PyInt 1; PyNone;
                PyList [PyInt 0; PyKey [VStr "A"; VInt 5]; PyInt 9;
                        PyBytes [Byte.x00; Byte.x00; Byte.x0a]]]]
       = map StreamGroupWindowAggregateOperation.normal_entry result_datas
         ++ map (StreamGroupWindowAggregateOperation.timer_entry
                   Examples.window_coder) timers
    /\ final_state
         (exec Examples.window_function
            (StreamGroupWindowAggregateOperation.process_element_or_timer
               false Examples.window_coder Examples.element_input) []) = s3
    /\ calls
         (exec Examples.window_function
            (StreamGroupWindowAggregateOperation.process_element_or_timer
               false Examples.window_coder Examples.element_input) [])
       = [event (GroupWindowAggFunction.process_watermark 4);
          event (GroupWindowAggFunction.process_element (PlainRow Examples.row_a));
          event GroupWindowAggFunction.get_timers].
Proof.
  apply (timers_drained_after_element Examples.window_function false
           Examples.window_coder Examples.element_input []).
  reflexivity.
Defined.

(** C2 as stated fails on a timer of kind 2: no error, and the timer goes
    to the processing-time handler. *)
Lemma unknown_timer_kind_is_dispatched :
  StreamGroupWindowAggregateOperation.timer_type
    (StreamGroupWindowAggregateOperation.timer_data
       Examples.unknown_timer_input) = 2
  /\ exec Examples.window_function
       (StreamGroupWindowAggregateOperation.process_element_or_timer
          false Examples.window_coder Examples.unknown_timer_input) []
     = (inr [PyList [PyInt NORMAL_RECORD; PyRow Examples.key_a; PyNone]],
        [(TimerOperandType.DELETE_PROC_TIMER, Examples.fired)],
        [event (GroupWindowAggFunction.on_processing_time Examples.fired)]).
Proof. split; reflexivity. Qed.

(** The timer of kind 2 again, through the theorem. *)
Lemma timer_kind_dispatch_witness :
  exists c,
    c = GroupWindowAggFunction.on_processing_time Examples.fired
    /\ calls (exec Examples.window_function
                (StreamGroupWindowAggregateOperation.process_element_or_timer
                   false Examples.window_coder Examples.unknown_timer_input) [])
       = [event c]
    /\ outcome (exec Examples.window_function
                  (StreamGroupWindowAggregateOperation.process_element_or_timer
                     false Examples.window_coder Examples.unknown_timer_input) [])
       = match (Examples.window_function _ c []).1 with
         | inl e => inl e
         | inr result_datas =>
             inr (map StreamGroupWindowAggregateOperation.normal_entry
                      result_datas)
         end.
Proof.
  apply (timer_kind_dispatch Examples.window_function false
           Examples.window_coder Examples.unknown_timer_input []).
  vm_compute. lia.
Defined.

(** ** StreamGroupWindowAggregateOperation.create_process_function *)

Section window_setup.
Import StreamGroupWindowAggregateOperation.
Context {UserDefinedAgg InputExtractor DistinctViewDescriptors KeySelector
         StateValueCoder DataViewSpec : Type}.

Variable self : @Self DataViewSpec.
Variable user_defined_aggs : list UserDefinedAgg.
Variable input_extractors : list InputExtractor.
Variables filter_args distinct_indexes : list Z.
Variable distinct_view_descriptors : DistinctViewDescriptors.
Variable key_selector : KeySelector.
Variable state_value_coder : StateValueCoder.

Abbreviation setup :=
  (create_process_function self user_defined_aggs input_extractors
     filter_args distinct_indexes distinct_view_descriptors key_selector
     state_value_coder).

(** A function is built only for a tumbling window. *)
Lemma setup_ok_tumbling f :
  setup = ok f ->
  GroupWindow.window_type (_window self) = GroupWindow.TUMBLING_GROUP_WINDOW.
Proof.
  unfold create_process_function, create_window_assigner.
  destruct (GroupWindow.window_type (_window self));
    [reflexivity|discriminate|discriminate].
Qed.

(** C5.  For a sliding or a session group window the setup of the process
    function raises the exception that names the missing implementation;
    it builds no function, so no assigner and no trigger stand in. *)
Theorem sliding_and_session_not_implemented :
  GroupWindow.window_type (_window self) = GroupWindow.SLIDING_GROUP_WINDOW
  \/ GroupWindow.window_type (_window self) = GroupWindow.SESSION_GROUP_WINDOW ->
  (setup =
   raise (Exception
     (match GroupWindow.window_type (_window self) with
      | GroupWindow.SLIDING_GROUP_WINDOW =>
          "General Python UDAF in Sliding window will be implemented in FLINK-21629"
      | _ =>
          "General Python UDAF in Sessiong window will be implemented in FLINK-21630"
      end)))
  /\ forall f, setup <> ok f.
Proof.
  intros Hkind.
  assert (Hraise : exists e, setup = raise e /\
    e = Exception
     (match GroupWindow.window_type (_window self) with
      | GroupWindow.SLIDING_GROUP_WINDOW =>
          "General Python UDAF in Sliding window will be implemented in FLINK-21629"
      | _ =>
          "General Python UDAF in Sessiong window will be implemented in FLINK-21630"
      end)).
  { unfold create_process_function, create_window_assigner.
    destruct Hkind as [-> | ->]; simpl; eauto. }
  destruct Hraise as (e & -> & ->). split; [reflexivity|].
  intros f. discriminate.
Qed.

(** C9.  Whatever the configuration, a tumbling time-window assigner that
    the setup builds has offset 0. *)
Theorem tumbling_assigner_offset_zero f size offset is_event_time :
  setup = ok f ->
  gw_window_assigner f = TumblingWindowAssigner size offset is_event_time ->
  offset = 0
  /\ size = GroupWindow.window_size (_window self)
  /\ is_event_time = GroupWindow.is_row_time (_window self).
Proof.
  unfold create_process_function, create_window_assigner.
  destruct (GroupWindow.window_type (_window self)); try discriminate.
  destruct (GroupWindow.is_time_window (_window self)); simpl;
    intros [= <-]; simpl; intros [= <- <- <-]; auto.
Qed.

End window_setup.

(** The sliding configuration. *)
Lemma sliding_and_session_not_implemented_witness :
  Examples.setup Examples.sliding_window
  = raise (Exception
      "General Python UDAF in Sliding window will be implemented in FLINK-21629")
  /\ forall f, Examples.setup Examples.sliding_window <> ok f.
Proof.
  apply (sliding_and_session_not_implemented
           (Examples.operation Examples.sliding_window)).
  left. reflexivity.
Defined.

(** The tumbling event-time configuration of size 10. *)
Lemma tumbling_assigner_offset_zero_witness :
  exists f,
    Examples.setup Examples.tumbling_window = ok f
    /\ StreamGroupWindowAggregateOperation.gw_window_assigner f
       = StreamGroupWindowAggregateOperation.TumblingWindowAssigner 10 0 true
    /\ (0 = 0
        /\ 10 = GroupWindow.window_size Examples.tumbling_window
        /\ true = GroupWindow.is_row_time Examples.tumbling_window).
Proof.
  eexists. split; [reflexivity|]. split; [reflexivity|].
  eapply (tumbling_assigner_offset_zero
            (Examples.operation Examples.tumbling_window)
            ([] : list unit) ([] : list unit) [] [] tt tt tt);
    reflexivity.
Defined.

(** ** StreamGroupWindowAggregateOperation._create_named_property_function *)

Section named_properties.
Import StreamGroupWindowAggregateOperation.

Lemma append_cons c (s t : string) :
  String.append (String c s) t = String c (String.append s t).
Proof. reflexivity. Qed.

Lemma append_empty_r (s : string) : String.append s EmptyString = s.
Proof.
  induction s as [|c s IH]; [reflexivity|].
  rewrite append_cons. f_equal. exact IH.
Qed.

Lemma append_snoc (s : string) c (t : string) :
  String.append (String.append s (String c EmptyString)) t
  = String.append s (String c t).
Proof.
  induction s as [|d s IH]; [reflexivity|].
  rewrite !append_cons. f_equal. exact IH.
Qed.

Lemma split_commas_app x : forall current rest,
  no_comma x = true ->
  split_commas current (String.append x rest)
  = split_commas (String.append current x) rest.
Proof.
  induction x as [|c x IH]; intros current rest Hx.
  - now rewrite append_empty_r.
  - simpl in Hx. apply andb_true_iff in Hx as [Hc Hx].
    apply negb_true_iff in Hc.
    rewrite append_cons. simpl. rewrite Hc.
    rewrite IH by exact Hx. now rewrite append_snoc.
Qed.

Lemma split_commas_comma current rest :
  split_commas current (String "," rest)
  = current :: split_commas EmptyString rest.
Proof. reflexivity. Qed.

(** Splitting the joined array gives the array back. *)
Lemma split_join_commas (array : list string) :
  forallb no_comma array = true -> array <> [] ->
  split_commas EmptyString (join_commas array) = array.
Proof.
  unfold join_commas.
  induction array as [|x l IH]; intros Hall Hne; [contradiction|].
  simpl in Hall. apply andb_true_iff in Hall as [Hx Hl].
  destruct l as [|y l].
  - simpl. rewrite <- (append_empty_r x) at 1.
    rewrite split_commas_app by exact Hx. reflexivity.
  - change (String.concat "," (x :: y :: l))
      with (String.append x (String "," (String.concat "," (y :: l)))).
    rewrite split_commas_app by exact Hx.
    rewrite split_commas_comma.
    rewrite IH by (exact Hl || discriminate). reflexivity.
Qed.

Lemma append_truthy (x rest : string) :
  str_truthy x = true -> str_truthy (String.append x rest) = true.
Proof. destruct x; [discriminate|reflexivity]. Qed.

Lemma join_commas_truthy (array : list string) :
  forallb str_truthy array = true -> array <> [] ->
  str_truthy (join_commas array) = true.
Proof.
  unfold join_commas. destruct array as [|x l]; intros Hall Hne; [contradiction|].
  simpl in Hall. apply andb_true_iff in Hall as [Hx _].
  destruct l as [|y l]; [exact Hx|].
  change (String.concat "," (x :: y :: l))
    with (String.append x (String "," (String.concat "," (y :: l)))).
  now apply append_truthy.
Qed.

(** The loop over properties of known kinds appends their source texts. *)
Lemma named_property_loop_known props : forall array,
  forallb known_property props = true ->
  named_property_loop props array = ok (array ++ map property_source props).
Proof.
  induction props as [|p props IH]; intros array Hall; simpl.
  - now rewrite app_nil_r.
  - simpl in Hall. apply andb_true_iff in Hall as [Hp Hall].
    destruct p; try discriminate; simpl;
      rewrite IH by exact Hall; now rewrite <- app_assoc.
Qed.

(** The loop stops at the first property of an unknown kind. *)
Lemma named_property_loop_unrecognized props : forall array n,
  first_unrecognized props = Some n ->
  named_property_loop props array
  = raise (Exception (String.append "Unexpected property " (str_of_int n))).
Proof.
  induction props as [|p props IH]; intros array n; simpl; [discriminate|].
  destruct p; simpl; try (apply IH).
  intros [= ->]. reflexivity.
Qed.

Lemma sources_well_formed props :
  forallb known_property props = true ->
  forallb no_comma (map property_source props) = true
  /\ forallb str_truthy (map property_source props) = true.
Proof.
  induction props as [|p props IH]; intros Hall; simpl; [auto|].
  simpl in Hall. apply andb_true_iff in Hall as [Hp Hall].
  destruct (IH Hall) as [-> ->]. destruct p; try discriminate; auto.
Qed.

Lemma eval_sources start end_ props :
  forallb known_property props = true ->
  result_map (fun source => eval_expression source (TimeWindow start end_))
             (map property_source props)
  = ok (map (property_value start end_) props).
Proof.
  induction props as [|p props IH]; intros Hall; simpl; [reflexivity|].
  simpl in Hall. apply andb_true_iff in Hall as [Hp Hall].
  rewrite IH by exact Hall. destruct p; try discriminate; reflexivity.
Qed.

Lemma first_unrecognized_in props n :
  In (GroupWindow.UNRECOGNIZED n) props ->
  exists m, first_unrecognized props = Some m
            /\ In (GroupWindow.UNRECOGNIZED m) props.
Proof.
  induction props as [|p props IH]; simpl; [contradiction|].
  intros [->|Hin]; [eauto|].
  destruct p; try (destruct (IH Hin) as (m & Hm & Hin'); eauto); eauto.
Qed.

(** C6, as amended.  For a configuration that is not empty and holds only
    the four known kinds, an extractor is built, and on a firing time
    window it returns, in configuration order, the start for window-start,
    the end for window-end, the end minus 1 for the row-time attribute and
    -1 for the processing-time attribute.  For the empty configuration no
    extractor is built.  A configuration with a property of any other kind
    raises [Unexpected property] with the number of such a property. *)
Theorem named_property_extractor_values props :
  (forallb known_property props = true -> props <> [] ->
   exists extractor,
     _create_named_property_function props = ok (Some extractor)
     /\ forall start end_,
         extractor (TimeWindow start end_)
         = ok (map (property_value start end_) props))
  /\ (props = [] -> _create_named_property_function props = ok None)
  /\ (forall n, In (GroupWindow.UNRECOGNIZED n) props ->
      exists m,
        In (GroupWindow.UNRECOGNIZED m) props
        /\ _create_named_property_function props
           = raise (Exception (String.append "Unexpected property "
                                             (str_of_int m)))).
Proof.
  split; [|split].
  - intros Hknown Hne. unfold _create_named_property_function.
    rewrite named_property_loop_known by exact Hknown. simpl.
    destruct (sources_well_formed props Hknown) as [Hcomma Htruthy].
    assert (Hsrc : map property_source props <> [])
      by (destruct props; [contradiction|discriminate]).
    rewrite join_commas_truthy by assumption.
    eexists. split; [reflexivity|].
    intros start end_. unfold eval_lambda_list.
    rewrite split_join_commas by assumption.
    now apply eval_sources.
  - intros ->. reflexivity.
  - intros n Hin.
    destruct (first_unrecognized_in props n Hin) as (m & Hm & Hin').
    exists m. split; [exact Hin'|].
    unfold _create_named_property_function.
    now rewrite (named_property_loop_unrecognized props [] m Hm).
Qed.

End named_properties.

(** C6 as stated fails on the empty configuration: no extractor is built,
    so nothing returns the (empty) list of property values. *)
Lemma no_extractor_without_properties :
  StreamGroupWindowAggregateOperation._create_named_property_function []
  = ok None.
Proof. reflexivity. Qed.

(** The four kinds in one configuration. *)
Lemma named_property_extractor_values_witness :
  (exists extractor,
     StreamGroupWindowAggregateOperation._create_named_property_function
       [GroupWindow.WINDOW_START; GroupWindow.WINDOW_END;
        GroupWindow.ROW_TIME_ATTRIBUTE; GroupWindow.PROC_TIME_ATTRIBUTE]
     = ok (Some extractor)
     /\ forall start end_,
         extractor (TimeWindow start end_)
         = ok [start; end_; end_ - 1; -1]).
Proof.
  apply (named_property_extractor_values
           [GroupWindow.WINDOW_START; GroupWindow.WINDOW_END;
            GroupWindow.ROW_TIME_ATTRIBUTE; GroupWindow.PROC_TIME_ATTRIBUTE]);
    [reflexivity|discriminate].
Defined.

Example unknown_property_message :
  StreamGroupWindowAggregateOperation._create_named_property_function
    [GroupWindow.WINDOW_END; GroupWindow.UNRECOGNIZED 7]
  = raise (Exception "Unexpected property 7").
Proof. reflexivity. Qed.

Example extractor_on_window :
  match StreamGroupWindowAggregateOperation._create_named_property_function
          [GroupWindow.ROW_TIME_ATTRIBUTE; GroupWindow.WINDOW_START] with
  | inr (Some extractor) => extractor (TimeWindow 20 30)
  | _ => raise (Exception "no extractor")
  end = ok [29; 20].
Proof. reflexivity. Qed.

(** ** AbstractStreamGroupAggregateOperation.generate_func *)

Section distinct_views.
Import AbstractStreamGroupAggregateOperation.
Context {InputExtractor : Type}.

Lemma py_index_head (l : list Z) first rest :
  l = first :: rest -> py_index l 0 = ok first.
Proof.
  intros ->. unfold py_index. cbn [length]. rewrite Nat2Z.inj_succ.
  destruct (Z.ltb_spec 0 0) as [?|_]; [lia|].
  destruct (Z.leb_spec 0 0) as [_|?]; [|lia].
  destruct (Z.ltb_spec 0 (Z.succ (Z.of_nat (length rest)))) as [_|?]; [|lia].
  reflexivity.
Qed.

Lemma py_index_in_range {A} (l : list A) (i : Z) :
  0 <= i < Z.of_nat (length l) ->
  exists x, l !! Z.to_nat i = Some x /\ py_index l i = ok x.
Proof.
  intros Hi. unfold py_index.
  destruct (Z.ltb_spec i 0) as [?|_]; [lia|].
  destruct (Z.leb_spec 0 i) as [_|?]; [|lia].
  destruct (Z.ltb_spec i (Z.of_nat (length l))) as [_|?]; [|lia].
  simpl. destruct (l !! Z.to_nat i) as [x|] eqn:Hx; [eauto|].
  apply lookup_ge_None in Hx. lia.
Qed.

Lemma descriptor_loop_cons (extractors : list InputExtractor)
    agg_index_list filter_arg_list values acc :
  descriptor_loop extractors ((agg_index_list, filter_arg_list) :: values) acc
  = result_bind (py_index agg_index_list 0) (fun first =>
    result_bind (py_index extractors first) (fun extractor =>
    descriptor_loop extractors values
      (<[first := group_descriptor extractor filter_arg_list]> acc))).
Proof. reflexivity. Qed.

Lemma descriptor_loop_spec (extractors : list InputExtractor) values :
  forall acc : gmap Z (@DistinctViewDescriptor InputExtractor),
  Forall (fun group => exists first,
            group_first group = Some first
            /\ 0 <= first < Z.of_nat (length extractors)) values ->
  NoDup (group_firsts values) ->
  (forall k, k ∈ group_firsts values -> acc !! k = None) ->
  exists descriptors,
    descriptor_loop extractors values acc = ok descriptors
    /\ size descriptors = (size acc + length values)%nat
    /\ (forall k, k ∉ group_firsts values -> descriptors !! k = acc !! k)
    /\ (forall agg_index_list filter_arg_list,
          (agg_index_list, filter_arg_list) ∈ values ->
          exists first extractor,
            head agg_index_list = Some first
            /\ extractors !! Z.to_nat first = Some extractor
            /\ descriptors !! first
               = Some (group_descriptor extractor filter_arg_list)).
Proof.
  induction values as [|[agg_index_list filter_arg_list] values IH];
    intros acc Hwf Hnodup Hfresh.
  - exists acc. simpl. split; [reflexivity|]. split; [lia|].
    split; [reflexivity|]. intros ? ? Hin. inversion Hin.
  - apply Forall_cons in Hwf as [(first & Hfirst & Hrange) Hwf].
    unfold group_firsts in Hnodup, Hfresh. simpl in Hnodup, Hfresh.
    rewrite Hfirst in Hnodup, Hfresh. simpl in Hnodup, Hfresh.
    apply NoDup_cons in Hnodup as [Hnotin Hnodup].
    unfold group_first in Hfirst. simpl in Hfirst.
    destruct agg_index_list as [|first' rest]; [discriminate|].
    injection Hfirst as ->.
    destruct (py_index_in_range extractors first Hrange)
      as (extractor & Hlookup & Hindex).
    rewrite descriptor_loop_cons.
    rewrite (py_index_head (first :: rest) first rest eq_refl).
    unfold ok at 1. cbn [result_bind]. rewrite Hindex.
    unfold ok at 1. cbn [result_bind].
    destruct (IH (<[first := group_descriptor extractor filter_arg_list]> acc)
                Hwf Hnodup) as (descriptors & Hrun & Hsize & Hother & Hgroups).
    { intros k Hk. rewrite lookup_insert_ne.
      - apply Hfresh. now right.
      - intros ->. contradiction. }
    exists descriptors. split; [exact Hrun|]. split; [|split].
    + rewrite Hsize, map_size_insert_None; [simpl; lia|].
      apply Hfresh. now left.
    + intros k Hk. unfold group_firsts in Hk. simpl in Hk.
      apply not_elem_of_cons in Hk as [Hne Hk].
      rewrite (Hother k Hk). now rewrite lookup_insert_ne.
    + intros l f Hin. apply elem_of_cons in Hin as [[= -> ->]|Hin].
      * exists first, extractor. split; [reflexivity|]. split; [exact Hlookup|].
        rewrite (Hother first Hnotin). apply lookup_insert_eq.
      * now apply Hgroups.
Qed.

Lemma groups_well_formed_spec (n : nat) values :
  groups_well_formed n values = true ->
  Forall (fun group => exists first,
            group_first group = Some first /\ 0 <= first < Z.of_nat n) values
  /\ NoDup (group_firsts values).
Proof.
  unfold groups_well_formed. intros H.
  apply andb_true_iff in H as [Hall Hnodup].
  split; [|exact (bool_decide_unpack _ (Is_true_true_2 _ Hnodup))].
  apply Forall_forall. intros group Hin.
  rewrite forallb_forall in Hall.
  specialize (Hall group (proj1 (list_elem_of_In _ _) Hin)).
  destruct (group_first group) as [first|]; [|discriminate].
  exists first. split; [reflexivity|]. lia.
Qed.

Context {Udf UserDefinedAgg DistinctKey DataViewSpec ProcessFunction : Type}.
Variable extract_user_defined_aggregate_function :
  Z -> Udf -> @DistinctInfoDict DistinctKey ->
  PyResult (UserDefinedAgg * InputExtractor * Z * Z)
  * @DistinctInfoDict DistinctKey.
Variable create_process_function :
  list UserDefinedAgg -> list InputExtractor -> list Z -> list Z ->
  gmap Z (@DistinctViewDescriptor InputExtractor) -> RowKeySelector ->
  @StateValueCoder DataViewSpec -> PyResult ProcessFunction.

(** C7.  Let the first loop of [generate_func] end with the lists [x] and
    a well-formed [distinct_info_dict].  Then the process function is
    created with a dict of descriptors that has one entry per group of
    functions sharing a distinct view: the entry is keyed by the aggregate
    index of the first function of the group, holds the input extractor of
    that function, and its filter-argument list is empty when a function
    of the group has the filter argument -1 and is the list of the group
    otherwise. *)
Theorem shared_distinct_view_descriptors grouping data_view_specs udfs x :
  extract_loop extract_user_defined_aggregate_function 0 udfs
    (mkExtracted [] [] [] [] []) = ok x ->
  groups_well_formed (length (input_extractors x))
    (dict_values (distinct_info_dict x)) = true ->
  exists descriptors,
    generate_func extract_user_defined_aggregate_function
      create_process_function grouping data_view_specs udfs
    = create_process_function
        (user_defined_aggs x) (input_extractors x) (ex_filter_args x)
        (distinct_indexes x) descriptors (mkRowKeySelector grouping)
        (if 0 <? Z.of_nat (length data_view_specs)
         then DataViewFilterCoder data_view_specs else PickleCoder)
    /\ size descriptors = length (dict_values (distinct_info_dict x))
    /\ forall agg_index_list filter_arg_list,
        (agg_index_list, filter_arg_list) ∈ dict_values (distinct_info_dict x) ->
        exists first extractor descriptor,
          head agg_index_list = Some first
          /\ input_extractors x !! Z.to_nat first = Some extractor
          /\ descriptors !! first = Some descriptor
          /\ input_extractor descriptor = extractor
          /\ ((-1) ∈ filter_arg_list -> filter_args descriptor = [])
          /\ ((-1) ∉ filter_arg_list ->
              filter_args descriptor = filter_arg_list).
Proof.
  intros Hloop Hwf.
  apply groups_well_formed_spec in Hwf as [Hwf Hnodup].
  destruct (descriptor_loop_spec (input_extractors x)
              (dict_values (distinct_info_dict x)) ∅ Hwf Hnodup)
    as (descriptors & Hrun & Hsize & _ & Hgroups).
  { intros k _. apply lookup_empty. }
  exists descriptors. split; [|split].
  - unfold generate_func. rewrite Hloop. unfold ok at 1. cbn [result_bind].
    rewrite Hrun. reflexivity.
  - rewrite Hsize, map_size_empty. reflexivity.
  - intros agg_index_list filter_arg_list Hin.
    destruct (Hgroups _ _ Hin) as (first & extractor & Hhead & Hlookup & Hd).
    exists first, extractor, (group_descriptor extractor filter_arg_list).
    repeat split; try assumption.
    + intros Hunfiltered. unfold group_descriptor. simpl.
      now rewrite bool_decide_true.
    + intros Hfiltered. unfold group_descriptor. simpl.
      now rewrite bool_decide_false.
Qed.

End distinct_views.

(** Four functions, two of them sharing the view of the first. *)
Lemma shared_distinct_view_descriptors_witness :
  exists descriptors,
    AbstractStreamGroupAggregateOperation.generate_func
      Examples.extract_function Examples.descriptors_only [0] [] Examples.udfs
    = ok descriptors
    /\ size descriptors = 2%nat
    /\ forall agg_index_list filter_arg_list,
        (agg_index_list, filter_arg_list) ∈ [([0; 2], [-1; 3]); ([1], [4])] ->
        exists first extractor descriptor,
          head agg_index_list = Some first
          /\ ["value[0]"; "value[1]"; "value[0]"; "value[2]"] !! Z.to_nat first
             = Some extractor
          /\ descriptors !! first = Some descriptor
          /\ AbstractStreamGroupAggregateOperation.input_extractor descriptor
             = extractor
          /\ ((-1) ∈ filter_arg_list ->
              AbstractStreamGroupAggregateOperation.filter_args descriptor = [])
          /\ ((-1) ∉ filter_arg_list ->
              AbstractStreamGroupAggregateOperation.filter_args descriptor
              = filter_arg_list).
Proof.
  apply (shared_distinct_view_descriptors
           Examples.extract_function Examples.descriptors_only
           [0] [] Examples.udfs Examples.extracted);
    reflexivity.
Defined.

Example shared_distinct_view_descriptors_run :
  match AbstractStreamGroupAggregateOperation.generate_func
          Examples.extract_function Examples.descriptors_only [0] []
          Examples.udfs with
  | inr descriptors => (descriptors !! 0, descriptors !! 1, descriptors !! 2)
  | inl _ => (None, None, None)
  end
  = (Some (AbstractStreamGroupAggregateOperation.mkDistinctViewDescriptor
             "value[0]" []),
     Some (AbstractStreamGroupAggregateOperation.mkDistinctViewDescriptor
             "value[1]" [4]),
     None).
Proof. vm_compute. reflexivity. Qed.

(** ** ProcessFunctionOperation.InternalTimerService *)

(** C8.  On the timer service of the non-keyed [ProcessFunctionOperation],
    registering a processing-time or an event-time timer raises the
    exception that says timers are only supported on a keyed stream, for
    every timestamp and in every state of the service, and leaves the
    service as it was: it holds a watermark and no timer. *)
Theorem register_timer_only_on_keyed_stream
    (t0 : Z) (self : ProcessFunctionOperation.InternalTimerService.t) :
  ProcessFunctionOperation.InternalTimerService.register_processing_time_timer
    t0 self
  = (raise (Exception "Register timers is only supported on a keyed stream."),
     self)
  /\ ProcessFunctionOperation.InternalTimerService.register_event_time_timer
       t0 self
     = (raise (Exception "Register timers is only supported on a keyed stream."),
        self).
Proof. split; reflexivity. Qed.

(** ** The function operations built from source text *)

Lemma append_assoc (a b c : string) :
  String.append (String.append a b) c = String.append a (String.append b c).
Proof.
  induction a as [|x a IH]; [reflexivity|].
  rewrite !append_cons. f_equal. exact IH.
Qed.

Lemma concat_cons2 (sep a b : string) (l : list string) :
  String.concat sep (a :: b :: l)
  = String.append a (String.append sep (String.concat sep (b :: l))).
Proof. reflexivity. Qed.

Lemma concat_merge_head (a b : string) (l : list string) :
  String.concat "," (String.concat "," [a; b] :: l)
  = String.concat "," (a :: b :: l).
Proof.
  destruct l as [|c l]; [reflexivity|].
  rewrite (concat_cons2 "," (String.concat "," [a; b]) c l).
  rewrite (concat_cons2 "," a b (c :: l)).
  rewrite (concat_cons2 "," b c l).
  change (String.concat "," [a; b]) with (String.append a (String.append "," b)).
  now rewrite !append_assoc.
Qed.

Section generated_functions.
Context {Udf Var UserDefinedFunc Func : Type}.
Variable extract : Udf -> PyResult (string * gmap string Var * list UserDefinedFunc).
Variable eval : Lambda Var -> PyResult Func.

Abbreviation Extracted := (string * gmap string Var * list UserDefinedFunc)%type.

Lemma last_binding_union (name : string) (d : gmap string Var) dicts :
  forall acc : gmap string Var,
  last_binding name (acc :: d :: dicts) = last_binding name ((d ∪ acc) :: dicts).
Proof.
  intros acc. simpl. destruct (last_binding name dicts) as [v|]; [reflexivity|].
  rewrite lookup_union. destruct (d !! name), (acc !! name); reflexivity.
Qed.

(** What [reduce] leaves of a non-empty list of extracted triples. *)
Lemma fold_combine (rest : list Extracted) : forall x : Extracted,
  let r := fold_left ScalarFunctionOperation.combine rest x in
  r.1.1 = String.concat "," (map extracted_source (x :: rest))
  /\ r.2 = concat (map extracted_funcs (x :: rest))
  /\ forall name,
       r.1.2 !! name = last_binding name (map extracted_variables (x :: rest)).
Proof.
  induction rest as [|y rest IH]; intros x; cbn zeta.
  - simpl. unfold extracted_funcs. rewrite app_nil_r. repeat split.
  - cbn [fold_left].
    destruct (IH (ScalarFunctionOperation.combine x y)) as (Hsrc & Hfuncs & Hvars).
    split; [|split].
    + rewrite Hsrc. cbn [map]. unfold extracted_source at 1.
      unfold ScalarFunctionOperation.combine at 1. cbn [fst].
      apply concat_merge_head.
    + rewrite Hfuncs. cbn [map concat]. unfold extracted_funcs at 1.
      unfold ScalarFunctionOperation.combine at 1. cbn [snd].
      fold (extracted_funcs x) (extracted_funcs y).
      now rewrite app_assoc.
    + intros name. rewrite Hvars. cbn [map].
      unfold extracted_variables at 1.
      unfold ScalarFunctionOperation.combine at 1. cbn [fst snd].
      symmetry. apply last_binding_union.
Qed.


(** X1.  When every description of a scalar function is extracted and
    there is at least one, [generate_func] gives [eval] the lambda whose
    source lists the extracted calls in the order of the descriptions,
    separated by commas, and whose globals bind a name to the value that
    the last description binding it gives.  It raises what [eval] raises
    for that lambda, and otherwise returns the function [eval] returns
    together with the user-defined functions of all descriptions in their
    order. *)
Theorem scalar_generate_func_joins udfs (extracted : list Extracted) :
  result_map extract udfs = ok extracted ->
  extracted <> [] ->
  exists lambda,
    lambda_source lambda
    = String.append "lambda value: ["
        (String.append
           (String.concat "," (map extracted_source extracted)) "]")
    /\ (forall name,
          lambda_globals lambda !! name
          = last_binding name (map extracted_variables extracted))
    /\ ScalarFunctionOperation.generate_func extract eval udfs
       = match eval lambda with
         | inl e => inl (Raised e)
         | inr generate_func =>
             inr (generate_func, concat (map extracted_funcs extracted))
         end.
Proof.
  intros Hmap Hne. unfold ScalarFunctionOperation.generate_func.
  rewrite Hmap. unfold ok.
  destruct extracted as [|x rest]; [contradiction|].
  cbn [reduce]. destruct (fold_combine rest x) as (Hsrc & Hfuncs & Hvars).
  destruct (fold_left ScalarFunctionOperation.combine rest x)
    as [[source variables] funcs]. cbn [fst snd] in *.
  eexists. split; [|split]; [| |rewrite <- Hfuncs; reflexivity].
  - simpl. now rewrite Hsrc.
  - exact Hvars.
Qed.


Variable wrap_pandas_result : Var.

(** X3.  The lambda that [PandasAggregateFunctionOperation.generate_func]
    gives [eval] passes the list of the extracted calls to
    [wrap_pandas_result], and that name is bound to
    [operation_utils.wrap_pandas_result] even when a description binds
    the same name; every other name is bound as in the scalar case.  The
    operation raises what [eval] raises for that lambda, and otherwise
    returns the function [eval] returns together with the user-defined
    functions of all descriptions in their order. *)
Theorem pandas_generate_func_wraps udfs (extracted : list Extracted) :
  result_map extract udfs = ok extracted ->
  extracted <> [] ->
  exists lambda,
    lambda_source lambda
    = String.append "lambda value: wrap_pandas_result(["
        (String.append
           (String.concat "," (map extracted_source extracted)) "])")
    /\ lambda_globals lambda !! "wrap_pandas_result" = Some wrap_pandas_result
    /\ (forall name,
          name <> "wrap_pandas_result" ->
          lambda_globals lambda !! name
          = last_binding name (map extracted_variables extracted))
    /\ PandasAggregateFunctionOperation.generate_func
         extract wrap_pandas_result eval udfs
       = match eval lambda with
         | inl e => inl (Raised e)
         | inr generate_func =>
             inr (generate_func, concat (map extracted_funcs extracted))
         end.
Proof.
  intros Hmap Hne. unfold PandasAggregateFunctionOperation.generate_func.
  rewrite Hmap. unfold ok.
  destruct extracted as [|x rest]; [contradiction|].
  cbn [reduce]. destruct (fold_combine rest x) as (Hsrc & Hfuncs & Hvars).
  destruct (fold_left ScalarFunctionOperation.combine rest x)
    as [[source variables] funcs]. cbn [fst snd] in *.
  eexists. split; [|split; [|split]]; [| | |rewrite <- Hfuncs; reflexivity].
  - simpl. now rewrite Hsrc.
  - simpl. apply lookup_insert_eq.
  - intros name Hname. simpl. rewrite lookup_insert_ne by congruence.
    apply Hvars.
Qed.

End generated_functions.

(** Two functions that both refer to a constant named c0. *)
Lemma scalar_generate_func_joins_witness :
  exists lambda,
    lambda_source lambda
    = "lambda value: [f(value[0], c0),g(value[1], c0)]"
    /\ (forall name,
          lambda_globals lambda !! name
          = last_binding name [{[ "c0" := 1 ]}; {[ "c0" := 2 ]}])
    /\ ScalarFunctionOperation.generate_func
         GenerateExamples.extract GenerateExamples.eval
         [GenerateExamples.udf_f; GenerateExamples.udf_g]
       = match GenerateExamples.eval lambda with
         | inl e => inl (Raised e)
         | inr generate_func => inr (generate_func, ["f"; "g"])
         end.
Proof.
  apply (scalar_generate_func_joins GenerateExamples.extract
           GenerateExamples.eval
           [GenerateExamples.udf_f; GenerateExamples.udf_g]
           [GenerateExamples.udf_f; GenerateExamples.udf_g]);
    [reflexivity|discriminate].
Defined.

(** The same two functions as pandas aggregates, with 0 standing for
    [wrap_pandas_result]. *)
Lemma pandas_generate_func_wraps_witness :
  exists lambda,
    lambda_source lambda
    = "lambda value: wrap_pandas_result([f(value[0], c0),g(value[1], c0)])"
    /\ lambda_globals lambda !! "wrap_pandas_result" = Some 0
    /\ (forall name,
          name <> "wrap_pandas_result" ->
          lambda_globals lambda !! name
          = last_binding name [{[ "c0" := 1 ]}; {[ "c0" := 2 ]}])
    /\ PandasAggregateFunctionOperation.generate_func
         GenerateExamples.extract 0 GenerateExamples.eval
         [GenerateExamples.udf_f; GenerateExamples.udf_g]
       = match GenerateExamples.eval lambda with
         | inl e => inl (Raised e)
         | inr generate_func => inr (generate_func, ["f"; "g"])
         end.
Proof.
  apply (pandas_generate_func_wraps GenerateExamples.extract
           GenerateExamples.eval 0
           [GenerateExamples.udf_f; GenerateExamples.udf_g]
           [GenerateExamples.udf_f; GenerateExamples.udf_g]);
    [reflexivity|discriminate].
Defined.

Example shared_constant_name_resolves_to_last :
  last_binding "c0" [({[ "c0" := 1 ]} : gmap string Z); {[ "c0" := 2 ]}]
  = Some 2.
Proof. reflexivity. Qed.

(** The two functions are generated, and the functions are returned in
    the order of their descriptions. *)
Example scalar_generate_func_returns :
  exists generate_func,
    ScalarFunctionOperation.generate_func
      GenerateExamples.extract GenerateExamples.eval
      [GenerateExamples.udf_f; GenerateExamples.udf_g]
    = inr (generate_func, ["f"; "g"])
    /\ lambda_source generate_func
       = "lambda value: [f(value[0], c0),g(value[1], c0)]".
Proof. eexists. split; reflexivity. Qed.

(** A call text that is not an expression: the extraction succeeds, the
    joined text is given to [eval], and the operation raises the
    [SyntaxError] of [eval]. *)
Example scalar_generate_func_syntax_error :
  result_map GenerateExamples.extract
    [GenerateExamples.udf_f; GenerateExamples.udf_open]
  = ok [GenerateExamples.udf_f; GenerateExamples.udf_open]
  /\ ScalarFunctionOperation.generate_func
       GenerateExamples.extract GenerateExamples.eval
       [GenerateExamples.udf_f; GenerateExamples.udf_open]
     = inl (Raised (SyntaxError "unexpected EOF while parsing")).
Proof. split; reflexivity. Qed.

Example pandas_generate_func_syntax_error :
  PandasAggregateFunctionOperation.generate_func
    GenerateExamples.extract 0 GenerateExamples.eval
    [GenerateExamples.udf_open]
  = inl (Raised (SyntaxError "unexpected EOF while parsing")).
Proof. reflexivity. Qed.

(** ** StreamingRuntimeContext and the [open] methods *)

Section runtime_context_facts.
Import RuntimeContextProto.

Lemma job_parameter_dict_app ps p :
  job_parameter_dict (ps ++ [p])
  = <[key p := value p]> (job_parameter_dict ps).
Proof. unfold job_parameter_dict. now rewrite fold_left_app. Qed.

Lemma job_parameter_dict_absent ps k :
  Forall (fun p => key p <> k) ps -> job_parameter_dict ps !! k = None.
Proof.
  induction ps as [|p ps IH] using rev_ind; intros Hall.
  - apply lookup_empty.
  - apply Forall_app in Hall as [Hps Hp]. apply Forall_inv in Hp.
    rewrite job_parameter_dict_app, lookup_insert_ne by exact Hp. now apply IH.
Qed.

Lemma job_parameter_dict_last before p after :
  Forall (fun q => key q <> key p) after ->
  job_parameter_dict (before ++ p :: after) !! key p = Some (value p).
Proof.
  induction after as [|q after IH] using rev_ind; intros Hall.
  - rewrite job_parameter_dict_app. apply lookup_insert_eq.
  - apply Forall_app in Hall as [Hafter Hq]. apply Forall_inv in Hq.
    replace (before ++ p :: after ++ [q]) with ((before ++ p :: after) ++ [q])
      by now rewrite <- app_assoc.
    rewrite job_parameter_dict_app, lookup_insert_ne by exact Hq. now apply IH.
Qed.

(** X4.  On the runtime context that [open] builds, [get_job_parameter]
    returns the value of the last job parameter of the serialized function
    with the given key, and the default value when no job parameter has
    the key. *)
Theorem get_job_parameter_last_wins runtime_context keyed k default_value :
  (forall before p after,
     job_parameters runtime_context = before ++ p :: after ->
     key p = k ->
     Forall (fun q => key q <> k) after ->
     StreamingRuntimeContext.get_job_parameter
       (make_runtime_context runtime_context keyed) k default_value
     = value p)
  /\ (Forall (fun q => key q <> k) (job_parameters runtime_context) ->
      StreamingRuntimeContext.get_job_parameter
        (make_runtime_context runtime_context keyed) k default_value
      = default_value).
Proof.
  unfold StreamingRuntimeContext.get_job_parameter, make_runtime_context.
  cbn [StreamingRuntimeContext._job_parameters]. split.
  - intros before p after -> <- Hafter.
    now rewrite job_parameter_dict_last.
  - intros Hnone. now rewrite job_parameter_dict_absent.
Qed.

Context {State Function S : Type}.
Variable h : Handler (KeyedStateBackend.Call State Function) S.

(** X5.  On a runtime context that a stateless datastream operation hands
    to a user-defined function, each of the five state accessors raises
    the exception that says state is only accessible on a KeyedStream,
    and no backend is called. *)
Theorem stateless_operation_has_no_state runtime_context has_open ctx
    (descriptor : StreamingRuntimeContext.StateDescriptor Function) (s : S) :
  ctx ∈ DataStreamStatelessFunctionOperation.open runtime_context has_open ->
  let refused :=
    (raise (Exception
       "This state is only accessible by functions executed on a KeyedStream."),
     s, []) in
  exec h (StreamingRuntimeContext.get_state ctx descriptor) s = refused
  /\ exec h (StreamingRuntimeContext.get_list_state ctx descriptor) s = refused
  /\ exec h (StreamingRuntimeContext.get_map_state ctx descriptor) s = refused
  /\ exec h (StreamingRuntimeContext.get_reducing_state ctx descriptor) s
     = refused
  /\ exec h (StreamingRuntimeContext.get_aggregating_state ctx descriptor) s
     = refused.
Proof.
  unfold DataStreamStatelessFunctionOperation.open.
  intros Hin. apply list_elem_of_fmap in Hin as (b & -> & _).
  repeat split.
Qed.

End runtime_context_facts.

(** The parameter given twice resolves to its second value. *)
Lemma get_job_parameter_last_wins_witness :
  StreamingRuntimeContext.get_job_parameter
    (make_runtime_context RuntimeExamples.proto false) "mode" "none"
  = "streaming".
Proof.
  apply (proj1 (get_job_parameter_last_wins
                  RuntimeExamples.proto false "mode" "none")
           [RuntimeContextProto.mkJobParameter "mode" "batch";
            RuntimeContextProto.mkJobParameter "owner" "a"]
           (RuntimeContextProto.mkJobParameter "mode" "streaming") []);
    [reflexivity|reflexivity|constructor].
Defined.

(** A function with [open] in a stateless operation asks for a value
    state. *)
Lemma stateless_operation_has_no_state_witness :
  exec RuntimeExamples.backend
    (StreamingRuntimeContext.get_state
       (make_runtime_context RuntimeExamples.proto false)
       (StreamingRuntimeContext.mkDescriptor "count" tt)) tt
  = (raise (Exception
       "This state is only accessible by functions executed on a KeyedStream."),
     tt, []).
Proof.
  apply (stateless_operation_has_no_state RuntimeExamples.backend
           RuntimeExamples.proto [true]
           (make_runtime_context RuntimeExamples.proto false)
           (StreamingRuntimeContext.mkDescriptor "count" tt) tt).
  apply list_elem_of_In. left. reflexivity.
Defined.

(** ** KeyedProcessFunctionOperation.InternalTimerService *)

Section keyed_timer_service.
Import KeyedProcessFunctionOperation.
Context {A : Type}.

Lemma timer_request_appends kind t0 (self : InternalTimerService.t A) :
  timer_request kind t0 self
  = InternalTimerService.mk
      (InternalTimerService._collector self
       ++ [TimerRequest (TimerOperandType.value kind) t0
             (InternalTimerService.get_current_key self)])
      (InternalTimerService.get_current_key self)
      (InternalTimerService._current_watermark self).
Proof. destruct kind; reflexivity. Qed.

(** X6.  Whatever the requests made to the keyed timer service, the
    collector holds, after what it held before, one entry per request in
    the order of the requests, each with the operand kind, the timestamp
    and the key that was current when the request was made; no request is
    merged with or cancelled by another, and the watermark of the service
    is untouched. *)
Theorem keyed_timer_requests_are_collected
    (script : list (Row * TimerOperandType.t * Z))
    (self : InternalTimerService.t A) :
  InternalTimerService._collector (timer_requests script self)
  = InternalTimerService._collector self
    ++ map (fun step =>
              TimerRequest (TimerOperandType.value step.1.2) step.2 step.1.1)
           script
  /\ InternalTimerService._current_watermark (timer_requests script self)
     = InternalTimerService._current_watermark self.
Proof.
  revert self. induction script as [|[[key kind] t0] script IH]; intros self.
  - simpl. now rewrite app_nil_r.
  - unfold timer_requests. cbn [fold_left]. fold (timer_requests (A := A)).
    destruct (IH (timer_request kind t0
                    (InternalTimerService.set_current_key key self)))
      as [Hbuf Hwm].
    unfold timer_requests in Hbuf, Hwm. cbn [fst snd].
    rewrite Hbuf, Hwm, timer_request_appends. cbn.
    rewrite <- app_assoc. split; reflexivity.
Qed.

End keyed_timer_service.

Example register_then_delete_keeps_both :
  KeyedProcessFunctionOperation.InternalTimerService._collector
    (timer_requests (A := unit)
       [(Examples.key_a, TimerOperandType.REGISTER_EVENT_TIMER, 9);
        (Examples.key_a, TimerOperandType.DELETE_EVENT_TIMER, 9)]
       (KeyedProcessFunctionOperation.InternalTimerService.mk
          [] Examples.row_b None))
  = [KeyedProcessFunctionOperation.TimerRequest 0 9 Examples.key_a;
     KeyedProcessFunctionOperation.TimerRequest 2 9 Examples.key_a].
Proof. reflexivity. Qed.

(** ** PandasBatchOverWindowAggregateFunctionOperation *)

Section over_window_index_lists.
Import PandasBatchOverWindowAggregateFunctionOperation.

Lemma count_bounded_cons window windows :
  count_bounded (window :: windows)
  = (if bounded_range window then 1 else 0) + count_bounded windows.
Proof.
  unfold count_bounded. simpl. destruct (bounded_range window); simpl; lia.
Qed.

Lemma count_bounded_nonneg windows : 0 <= count_bounded windows.
Proof. unfold count_bounded. lia. Qed.

Lemma count_bounded_app ws1 ws2 :
  count_bounded (ws1 ++ ws2) = count_bounded ws1 + count_bounded ws2.
Proof.
  unfold count_bounded. rewrite List.filter_app, length_app. lia.
Qed.

(** A window counts itself after the bounded range windows before it. *)
Lemma count_bounded_split windows i window :
  windows !! i = Some window ->
  count_bounded windows
  = bounded_before windows i
    + (if bounded_range window then 1 else 0)
    + count_bounded (drop (S i) windows).
Proof.
  intros Hi. unfold bounded_before.
  rewrite <- (take_drop_middle windows i window Hi) at 1.
  rewrite count_bounded_app, count_bounded_cons. lia.
Qed.

(** The loop of [__init__], from any position and any state whose index
    list is long enough. *)
Lemma index_loop_spec windows : forall i st,
  length (bounded_range_window_index st) = (i + length windows)%nat ->
  let r := index_loop i windows st in
  bounded_range_window_nums r
  = bounded_range_window_nums st + count_bounded windows
  /\ is_bounded_range_window r
     = is_bounded_range_window st ++ map bounded_range windows
  /\ length (bounded_range_window_index r)
     = length (bounded_range_window_index st)
  /\ (forall k, (k < i)%nat ->
        bounded_range_window_index r !! k = bounded_range_window_index st !! k)
  /\ (forall k window, windows !! k = Some window ->
        bounded_range_window_index r !! (i + k)%nat
        = if bounded_range window
          then Some (bounded_range_window_nums st + bounded_before windows k)
          else bounded_range_window_index st !! (i + k)%nat).
Proof.
  induction windows as [|w ws IH]; intros i st Hlen; cbn zeta.
  - simpl. rewrite app_nil_r. unfold count_bounded. simpl.
    repeat split; try lia. intros k window Hk. discriminate.
  - cbn [index_loop]. simpl in Hlen.
    destruct (bounded_range w) eqn:Hw.
    + set (st' := mkIndexing _ _ _).
      destruct (IH (S i) st') as (Hnums & Hflags & Hlength & Hbefore & Hat).
      { subst st'. cbn. rewrite length_insert. lia. }
      subst st'. cbn in Hnums, Hflags, Hlength, Hbefore, Hat.
      rewrite length_insert in Hlength.
      split; [rewrite Hnums, count_bounded_cons, Hw; lia|].
      split; [rewrite Hflags; cbn; rewrite Hw; now rewrite <- app_assoc|].
      split; [exact Hlength|]. split.
      * intros k Hk. rewrite Hbefore by lia.
        apply list_lookup_insert_ne. lia.
      * intros [|k] window Hk.
        -- injection Hk as <-. rewrite Hw, Nat.add_0_r, Hbefore by lia.
           rewrite list_lookup_insert_eq by lia.
           unfold bounded_before, count_bounded. simpl. f_equal. lia.
        -- simpl in Hk.
           replace (i + S k)%nat with (S (i + k)) by lia.
           rewrite (Hat k window Hk). destruct (bounded_range window).
           ++ unfold bounded_before. cbn [take].
              rewrite count_bounded_cons, Hw. f_equal. lia.
           ++ apply list_lookup_insert_ne. lia.
    + set (st' := mkIndexing _ _ _).
      destruct (IH (S i) st') as (Hnums & Hflags & Hlength & Hbefore & Hat).
      { subst st'. cbn. lia. }
      subst st'. cbn in Hnums, Hflags, Hlength, Hbefore, Hat.
      split; [rewrite Hnums, count_bounded_cons, Hw; lia|].
      split; [rewrite Hflags; cbn; rewrite Hw; now rewrite <- app_assoc|].
      split; [exact Hlength|]. split.
      * intros k Hk. apply Hbefore. lia.
      * intros [|k] window Hk.
        -- injection Hk as <-. rewrite Hw, Nat.add_0_r. apply Hbefore. lia.
        -- simpl in Hk.
           replace (i + S k)%nat with (S (i + k)) by lia.
           rewrite (Hat k window Hk). destruct (bounded_range window).
           ++ unfold bounded_before. cbn [take].
              rewrite count_bounded_cons, Hw. f_equal.
           ++ reflexivity.
Qed.

Lemma index_windows_flags windows :
  is_bounded_range_window (index_windows windows) = map bounded_range windows.
Proof.
  unfold index_windows.
  destruct (index_loop_spec windows 0
              (mkIndexing 0 (replicate (length windows) (-1)) []))
    as (_ & Hflags & _); [cbn; now rewrite length_replicate|].
  exact Hflags.
Qed.

Lemma index_windows_bounded windows i window :
  windows !! i = Some window -> bounded_range window = true ->
  bounded_range_window_index (index_windows windows) !! i
  = Some (bounded_before windows i)
  /\ 0 <= bounded_before windows i < count_bounded windows.
Proof.
  intros Hi Hbounded. unfold index_windows.
  destruct (index_loop_spec windows 0
              (mkIndexing 0 (replicate (length windows) (-1)) []))
    as (_ & _ & _ & _ & Hat); [cbn; now rewrite length_replicate|].
  cbn in Hat. specialize (Hat i window Hi). rewrite Hbounded in Hat.
  split; [rewrite Hat; f_equal; lia|].
  pose proof (count_bounded_split windows i window Hi) as Hsplit.
  rewrite Hbounded in Hsplit.
  pose proof (count_bounded_nonneg (drop (S i) windows)).
  pose proof (count_bounded_nonneg (take i windows)).
  unfold bounded_before in *. lia.
Qed.

(** X7.  After [__init__], [is_bounded_range_window] has one flag per
    window, true exactly for the three bounded range kinds, and
    [bounded_range_window_index] has one entry per window: -1 for a window
    that is not a bounded range window, and for a bounded range window the
    number of bounded range windows before it. *)
Theorem over_window_indexing windows :
  let r := index_windows windows in
  is_bounded_range_window r = map bounded_range windows
  /\ length (bounded_range_window_index r) = length windows
  /\ bounded_range_window_nums r = count_bounded windows
  /\ forall i window, windows !! i = Some window ->
       bounded_range_window_index r !! i
       = Some (if bounded_range window then bounded_before windows i else -1).
Proof.
  cbn zeta. unfold index_windows.
  destruct (index_loop_spec windows 0
              (mkIndexing 0 (replicate (length windows) (-1)) []))
    as (Hnums & Hflags & Hlength & _ & Hat).
  { cbn. now rewrite length_replicate. }
  cbn in Hnums, Hflags, Hlength, Hat. rewrite length_replicate in Hlength.
  repeat split; try assumption.
  intros i window Hi. rewrite (Hat i window Hi).
  destruct (bounded_range window); [f_equal; lia|].
  apply lookup_replicate_2. now apply lookup_lt_Some in Hi.
Qed.

End over_window_index_lists.

Section over_window_function.
Import PandasBatchOverWindowAggregateFunctionOperation.
Context {V R : Type}.

Lemma item_in_range {A} (l : list A) (i : Z) :
  0 <= i < Z.of_nat (length l) -> item l i = l !! Z.to_nat i.
Proof.
  intros Hi. unfold item.
  destruct (py_index_in_range l i Hi) as (x & -> & ->). reflexivity.
Qed.

(** Before the input series, [boundaries_series] holds the boundaries. *)
Lemma boundaries_item (boundaries : list (list Z))
    (input_series : list (list V)) (k : Z) :
  0 <= k < Z.of_nat (length boundaries) ->
  item (map (@Boundaries V) boundaries ++ [Inputs input_series]) k
  = @Boundaries V <$> boundaries !! Z.to_nat k.
Proof.
  intros Hk.
  rewrite item_in_range by (rewrite length_app, length_map; simpl; lia).
  rewrite lookup_app_l by (rewrite length_map; lia).
  apply list_lookup_fmap.
Qed.

(** X8.  Let [boundaries_series] hold the boundaries of the bounded range
    windows, one per such window in the order of the windows, and then
    the input series.  With the index that [__init__] gives a bounded
    range window, the function reads the boundaries of that window: never
    those of another window, and never the input series. *)
Theorem bounded_window_reads_own_boundaries windows
    (boundaries : list (list Z)) (input_series : list (list V)) i window :
  length boundaries = Z.to_nat (count_bounded windows) ->
  windows !! i = Some window ->
  bounded_range window = true ->
  exists index window_boundaries,
    bounded_range_window_index (index_windows windows) !! i = Some index
    /\ boundaries !! Z.to_nat (bounded_before windows i)
       = Some window_boundaries
    /\ item (map (@Boundaries V) boundaries ++ [Inputs input_series]) index
       = Some (Boundaries window_boundaries).
Proof.
  intros Hlen Hi Hbounded.
  destruct (index_windows_bounded windows i window Hi Hbounded)
    as [Hindex Hrange].
  assert (Hlt : (Z.to_nat (bounded_before windows i) < length boundaries)%nat)
    by lia.
  destruct (lookup_lt_is_Some_2 _ _ Hlt) as [window_boundaries Hb].
  exists (bounded_before windows i), window_boundaries.
  split; [exact Hindex|]. split; [exact Hb|].
  rewrite boundaries_item by lia. now rewrite Hb.
Qed.

Lemma for_each_row_length input_cnt slices
    (func : list (list V) -> option R) result :
  for_each_row input_cnt slices func = Some result ->
  length result = input_cnt.
Proof.
  unfold for_each_row. intros H. apply length_mapM in H.
  now rewrite length_seq in H.
Qed.

Lemma function_result_length (self : @Self V R) boundaries_series
    input_series input_cnt i result :
  function_result self boundaries_series input_series input_cnt i = Some result ->
  length result = input_cnt.
Proof.
  unfold function_result. intros H.
  destruct (window_indexes self !! i) as [window_index|]; [|discriminate].
  cbn [mbind option_bind] in H.
  destruct (item (windows self) window_index) as [window|]; [|discriminate].
  cbn [mbind option_bind] in H.
  destruct (mapper self !! i) as [func|]; [|discriminate].
  cbn [mbind option_bind] in H.
  destruct (item (is_bounded_range_window (indexing self)) window_index)
    as [[|]|]; [| |discriminate]; cbn [mbind option_bind] in H.
  - destruct (item (bounded_range_window_index (indexing self)) window_index)
      as [index|]; [|discriminate].
    cbn [mbind option_bind] in H.
    destruct (item boundaries_series index) as [[window_boundaries|cols]|];
      [| |discriminate]; cbn [mbind option_bind] in H.
    + destruct (window_type window); eapply for_each_row_length, H.
    + destruct input_cnt; [|discriminate]. now injection H as <-.
  - destruct (window_type window);
      try (eapply for_each_row_length, H);
      (destruct (func _) as [func_result|]; [|discriminate];
       cbn [mbind option_bind] in H; injection H as <-;
       apply length_replicate).
Qed.

(** X9.  When [wrapped_over_window_function] returns, the last element of
    [boundaries_series] is a non-empty list of input series, and the
    result has one series per aggregate function, each with as many
    entries as the first input series has rows. *)
Theorem over_window_result_shape (self : @Self V R) boundaries_series results :
  wrapped_over_window_function self boundaries_series = Some results ->
  exists input_series first_series,
    item boundaries_series (-1) = Some (Inputs input_series)
    /\ input_series !! 0%nat = Some first_series
    /\ length results = length (window_indexes self)
    /\ Forall (fun result => length result = length first_series) results.
Proof.
  unfold wrapped_over_window_function. intros H.
  destruct (item boundaries_series (-1)) as [[b|input_series]|] eqn:Hlast;
    [discriminate| |discriminate].
  cbn [mbind option_bind] in H.
  destruct (input_series !! 0%nat) as [first_series|] eqn:Hfirst;
    [|discriminate].
  cbn [mbind option_bind] in H.
  exists input_series, first_series.
  split; [reflexivity|]. split; [exact Hfirst|]. split.
  - apply length_mapM in H. rewrite length_seq in H. symmetry. exact H.
  - apply mapM_Some in H. apply Forall_forall. intros result Hin.
    apply list_elem_of_lookup in Hin as [k Hk].
    destruct (Forall2_lookup_r _ _ _ _ _ H Hk) as (i & _ & Hi).
    eapply function_result_length, Hi.
Qed.

End over_window_function.

Section over_window_slices.
Import PandasBatchOverWindowAggregateFunctionOperation.
Context {V : Type}.

(** The rows of a slice whose bounds are not negative. *)
Lemma iloc_slice_lookup (s : list V) (a b : Z) (k : nat) :
  0 <= a -> 0 <= b ->
  iloc_slice s (Some a) (Some b) !! k
  = if decide (a + Z.of_nat k < Z.min b (Z.of_nat (length s)))
    then s !! (Z.to_nat a + k)%nat
    else None.
Proof.
  intros Ha Hb. unfold iloc_slice.
  destruct (Z.ltb_spec a 0) as [?|_]; [lia|].
  destruct (Z.ltb_spec b 0) as [?|_]; [lia|].
  destruct (decide _) as [Hin|Hout].
  - rewrite lookup_take_lt by lia. rewrite lookup_drop. f_equal. lia.
  - apply lookup_take_ge. lia.
Qed.

(** X10.  For a row sliding window whose end is not before the first row
    (0 <= j + upper_boundary + 1), the slice of an input series given to
    the aggregate function for row [j] holds the rows of the series from
    position max(j + lower_boundary, 0) up to, and without, position
    min(j + upper_boundary + 1, input_cnt), in order. *)
Theorem row_sliding_rows window input_cnt (input_series : list (list V))
    (j : nat) :
  0 <= Z.of_nat j + upper_boundary window + 1 ->
  let start := Z.max (Z.of_nat j + lower_boundary window) 0 in
  let end_ := Z.min (Z.of_nat j + upper_boundary window + 1)
                    (Z.of_nat input_cnt) in
  Forall2
    (fun s slice =>
       forall k : nat,
         slice !! k
         = if decide (start + Z.of_nat k < Z.min end_ (Z.of_nat (length s)))
           then s !! (Z.to_nat start + k)%nat
           else None)
    input_series
    (row_sliding_slices window input_cnt input_series j).
Proof.
  intros Hend start end_. unfold row_sliding_slices.
  apply Forall2_fmap_r, Forall_Forall2_diag, Forall_forall.
  intros s _ k. fold start end_. apply iloc_slice_lookup; lia.
Qed.

(** The slices of a row window unbounded preceding, as leading rows. *)
Lemma row_unbounded_preceding_slices_take window input_cnt
    (input_series : list (list V)) (j : nat) :
  row_unbounded_preceding_slices window input_cnt input_series j
  = map (fun s =>
           take (kept_rows (Z.min (Z.of_nat j + upper_boundary window + 1)
                                  (Z.of_nat input_cnt))
                           (length s)) s)
        input_series.
Proof.
  unfold row_unbounded_preceding_slices, kept_rows. cbn zeta.
  set (end_ := Z.min _ _).
  apply map_ext; intros s; unfold iloc_slice; simpl;
    change (drop (Z.to_nat 0) s) with s.
  destruct (decide (0 <= end_)) as [Hend|Hend].
  - destruct (Z.ltb_spec end_ 0) as [?|_]; [lia|]. rewrite Z.sub_0_r.
    destruct (Z.le_gt_cases end_ (Z.of_nat (length s))).
    + now rewrite Z.min_l by lia.
    + rewrite Z.min_r by lia. rewrite Nat2Z.id.
      rewrite !take_ge by lia. reflexivity.
  - destruct (Z.ltb_spec end_ 0) as [_|?]; [|lia]. rewrite Z.sub_0_r.
    f_equal. lia.
Qed.

End over_window_slices.

(** Two aggregate functions over three rows. *)
Lemma over_window_result_shape_witness :
  exists input_series first_series,
    item OverWindowExamples.boundaries_series (-1)
    = Some (PandasBatchOverWindowAggregateFunctionOperation.Inputs input_series)
    /\ input_series !! 0%nat = Some first_series
    /\ length [[30; 60; 50]; [10; 30; 60]]
       = length (PandasBatchOverWindowAggregateFunctionOperation.window_indexes
                   OverWindowExamples.self)
    /\ Forall (fun result : list Z => length result = length first_series)
              [[30; 60; 50]; [10; 30; 60]].
Proof.
  apply (over_window_result_shape OverWindowExamples.self
           OverWindowExamples.boundaries_series [[30; 60; 50]; [10; 30; 60]]).
  reflexivity.
Defined.

(** The second of the two windows is the only bounded range window. *)
Lemma bounded_window_reads_own_boundaries_witness :
  exists index window_boundaries,
    PandasBatchOverWindowAggregateFunctionOperation.bounded_range_window_index
      (PandasBatchOverWindowAggregateFunctionOperation.index_windows
         OverWindowExamples.windows) !! 1%nat = Some index
    /\ [[1; 2; 3]] !! Z.to_nat (bounded_before OverWindowExamples.windows 1)
       = Some window_boundaries
    /\ item (map (@PandasBatchOverWindowAggregateFunctionOperation.Boundaries Z)
               [[1; 2; 3]]
             ++ [PandasBatchOverWindowAggregateFunctionOperation.Inputs
                   [[10; 20; 30]]]) index
       = Some (PandasBatchOverWindowAggregateFunctionOperation.Boundaries
                 window_boundaries).
Proof.
  apply (bounded_window_reads_own_boundaries OverWindowExamples.windows
           [[1; 2; 3]] [[10; 20; 30]] 1
           (PandasBatchOverWindowAggregateFunctionOperation.mkOverWindow
              PandasBatchOverWindowAggregateFunctionOperation.RANGE_UNBOUNDED_PRECEDING
              0 0));
    reflexivity.
Defined.

(** Row 2 of three rows, ROWS BETWEEN 1 PRECEDING AND 1 FOLLOWING. *)
Lemma row_sliding_rows_witness :
  Forall2
    (fun (s slice : list Z) =>
       forall k : nat,
         slice !! k
         = if decide (Z.max (2 + -1) 0 + Z.of_nat k
                      < Z.min (Z.min (2 + 1 + 1) 3) (Z.of_nat (length s)))
           then s !! (Z.to_nat (Z.max (2 + -1) 0) + k)%nat
           else None)
    [[10; 20; 30]]
    (PandasBatchOverWindowAggregateFunctionOperation.row_sliding_slices
       (PandasBatchOverWindowAggregateFunctionOperation.mkOverWindow
          PandasBatchOverWindowAggregateFunctionOperation.ROW_SLIDING (-1) 1)
       3 [[10; 20; 30]] 2).
Proof.
  apply (row_sliding_rows
           (PandasBatchOverWindowAggregateFunctionOperation.mkOverWindow
              PandasBatchOverWindowAggregateFunctionOperation.ROW_SLIDING (-1) 1)
           3 [[10; 20; 30]] 2).
  vm_compute. discriminate.
Defined.

Example row_sliding_last_row :
  PandasBatchOverWindowAggregateFunctionOperation.row_sliding_slices
    (PandasBatchOverWindowAggregateFunctionOperation.mkOverWindow
       PandasBatchOverWindowAggregateFunctionOperation.ROW_SLIDING (-1) 1)
    3 [[10; 20; 30]] 2
  = [[20; 30]].
Proof. reflexivity. Qed.

Section over_window_row_preceding.
Import PandasBatchOverWindowAggregateFunctionOperation.
Context {V R : Type}.

Lemma item_fmap {A B} (f : A -> B) (l : list A) (i : Z) :
  item (map f l) i = f <$> item l i.
Proof.
  unfold item, py_index. rewrite List.length_map.
  destruct ((0 <=? _) && (_ <? _)); [|reflexivity].
  change (map f l) with (f <$> l). rewrite list_lookup_fmap.
  destruct (l !! _); reflexivity.
Qed.

(** X11.  Let the operation be indexed as [__init__] leaves it, and let
    its [i]-th aggregate function belong to a row window unbounded
    preceding.  When [wrapped_over_window_function] returns, its [i]-th
    result series holds, for every row [j] of the input in order, what
    the aggregate function returns for the slices [s.iloc[:end]] of the
    input series, where end = min(j + upper_boundary + 1, input_cnt) and
    input_cnt is the number of rows of the first input series: the first
    end rows of the series when end is not negative (all of them when the
    series is shorter), and when end is negative all rows of the series
    but the last -end (none when the series has no more rows than
    that). *)
Theorem row_unbounded_preceding_rows (self : @Self V R) boundaries_series
    input_series first_series results (i : nat) window_index window func :
  indexing self = index_windows (windows self) ->
  wrapped_over_window_function self boundaries_series = Some results ->
  item boundaries_series (-1) = Some (Inputs input_series) ->
  input_series !! 0%nat = Some first_series ->
  window_indexes self !! i = Some window_index ->
  item (windows self) window_index = Some window ->
  window_type window = ROW_UNBOUNDED_PRECEDING ->
  mapper self !! i = Some func ->
  exists result,
    results !! i = Some result
    /\ mapM (fun j : nat =>
               func (map (fun s =>
                            take (kept_rows
                                    (Z.min (Z.of_nat j + upper_boundary window + 1)
                                           (Z.of_nat (length first_series)))
                                    (length s)) s)
                         input_series))
            (seq 0 (length first_series))
       = Some result.
Proof.
  intros Hindexing Hreturns Hlast Hfirst Hi Hwindow Htype Hfunc.
  unfold wrapped_over_window_function in Hreturns.
  rewrite Hlast in Hreturns. cbn [mbind option_bind] in Hreturns.
  rewrite Hfirst in Hreturns. cbn [mbind option_bind] in Hreturns.
  apply mapM_Some in Hreturns.
  assert (Hseq : seq 0 (length (window_indexes self)) !! i = Some i).
  { apply lookup_seq. split; [reflexivity|]. eapply lookup_lt_Some, Hi. }
  destruct (Forall2_lookup_l _ _ _ _ _ Hreturns Hseq) as (result & Hresult & Hrun).
  exists result. split; [exact Hresult|].
  unfold function_result in Hrun.
  rewrite Hi in Hrun. cbn [mbind option_bind] in Hrun.
  rewrite Hwindow in Hrun. cbn [mbind option_bind] in Hrun.
  rewrite Hfunc in Hrun. cbn [mbind option_bind] in Hrun.
  rewrite Hindexing, index_windows_flags, item_fmap, Hwindow in Hrun.
  cbn [fmap option_fmap option_map mbind option_bind] in Hrun.
  unfold bounded_range in Hrun. rewrite Htype in Hrun.
  unfold for_each_row in Hrun. cbn [mbind option_bind] in Hrun.
  rewrite <- Hrun. apply mapM_ext. intros j.
  now rewrite row_unbounded_preceding_slices_take.
Qed.

End over_window_row_preceding.

(** ROWS BETWEEN UNBOUNDED PRECEDING AND 2 PRECEDING over five rows: the
    sums of the slices, row by row. *)
Lemma row_unbounded_preceding_rows_witness :
  exists result,
    [[10; 0; 1; 3; 6]] !! 0%nat = Some result
    /\ mapM (fun j : nat =>
               OverWindowExamples.sum_first
                 (map (fun s =>
                         take (kept_rows
                                 (Z.min (Z.of_nat j + -2 + 1)
                                        (Z.of_nat (length [1; 2; 3; 4; 5])))
                                 (length s)) s)
                      [[1; 2; 3; 4; 5]]))
            (seq 0 (length [1; 2; 3; 4; 5]))
       = Some result.
Proof.
  apply (row_unbounded_preceding_rows OverWindowExamples.preceding_self
           OverWindowExamples.preceding_series [[1; 2; 3; 4; 5]] [1; 2; 3; 4; 5]
           [[10; 0; 1; 3; 6]] 0 0
           (PandasBatchOverWindowAggregateFunctionOperation.mkOverWindow
              PandasBatchOverWindowAggregateFunctionOperation.ROW_UNBOUNDED_PRECEDING
              0 (-2))
           OverWindowExamples.sum_first);
    reflexivity.
Defined.

(** ROWS BETWEEN UNBOUNDED PRECEDING AND 2 PRECEDING, first of five rows:
    no row is in the window, and the slice holds four rows. *)
Example row_unbounded_preceding_negative_end :
  PandasBatchOverWindowAggregateFunctionOperation.row_unbounded_preceding_slices
    (PandasBatchOverWindowAggregateFunctionOperation.mkOverWindow
       PandasBatchOverWindowAggregateFunctionOperation.ROW_UNBOUNDED_PRECEDING
       0 (-2))
    5 [[1; 2; 3; 4; 5]] 0
  = [[1; 2; 3; 4]].
Proof. reflexivity. Qed.

(** ROWS BETWEEN UNBOUNDED PRECEDING AND 10 PRECEDING, first of five rows:
    the bound reaches before the series, and the slice is empty. *)
Example row_unbounded_preceding_empty_slice :
  PandasBatchOverWindowAggregateFunctionOperation.row_unbounded_preceding_slices
    (PandasBatchOverWindowAggregateFunctionOperation.mkOverWindow
       PandasBatchOverWindowAggregateFunctionOperation.ROW_UNBOUNDED_PRECEDING
       0 (-10))
    5 [[1; 2; 3; 4; 5]] 0
  = [[]].
Proof. reflexivity. Qed.

Example row_unbounded_preceding_results :
  PandasBatchOverWindowAggregateFunctionOperation.wrapped_over_window_function
    OverWindowExamples.preceding_self OverWindowExamples.preceding_series
  = Some [[10; 0; 1; 3; 6]].
Proof. reflexivity. Qed.

Section over_window_composition.
Import PandasBatchOverWindowAggregateFunctionOperation.
Context {V R Udf Var UserDefinedFunc : Type}.
Variable extract :
  Udf -> PyResult (string * gmap string Var * list UserDefinedFunc * Z).
Variable eval : Lambda Var -> list (list V) -> option R.

(** The user-defined functions do not raise. *)
Hypothesis eval_total : forall lambda series_slices,
  is_Some (eval lambda series_slices).




Variables (windows : list OverWindow) (boundaries : list (list Z)).
Variables (first_series : list V) (other_series : list (list V)).

Abbreviation input_series := (first_series :: other_series).
Abbreviation boundaries_series :=
  (map (@Boundaries V) boundaries ++ [Inputs input_series]).

Hypothesis one_boundaries_per_bounded_window :
  length boundaries = Z.to_nat (count_bounded windows).
Hypothesis two_bounds_per_row :
  Forall (fun window_boundaries =>
            (2 * length first_series <= length window_boundaries)%nat)
         boundaries.



End over_window_composition.


Example over_window_function_run :
  PandasBatchOverWindowAggregateFunctionOperation.wrapped_over_window_function
    OverWindowExamples.self OverWindowExamples.boundaries_series
  = Some [[30; 60; 50]; [10; 30; 60]].
Proof. reflexivity. Qed.

(** ** The constructor of StreamGroupWindowAggregateOperation *)

Section window_operation_init_facts.
Context {Udf UserDefinedAgg InputExtractor DistinctKey DataViewSpec : Type}.
Variable extract_data_view_specs : list Udf -> PyResult (list DataViewSpec).
Variable extract_user_defined_aggregate_function :
  Z -> Udf -> @AbstractStreamGroupAggregateOperation.DistinctInfoDict DistinctKey ->
  PyResult (UserDefinedAgg * InputExtractor * Z * Z)
  * @AbstractStreamGroupAggregateOperation.DistinctInfoDict DistinctKey.

Abbreviation construct :=
  (StreamGroupWindowAggregateOperation__init__
     extract_data_view_specs extract_user_defined_aggregate_function).

Lemma known_or_unrecognized props :
  forallb known_property props = true
  \/ exists n, first_unrecognized props = Some n.
Proof.
  induction props as [|p props IH]; [now left|].
  destruct p; simpl; eauto.
Qed.

Lemma construct_unrecognized (serialized_fn : SerializedFn Udf) n :
  first_unrecognized (GroupWindow.namedProperties (group_window serialized_fn))
  = Some n ->
  StreamGroupWindowAggregateOperation._create_named_property_function
    (GroupWindow.namedProperties (group_window serialized_fn))
  = raise (Exception
             (String.append "Unexpected property "
                (StreamGroupWindowAggregateOperation.str_of_int n))).
Proof.
  intros Hn.
  unfold StreamGroupWindowAggregateOperation._create_named_property_function.
  now rewrite (named_property_loop_unrecognized _ [] n Hn).
Qed.

(** X13.  A named property of an unknown kind makes the constructor of the
    windowed operation fail with [Unexpected property] and the number of
    the first such property, whatever the window type and the udfs are:
    the named properties are read before the data view specs and the
    aggregate functions are extracted and before the window assigner is
    chosen. *)
Theorem unknown_property_fails_first serialized_fn keyed_state_backend n :
  first_unrecognized (GroupWindow.namedProperties (group_window serialized_fn))
  = Some n ->
  construct serialized_fn keyed_state_backend
  = raise (Exception
             (String.append "Unexpected property "
                (StreamGroupWindowAggregateOperation.str_of_int n))).
Proof.
  intros Hn. unfold StreamGroupWindowAggregateOperation__init__.
  rewrite (construct_unrecognized _ n Hn).
  reflexivity.
Qed.

(** X14.  The constructor of the windowed operation returns only for a
    tumbling group window all of whose named properties are of the four
    known kinds: for a sliding or a session window it fails whatever the
    helpers return. *)
Theorem window_operation_only_tumbling serialized_fn keyed_state_backend f :
  construct serialized_fn keyed_state_backend = ok f ->
  GroupWindow.window_type (group_window serialized_fn)
  = GroupWindow.TUMBLING_GROUP_WINDOW
  /\ forallb known_property
       (GroupWindow.namedProperties (group_window serialized_fn)) = true.
Proof.
  intros Hok. split.
  - unfold StreamGroupWindowAggregateOperation__init__ in Hok.
    destruct (StreamGroupWindowAggregateOperation._create_named_property_function _)
      as [e|extractor]; [discriminate|]. simpl in Hok.
    destruct (extract_data_view_specs _) as [e|specs]; [discriminate|].
    simpl in Hok.
    unfold AbstractStreamGroupAggregateOperation.generate_func in Hok.
    destruct (AbstractStreamGroupAggregateOperation.extract_loop _ _ _ _)
      as [e|x]; [discriminate|]. simpl in Hok.
    destruct (AbstractStreamGroupAggregateOperation.descriptor_loop _ _ _)
      as [e|descriptors]; [discriminate|]. simpl in Hok.
    apply setup_ok_tumbling in Hok. exact Hok.
  - destruct (known_or_unrecognized
                (GroupWindow.namedProperties (group_window serialized_fn)))
      as [Hknown|[n Hn]]; [exact Hknown|].
    unfold StreamGroupWindowAggregateOperation__init__ in Hok.
    rewrite (construct_unrecognized _ n Hn) in Hok.
    discriminate.
Qed.

End window_operation_init_facts.

(** The session window with the unknown property: the property is
    reported, not the window type. *)
Lemma unknown_property_fails_first_witness :
  StreamGroupWindowAggregateOperation__init__
    SetupExamples.no_data_views Examples.extract_function
    (SetupExamples.serialized_fn SetupExamples.session_with_unknown_property)
    SetupExamples.backend
  = raise (Exception "Unexpected property 7").
Proof.
  apply (unknown_property_fails_first
           SetupExamples.no_data_views Examples.extract_function
           (SetupExamples.serialized_fn
              SetupExamples.session_with_unknown_property)
           SetupExamples.backend 7).
  reflexivity.
Defined.

(** The tumbling count window is accepted. *)
Lemma window_operation_only_tumbling_witness :
  GroupWindow.window_type
    (group_window (SetupExamples.serialized_fn SetupExamples.count_window))
  = GroupWindow.TUMBLING_GROUP_WINDOW
  /\ forallb known_property
       (GroupWindow.namedProperties
          (group_window (SetupExamples.serialized_fn SetupExamples.count_window)))
     = true.
Proof.
  destruct (StreamGroupWindowAggregateOperation__init__
              SetupExamples.no_data_views Examples.extract_function
              (SetupExamples.serialized_fn SetupExamples.count_window)
              SetupExamples.backend) as [e|f] eqn:Hconstruct.
  - vm_compute in Hconstruct. discriminate Hconstruct.
  - exact (window_operation_only_tumbling
             SetupExamples.no_data_views Examples.extract_function
             (SetupExamples.serialized_fn SetupExamples.count_window)
             SetupExamples.backend f Hconstruct).
Defined.

(** ** create_process_function: the assigner and the trigger *)

Section window_assigner_and_trigger.
Import StreamGroupWindowAggregateOperation.
Context {UserDefinedAgg InputExtractor DistinctViewDescriptors KeySelector
         StateValueCoder DataViewSpec : Type}.

(** X15.  The process function that [create_process_function] builds has
    an assigner and a trigger of the same time domain, over the
    configured window size: an event-time tumbling assigner with the
    event-time trigger, a processing-time tumbling assigner with the
    processing-time trigger, or the count assigner with the count trigger
    of the same count. *)
Theorem assigner_and_trigger_agree (self : @Self DataViewSpec)
    (user_defined_aggs : list UserDefinedAgg)
    (input_extractors : list InputExtractor)
    (filter_args distinct_indexes : list Z)
    (distinct_view_descriptors : DistinctViewDescriptors)
    (key_selector : KeySelector) (state_value_coder : StateValueCoder) f :
  create_process_function self user_defined_aggs input_extractors
    filter_args distinct_indexes distinct_view_descriptors key_selector
    state_value_coder = ok f ->
  let size := GroupWindow.window_size (_window self) in
  (GroupWindow.is_time_window (_window self) = true
   /\ GroupWindow.is_row_time (_window self) = true
   /\ gw_window_assigner f = TumblingWindowAssigner size 0 true
   /\ gw_trigger f = EventTimeTrigger)
  \/ (GroupWindow.is_time_window (_window self) = true
      /\ GroupWindow.is_row_time (_window self) = false
      /\ gw_window_assigner f = TumblingWindowAssigner size 0 false
      /\ gw_trigger f = ProcessingTimeTrigger)
  \/ (GroupWindow.is_time_window (_window self) = false
      /\ gw_window_assigner f = CountTumblingWindowAssigner size
      /\ gw_trigger f = CountTrigger size).
Proof.
  unfold create_process_function, create_window_assigner, create_trigger.
  destruct (GroupWindow.window_type (_window self)); try discriminate.
  destruct (GroupWindow.is_time_window (_window self));
    [destruct (GroupWindow.is_row_time (_window self))|];
    simpl; intros [= <-]; simpl; auto 10.
Qed.

End window_assigner_and_trigger.

(** The tumbling count window of 5 elements. *)
Lemma assigner_and_trigger_agree_witness :
  exists f,
    Examples.setup SetupExamples.count_window = ok f
    /\ StreamGroupWindowAggregateOperation.gw_window_assigner f
       = StreamGroupWindowAggregateOperation.CountTumblingWindowAssigner 5
    /\ StreamGroupWindowAggregateOperation.gw_trigger f
       = StreamGroupWindowAggregateOperation.CountTrigger 5.
Proof.
  destruct (Examples.setup SetupExamples.count_window) as [e|f] eqn:Hsetup;
    [discriminate Hsetup|].
  exists f. split; [reflexivity|].
  destruct (assigner_and_trigger_agree
              (Examples.operation SetupExamples.count_window)
              ([] : list unit) ([] : list unit) [] [] tt tt tt f Hsetup)
    as [(Htime & _)|[(Htime & _)|(_ & Hassigner & Htrigger)]];
    [discriminate Htime|discriminate Htime|].
  split; [exact Hassigner|exact Htrigger].
Defined.

(** ** A batch in which a call fails *)

Section group_aggregate_failure.
Import GroupAggFunction AbstractStreamGroupAggregateOperation.
Context {State : Type}.
Variable h : Handler Call State.

Lemma exec_for_each_input_fails input_datas : forall s e s1 tr,
  exec h (for_each_input input_datas) s = (inl e, s1, tr) ->
  exists n, (n < length input_datas)%nat
            /\ tr = map expected_call (take (S n) input_datas).
Proof.
  induction input_datas as [|d l IH]; intros s e s1 tr; simpl.
  - discriminate.
  - rewrite exec_bind.
    destruct (exec_dispatch h d s) as (r & s' & ->).
    destruct r as [e'|[]].
    + intros [= -> -> <-]. exists 0%nat. split; [lia|]. now rewrite take_0.
    + destruct (exec h (for_each_input l) s') as [[r' s''] tr'] eqn:Hl.
      intros [= -> -> <-].
      destruct (IH _ _ _ _ Hl) as (n & Hn & ->).
      exists (S n). split; [lia|]. reflexivity.
Qed.

(** X16.  When processing a batch raises, either the call for some input
    raised, and then the inputs after it were not dispatched and
    [finish_bundle] was not called, or the calls for all inputs returned
    and [finish_bundle] itself raised. *)
Theorem batch_failure_stops_dispatch input_datas s e :
  outcome (exec h (process_element_or_timer input_datas) s) = inl e ->
  let tr := calls (exec h (process_element_or_timer input_datas) s) in
  (exists n, (n < length input_datas)%nat
             /\ tr = map expected_call (take (S n) input_datas)
             /\ List.filter is_finish_bundle tr = [])
  \/ tr = map expected_call input_datas ++ [event finish_bundle].
Proof.
  unfold process_element_or_timer, outcome, calls. rewrite exec_bind.
  destruct (exec h (for_each_input input_datas) s) as [[[e'|[]] s1] tr] eqn:Hloop.
  - intros _. left.
    destruct (exec_for_each_input_fails _ _ _ _ _ Hloop) as (n & Hn & ->).
    exists n. repeat split; [exact Hn|]. apply expected_call_not_finish.
  - rewrite exec_call. simpl. intros _. right.
    now rewrite (exec_for_each_input h _ _ _ _ _ Hloop).
Qed.

End group_aggregate_failure.

(** The second element of the batch fails: the timer before it was
    dispatched, nothing after it, and the bundle was not finished. *)
Lemma batch_failure_stops_dispatch_witness :
  (exists n, (n < length Examples.batch)%nat
     /\ calls (exec SetupExamples.failing_group_function
                 (AbstractStreamGroupAggregateOperation.process_element_or_timer
                    Examples.batch) 0%nat)
        = map expected_call (take (S n) Examples.batch)
     /\ List.filter is_finish_bundle
          (calls (exec SetupExamples.failing_group_function
                    (AbstractStreamGroupAggregateOperation.process_element_or_timer
                       Examples.batch) 0%nat)) = [])
  \/ calls (exec SetupExamples.failing_group_function
              (AbstractStreamGroupAggregateOperation.process_element_or_timer
                 Examples.batch) 0%nat)
     = map expected_call Examples.batch ++ [event GroupAggFunction.finish_bundle].
Proof.
  apply (batch_failure_stops_dispatch SetupExamples.failing_group_function
           Examples.batch 0%nat (Exception "accumulate failed")).
  reflexivity.
Defined.

(** ** A timer request that comes back as a firing *)

Section timer_round_trip.
Import GroupWindowAggFunction StreamGroupWindowAggregateOperation.
Context {S : Type}.
Variable h : Handler Call S.
Variable has_cython : bool.
Variable coder : NamespaceCoder.

(** X17.  Let a timer input carry what an output timer entry carried for
    a timer: its timestamp, a key row with the values of its key and the
    encoding of its namespace.  If the coder decodes the encoding of that
    namespace to the namespace, the handler is called with the very timer
    that was requested, the event-time handler for the kind 0 and the
    processing-time handler otherwise. *)
Theorem timer_request_round_trip (timer : InternalTimer) input_data s :
  decode_nested coder (encode_nested coder (get_namespace timer))
  = get_namespace timer ->
  element_type input_data <> NORMAL_RECORD ->
  timestamp input_data = get_timestamp timer ->
  _values (timer_key (timer_data input_data)) = get_key timer ->
  encoded_namespace (timer_data input_data)
  = encode_nested coder (get_namespace timer) ->
  calls (exec h (process_element_or_timer has_cython coder input_data) s)
  = [event (if decide (timer_type (timer_data input_data) = REGISTER_EVENT_TIMER)
            then on_event_time timer
            else on_processing_time timer)].
Proof.
  intros Hcoder Htag Hts Hkey Hns.
  rewrite (exec_trigger_timer h has_cython coder input_data s Htag).
  unfold calls, timer_handler, fired_timer. cbn [snd].
  rewrite Hts, Hkey, Hns, Hcoder.
  destruct timer as [ts key namespace]. simpl.
  destruct (decide _); reflexivity.
Qed.

End timer_round_trip.

(** The firing of the event-time timer for key A on the window [0, 10). *)
Lemma timer_request_round_trip_witness :
  calls (exec Examples.window_function
           (StreamGroupWindowAggregateOperation.process_element_or_timer
              false Examples.window_coder Examples.event_timer_input) [])
  = [event (GroupWindowAggFunction.on_event_time Examples.fired)].
Proof.
  apply (timer_request_round_trip Examples.window_function false
           Examples.window_coder Examples.fired Examples.event_timer_input []);
    try reflexivity.
  vm_compute. lia.
Defined.

(** ** Operation.finish: the gauges *)

Section metric_groups.
Import Operation.

(** Induction on a metric group, with the sub-groups as a list. *)
Section MetricGroup_induction.
Variable P : MetricGroup -> Prop.
Hypothesis step : forall _flink_gauge _beam_gauge _sub_groups,
  Forall P _sub_groups ->
  P (GenericMetricGroup _flink_gauge _beam_gauge _sub_groups).

Fixpoint MetricGroup_groups_ind (group : MetricGroup) : P group :=
  match group with
  | GenericMetricGroup _flink_gauge _beam_gauge _sub_groups =>
      step _flink_gauge _beam_gauge _sub_groups
        ((fix all (l : list MetricGroup) : Forall P l :=
            match l with
            | [] => Forall_nil_2 P
            | sub_group :: rest =>
                Forall_cons_2 P sub_group rest
                  (MetricGroup_groups_ind sub_group) (all rest)
            end) _sub_groups)
  end.
End MetricGroup_induction.

Lemma every_group_unfold P _flink_gauge _beam_gauge _sub_groups :
  every_group P (GenericMetricGroup _flink_gauge _beam_gauge _sub_groups)
  <-> P _flink_gauge _beam_gauge /\ Forall (every_group P) _sub_groups.
Proof.
  simpl. apply and_iff_compat_l.
  induction _sub_groups as [|sub_group rest IH].
  - split; [constructor|trivial].
  - rewrite Forall_cons. now rewrite IH.
Qed.

Variable set_returns : string -> Z -> bool.

(** The loop over the flink gauges returns exactly when each has a beam
    gauge, its call returns and the beam gauge takes the value. *)
Lemma set_gauges_is_Some _flink_gauge : forall _beam_gauge,
  is_Some (set_gauges set_returns _flink_gauge _beam_gauge)
  <-> gauges_settable set_returns _flink_gauge _beam_gauge.
Proof.
  unfold gauges_settable.
  induction _flink_gauge as [|[name flink_gauge] rest IH];
    intros _beam_gauge; simpl.
  - split; [intros _ name g Hin; inversion Hin|eauto].
  - destruct (_beam_gauge !! name) as [beam_gauge|] eqn:Hname.
    + destruct flink_gauge as [value|].
      * destruct (set_returns name value) eqn:Hset.
        -- rewrite IH. split.
           ++ intros Hrest n g Hin.
              apply elem_of_cons in Hin as [[= -> ->]|Hin]; [split; eauto|].
              destruct (Hrest n g Hin) as [Hb Hv]. split; [|exact Hv].
              destruct (decide (name = n)) as [->|Hne]; [eauto|].
              now rewrite lookup_insert_ne in Hb.
           ++ intros Hall n g Hin.
              destruct (Hall n g) as [Hb Hv]; [now right|]. split; [|exact Hv].
              destruct (decide (name = n)) as [->|Hne].
              ** rewrite lookup_insert_eq. eauto.
              ** now rewrite lookup_insert_ne by exact Hne.
        -- split; [intros [? ?]; discriminate|]. intros Hall.
           destruct (Hall name (Some value) (list_elem_of_here _ _))
             as [_ (v & [= <-] & Hv)].
           congruence.
      * split; [intros [? ?]; discriminate|]. intros Hall.
        destruct (Hall name None (list_elem_of_here _ _)) as [_ (v & Hv & _)].
        discriminate.
    + split; [intros [? ?]; discriminate|]. intros Hall.
      destruct (Hall name flink_gauge (list_elem_of_here _ _)) as [[? Hb] _].
      congruence.
Qed.

Lemma set_gauges_shown _flink_gauge : forall _beam_gauge beam,
  NoDup _flink_gauge.*1 ->
  set_gauges set_returns _flink_gauge _beam_gauge = Some beam ->
  gauges_shown _flink_gauge beam
  /\ forall name, name ∉ _flink_gauge.*1 -> beam !! name = _beam_gauge !! name.
Proof.
  unfold gauges_shown.
  induction _flink_gauge as [|[name flink_gauge] rest IH];
    intros _beam_gauge beam Hnodup; simpl.
  - intros [= <-]. split; [intros ? ? Hin; inversion Hin|reflexivity].
  - simpl in Hnodup. apply NoDup_cons in Hnodup as [Hfresh Hnodup].
    destruct (_beam_gauge !! name) as [beam_gauge|]; [|discriminate].
    destruct flink_gauge as [value|]; [|discriminate].
    destruct (set_returns name value); [|discriminate].
    intros Hrest. destruct (IH _ _ Hnodup Hrest) as [Hshown Hother].
    split.
    + intros n v Hin. apply elem_of_cons in Hin as [[= -> ->]|Hin].
      * rewrite (Hother name Hfresh). apply lookup_insert_eq.
      * now apply Hshown.
    + intros n Hn. apply not_elem_of_cons in Hn as [Hne Hn].
      rewrite (Hother n Hn). now rewrite lookup_insert_ne.
Qed.

(** X18.  [_update_gauge] on a metric group returns exactly when, in
    every group of the tree, each flink gauge has a beam gauge, the call
    of the flink gauge returns, and setting the beam gauge to the value
    returned returns.  So the update raises when a beam gauge is missing
    at any depth (a KeyError), when a flink gauge raises, and when a beam
    gauge refuses its value. *)
Theorem update_gauge_succeeds_iff_settable group :
  is_Some (update_group set_returns group)
  <-> every_group (gauges_settable set_returns) group.
Proof.
  induction group as [_flink_gauge _beam_gauge _sub_groups IH]
    using MetricGroup_groups_ind.
  rewrite every_group_unfold. cbn [update_group].
  rewrite <- set_gauges_is_Some.
  destruct (set_gauges set_returns _flink_gauge _beam_gauge) as [beam|];
    cbn [mbind option_bind].
  - assert (Hsubs : is_Some (mapM (update_group set_returns) _sub_groups)
                    <-> Forall (every_group (gauges_settable set_returns))
                               _sub_groups).
    { rewrite mapM_is_Some. rewrite !Forall_forall.
      rewrite Forall_forall in IH. split; intros H sub Hin.
      - apply IH; [exact Hin|]. apply H, Hin.
      - apply IH; [exact Hin|]. apply H, Hin. }
    rewrite <- Hsubs.
    destruct (mapM (update_group set_returns) _sub_groups) as [sub_groups|];
      cbn [mbind option_bind]; split.
    + intros _. split; eauto.
    + intros _. eauto.
    + intros [? ?]. discriminate.
    + intros [_ [? ?]]. discriminate.
  - split; [intros [? ?]; discriminate|intros [[? ?] _]; discriminate].
Qed.

(** X19.  After [_update_gauge] has returned, in every group of the tree
    whose flink gauges have distinct names each beam gauge named by a
    flink gauge shows the value of that flink gauge. *)
Theorem update_gauge_shows_flink_values group updated :
  every_group gauge_names_distinct group ->
  update_group set_returns group = Some updated ->
  every_group gauges_shown updated.
Proof.
  revert updated.
  induction group as [_flink_gauge _beam_gauge _sub_groups IH]
    using MetricGroup_groups_ind.
  intros updated Hdistinct. apply every_group_unfold in Hdistinct
    as [Hnames Hsubs].
  cbn [update_group].
  destruct (set_gauges set_returns _flink_gauge _beam_gauge) as [beam|] eqn:Hset;
    [|discriminate]. cbn [mbind option_bind].
  destruct (mapM (update_group set_returns) _sub_groups) as [sub_groups|] eqn:Hmap;
    [|discriminate]. cbn [mbind option_bind]. intros [= <-].
  apply every_group_unfold. split.
  - exact (proj1 (set_gauges_shown _ _ _ Hnames Hset)).
  - apply mapM_Some in Hmap. apply Forall_forall. intros sub' Hin.
    apply list_elem_of_lookup in Hin as [k Hk].
    destruct (Forall2_lookup_r _ _ _ _ _ Hmap Hk) as (sub & Hsub & Hupdate).
    apply list_elem_of_lookup_2 in Hsub.
    rewrite Forall_forall in IH, Hsubs.
    exact (IH sub Hsub sub' (Hsubs sub Hsub) Hupdate).
Qed.

End metric_groups.

(** The group whose beam gauge of [late] is missing: the update raises,
    and so does [finish]. *)
Example update_gauge_missing_beam_gauge :
  Operation.update_group MetricExamples.set_always_returns
    MetricExamples.broken_group = None
  /\ StatefulFunctionOperation.finish MetricExamples.set_always_returns
       (Some MetricExamples.broken_group) true
     = None.
Proof. split; reflexivity. Qed.

(** Every beam gauge is there, and the update raises all the same: a
    flink gauge raises, or a beam gauge refuses the value. *)
Example update_gauge_raising_flink_gauge :
  every_group gauges_bound MetricExamples.raising_group
  /\ Operation.update_group MetricExamples.set_always_returns
       MetricExamples.raising_group = None.
Proof.
  split; [|reflexivity].
  repeat split; intros name Hin; cbn in Hin;
    repeat (apply elem_of_cons in Hin as [->|Hin]);
    try (vm_compute; eauto); inversion Hin.
Qed.

Example update_gauge_refused_value :
  Operation.update_group MetricExamples.set_refuses_negative
    MetricExamples.negative_group = None
  /\ is_Some (Operation.update_group MetricExamples.set_always_returns
                MetricExamples.negative_group).
Proof. split; [reflexivity|vm_compute; eauto]. Qed.

Lemma update_gauge_shows_flink_values_witness :
  every_group gauges_shown
    (Operation.GenericMetricGroup [("rows", Some 7)] {[ "rows" := 7 ]}
       [Operation.GenericMetricGroup [("keys", Some 2); ("late", Some 1)]
          {[ "keys" := 2; "late" := 1; "other" := 5 ]} []]).
Proof.
  apply (update_gauge_shows_flink_values MetricExamples.set_refuses_negative
           MetricExamples.group).
  - repeat split; unfold gauge_names_distinct;
      apply (bool_decide_unpack _); vm_compute; exact I.
  - vm_compute. reflexivity.
Defined.

(** ** generate_func: the lists of the first loop *)

Section extract_loop_facts.
Import AbstractStreamGroupAggregateOperation.
Context {Udf UserDefinedAgg InputExtractor DistinctKey : Type}.
Variable extract :
  Z -> Udf -> @DistinctInfoDict DistinctKey ->
  PyResult (UserDefinedAgg * InputExtractor * Z * Z)
  * @DistinctInfoDict DistinctKey.

Lemma extract_loop_lengths udfs : forall i acc x,
  extract_loop extract i udfs acc = ok x ->
  length (user_defined_aggs x)
  = (length (user_defined_aggs acc) + length udfs)%nat
  /\ length (input_extractors x)
     = (length (input_extractors acc) + length udfs)%nat
  /\ length (ex_filter_args x)
     = (length (ex_filter_args acc) + length udfs)%nat
  /\ length (distinct_indexes x)
     = (length (distinct_indexes acc) + length udfs)%nat.
Proof.
  induction udfs as [|udf udfs IH]; intros i acc x; simpl.
  - intros [= <-]. repeat split; lia.
  - destruct (extract i udf (distinct_info_dict acc))
      as [[e|[[[agg extractor] filter_arg] distinct_index]] d]; [discriminate|].
    intros Hrest. destruct (IH _ _ _ Hrest) as (H1 & H2 & H3 & H4).
    cbn in H1, H2, H3, H4. rewrite length_app in H1, H2, H3, H4.
    simpl in H1, H2, H3, H4. repeat split; lia.
Qed.

(** X20.  When the first loop of [generate_func] ends, the lists of
    aggregate functions, input extractors, filter arguments and distinct
    indexes have one entry per udf each, so that an aggregate index is a
    position in all four. *)
Theorem extracted_lists_are_aligned udfs x :
  extract_loop extract 0 udfs (mkExtracted [] [] [] [] []) = ok x ->
  length (user_defined_aggs x) = length udfs
  /\ length (input_extractors x) = length udfs
  /\ length (ex_filter_args x) = length udfs
  /\ length (distinct_indexes x) = length udfs.
Proof.
  intros Hloop. destruct (extract_loop_lengths _ _ _ _ Hloop) as (H1 & H2 & H3 & H4).
  simpl in H1, H2, H3, H4. repeat split; assumption.
Qed.

End extract_loop_facts.

(** The four functions of the examples. *)
Lemma extracted_lists_are_aligned_witness :
  length (AbstractStreamGroupAggregateOperation.user_defined_aggs
            Examples.extracted) = length Examples.udfs
  /\ length (AbstractStreamGroupAggregateOperation.input_extractors
               Examples.extracted) = length Examples.udfs
  /\ length (AbstractStreamGroupAggregateOperation.ex_filter_args
               Examples.extracted) = length Examples.udfs
  /\ length (AbstractStreamGroupAggregateOperation.distinct_indexes
               Examples.extracted) = length Examples.udfs.
Proof.
  apply (extracted_lists_are_aligned Examples.extract_function
           Examples.udfs Examples.extracted).
  reflexivity.
Defined.
